(** * Citation analysis tool: a shallow embedding of [getcitatations.py]

    The development follows the source file top to bottom:
    - Python strings and the string methods the script calls
      ([strip], [startswith], [replace], [split], [endswith]);
    - Python values as they come out of [response.json()] and pandas
      cells, with truthiness, [==] and [>];
    - the outside world of the script: console, clock, file system,
      HTTP, pandas;
    - [load_dois_from_file], the three provider clients,
      [save_checkpoint] / [load_checkpoint], [analyze_citations] and
      the input stage of [main].

    Conventions.
    - A Python [str] is a Rocq [string] whose characters are code points
      below 256.
    - Python [int] is [Z]. Of the floats the model has NaN and those of
      integral value below [2^53] in magnitude, which is what pandas
      makes of missing cells and of the integers beside them; other
      floats (non-integer JSON numbers) are outside the model.
    - Durations handed to [time.sleep] are in milliseconds.
    - Only synchronous exceptions are modelled; all of them derive from
      Python's [Exception], so [except Exception] catches each of them. *)

From Stdlib Require Import ZArith Lia String Ascii List Bool.
From stdpp Require Import base list strings gmap pretty.
Import ListNotations.
Local Open Scope string_scope.
Local Open Scope Z_scope.
Local Set Warnings "-register-all,-clear-no-such-hyp,-abstract-large-number".

(** ** Python strings *)

Module PyStr.

(** [str.isspace] on one character, for code points below 256:
    TAB..CR, FS..US, space, NEL and NBSP. *)
Definition is_space (c : ascii) : bool :=
  let n := Z.of_nat (nat_of_ascii c) in
  ((9 <=? n) && (n <=? 13)) || ((28 <=? n) && (n <=? 32))
  || (n =? 133) || (n =? 160).

(** [s.lstrip()] *)
Fixpoint lstrip (s : string) : string :=
  match s with
  | EmptyString => EmptyString
  | String c s' => if is_space c then lstrip s' else s
  end.

(** [s.rstrip()] *)
Fixpoint rstrip (s : string) : string :=
  match s with
  | EmptyString => EmptyString
  | String c s' =>
      match rstrip s' with
      | EmptyString => if is_space c then EmptyString else String c EmptyString
      | r => String c r
      end
  end.

(** [s.strip()] *)
Definition strip (s : string) : string := rstrip (lstrip s).

(** [s.startswith(p)] *)
Fixpoint startswith (s p : string) {struct p} : bool :=
  match p, s with
  | EmptyString, _ => true
  | String a p', String b s' => if Ascii.eqb a b then startswith s' p' else false
  | String _ _, EmptyString => false
  end.

(** [s[n:]] *)
Fixpoint drop (n : nat) (s : string) : string :=
  match n, s with
  | O, _ => s
  | S n', String _ s' => drop n' s'
  | S _, EmptyString => EmptyString
  end.

(** [s.endswith(p)] *)
Definition endswith (s p : string) : bool :=
  (String.length p <=? String.length s)%nat
  && String.eqb (drop (String.length s - String.length p) s) p.

(** [s.replace(old, '')] for a non-empty [old]: every non-overlapping
    occurrence of [old], found scanning left to right, is deleted.
    [skip] counts the characters of the occurrence under deletion that
    are still to be dropped. *)
Fixpoint delete_from (old : string) (skip : nat) (s : string) : string :=
  match s with
  | EmptyString => EmptyString
  | String c s' =>
      match skip with
      | S k => delete_from old k s'
      | O =>
          if startswith s old
          then delete_from old (Nat.pred (String.length old)) s'
          else String c (delete_from old O s')
      end
  end.

Definition replace_with_empty (s old : string) : string :=
  delete_from old O s.

(** [s.split(sep)] for a one-character separator. *)
Fixpoint split (sep : ascii) (s : string) : list string :=
  match s with
  | EmptyString => [EmptyString]
  | String c s' =>
      if Ascii.eqb c sep then EmptyString :: split sep s'
      else match split sep s' with
           | h :: t => String c h :: t
           | [] => [String c EmptyString]
           end
  end.

(** [sep.join(l)] *)
Fixpoint join (sep : string) (l : list string) : string :=
  match l with
  | [] => EmptyString
  | [x] => x
  | x :: l' => x ++ sep ++ join sep l'
  end.

(** Truthiness of a string: [if s:] *)
Definition nonempty (s : string) : bool :=
  match s with EmptyString => false | _ => true end.

(** [c * n] *)
Fixpoint repeat (c : ascii) (n : nat) : string :=
  match n with
  | O => EmptyString
  | S n' => String c (repeat c n')
  end.

(** [s.zfill(width)] for the digits of a non-negative number *)
Definition zfill (width : nat) (s : string) : string :=
  repeat "0"%char (width - String.length s) ++ s.

(** The lines of a text file opened in text mode: a line ends at LF, CR
    or CR LF. The terminators are left out and the piece after the last
    terminator is listed even when empty; [load_dois_from_file] strips
    every line and drops the empty ones, so neither shows there.
    [after_cr] tells that the previous character was a CR. *)
Fixpoint file_lines (after_cr : bool) (s : string) : list string :=
  match s with
  | EmptyString => [EmptyString]
  | String c s' =>
      if Ascii.eqb c "010"%char then
        if after_cr then file_lines false s'
        else EmptyString :: file_lines false s'
      else if Ascii.eqb c "013"%char then EmptyString :: file_lines true s'
      else match file_lines false s' with
           | h :: t => String c h :: t
           | [] => [String c EmptyString]
           end
  end.

End PyStr.

(** ** Identifier loader: the cleaning loop of [load_dois_from_file] *)

(** Lines 43-47: one identifier. *)
Definition clean_doi (doi : string) : string :=
  let doi := PyStr.strip doi in
  if PyStr.startswith doi "https://doi.org/"
  then PyStr.replace_with_empty doi "https://doi.org/"
  else if PyStr.startswith doi "doi:"
  then PyStr.replace_with_empty doi "doi:"
  else doi.

(** Lines 41-49: the loop building [cleaned_dois]. *)
Fixpoint clean_dois (dois : list string) : list string :=
  match dois with
  | [] => []
  | doi :: rest =>
      let doi := clean_doi doi in
      if PyStr.nonempty doi then doi :: clean_dois rest else clean_dois rest
  end.

(** ** Python values *)

(** Exceptions raised by the modelled operations; [OtherError] stands for
    any further subclass of [Exception] the outside world may raise. *)
Inductive exn : Type :=
| ConnectionError | Timeout | JSONDecodeError
| AttributeError | TypeError | KeyError | IndexError | ValueError
| ZeroDivisionError | OverflowError | FileNotFoundError | OSError | EOFError
| EmptyDataError | ParserError
| OtherError (name : string).

(** The floats of the model: NaN, which pandas puts where a value is
    missing, and the floats whose value is an integer, which pandas
    makes of the integers of a column that has a missing value. *)
Inductive pyfloat : Type :=
| FNaN
| FInt (n : Z).

(** The values that [json.loads] produces, which are also the values held
    in the result records. [PNone] is Python's [None], the absent
    sentinel of the provider clients. A [PDict] lists the items of a dict
    in insertion order, its keys pairwise distinct. *)
Inductive pyval : Type :=
| PNone
| PBool (b : bool)
| PInt (n : Z)
| PStr (s : string)
| PList (l : list pyval)
| PDict (kv : list (string * pyval))
| PFloat (f : pyfloat).

(** A result row: the dict literal of lines 186-193, or a row of a
    loaded checkpoint. *)
Definition record : Type := list (string * pyval).

Module Py.

(** [d.get(k)] on the items of a dict *)
Fixpoint assoc (k : string) (kv : list (string * pyval)) : option pyval :=
  match kv with
  | [] => None
  | (k', v) :: kv' => if String.eqb k k' then Some v else assoc k kv'
  end.

(** [bool(v)] *)
Definition truthy (v : pyval) : bool :=
  match v with
  | PNone => false
  | PBool b => b
  | PInt n => negb (n =? 0)
  | PStr s => PyStr.nonempty s
  | PList l => match l with [] => false | _ => true end
  | PDict kv => match kv with [] => false | _ => true end
  | PFloat FNaN => true
  | PFloat (FInt n) => negb (n =? 0)
  end.

(** [bool] is a subclass of [int]: the integer a number stands for. *)
Definition as_int (v : pyval) : option Z :=
  match v with
  | PBool b => Some (if b then 1 else 0)
  | PInt n => Some n
  | _ => None
  end.

(** The float a number compares as. *)
Definition as_float (v : pyval) : option pyfloat :=
  match v with
  | PBool b => Some (FInt (if b then 1 else 0))
  | PInt n => Some (FInt n)
  | PFloat f => Some f
  | _ => None
  end.

(** [==] and [>] on numbers: NaN equals nothing and is greater than
    nothing, itself included. *)
Definition float_eq (f g : pyfloat) : bool :=
  match f, g with
  | FInt n, FInt m => n =? m
  | _, _ => false
  end.

Definition float_gt (f g : pyfloat) : bool :=
  match f, g with
  | FInt n, FInt m => n >? m
  | _, _ => false
  end.

(** [a == b] *)
Fixpoint eq (a b : pyval) : bool :=
  match a, b with
  | PNone, PNone => true
  | PBool x, PBool y => Bool.eqb x y
  | PBool x, PInt n => (if x then 1 else 0) =? n
  | PInt n, PBool y => n =? (if y then 1 else 0)
  | PInt n, PInt m => n =? m
  | PFloat f, PFloat g => float_eq f g
  | PFloat f, PInt n => float_eq f (FInt n)
  | PInt n, PFloat g => float_eq (FInt n) g
  | PFloat f, PBool y => float_eq f (FInt (if y then 1 else 0))
  | PBool x, PFloat g => float_eq (FInt (if x then 1 else 0)) g
  | PStr s, PStr t => String.eqb s t
  | PList l, PList m =>
      (fix go (l m : list pyval) : bool :=
         match l, m with
         | [], [] => true
         | x :: l', y :: m' => eq x y && go l' m'
         | _, _ => false
         end) l m
  | PDict kv, PDict kw =>
      (length kv =? length kw)%nat
      && forallb (fun '(k, v) =>
                    match assoc k kw with
                    | Some w => eq v w
                    | None => false
                    end) kv
  | _, _ => false
  end.

(** [a > b]; [inl TypeError] where Python refuses to order the operands. *)
Fixpoint gt (a b : pyval) : exn + bool :=
  match a, b with
  | PBool x, PBool y => inr ((if x then 1 else 0) >? (if y then 1 else 0))
  | PBool x, PInt n => inr ((if x then 1 else 0) >? n)
  | PInt n, PBool y => inr (n >? (if y then 1 else 0))
  | PInt n, PInt m => inr (n >? m)
  | PFloat f, PFloat g => inr (float_gt f g)
  | PFloat f, PInt n => inr (float_gt f (FInt n))
  | PInt n, PFloat g => inr (float_gt (FInt n) g)
  | PFloat f, PBool y => inr (float_gt f (FInt (if y then 1 else 0)))
  | PBool x, PFloat g => inr (float_gt (FInt (if x then 1 else 0)) g)
  | PStr s, PStr t =>
      inr (match String.compare s t with Gt => true | _ => false end)
  | PList l, PList m =>
      (fix go (l m : list pyval) : exn + bool :=
         match l, m with
         | x :: l', y :: m' => if eq x y then go l' m' else gt x y
         | _ :: _, [] => inr true
         | [], _ => inr false
         end) l m
  | _, _ => inl TypeError
  end.

(** [any(l)] *)
Definition any (l : list pyval) : bool := existsb truthy l.

(** [filter(None, l)] *)
Definition filter_truthy (l : list pyval) : list pyval := List.filter truthy l.

(** The loop of the builtin [max]: the running maximum is replaced by an
    item that compares greater. *)
Fixpoint max_from (cur : pyval) (rest : list pyval) : exn + pyval :=
  match rest with
  | [] => inr cur
  | x :: rest' =>
      match gt x cur with
      | inl e => inl e
      | inr true => max_from x rest'
      | inr false => max_from cur rest'
      end
  end.

(** [max(l)]; an empty argument raises [ValueError]. *)
Definition max (l : list pyval) : exn + pyval :=
  match l with
  | [] => inl ValueError
  | x :: rest => max_from x rest
  end.

(** [x in s] for a set (or list) [s] of values *)
Definition mem (x : pyval) (s : list pyval) : bool := existsb (eq x) s.

(** [{v for v in l}]: the distinct values of [l] *)
Fixpoint set_of (l : list pyval) : list pyval :=
  match l with
  | [] => []
  | x :: l' => let s := set_of l' in if mem x s then s else x :: s
  end.

(** [sub in s] on strings *)
Fixpoint str_contains (s sub : string) : bool :=
  PyStr.startswith s sub
  || match s with
     | EmptyString => false
     | String _ s' => str_contains s' sub
     end.

(** [k in data] *)
Definition contains (data : pyval) (k : string) : exn + bool :=
  match data with
  | PDict kv => inr (match assoc k kv with Some _ => true | None => false end)
  | PList l => inr (mem (PStr k) l)
  | PStr s => inr (str_contains s k)
  | _ => inl TypeError
  end.

(** [data[k]] with a string key *)
Definition getitem (data : pyval) (k : string) : exn + pyval :=
  match data with
  | PDict kv => match assoc k kv with Some v => inr v | None => inl KeyError end
  | _ => inl TypeError
  end.

(** [data.get(k, default)]: only a dict has the method. *)
Definition get (data : pyval) (k : string) (default : pyval) : exn + pyval :=
  match data with
  | PDict kv => inr (match assoc k kv with Some v => v | None => default end)
  | _ => inl AttributeError
  end.

End Py.

(** Line 191: the [max_citations] entry of a result row. *)
Definition max_citations (crossref_count openalex_count dimensions_count : pyval)
  : exn + pyval :=
  let counts := [crossref_count; openalex_count; dimensions_count] in
  if Py.any counts then Py.max (Py.filter_truthy counts) else inr (PInt 0).

(** [str(f)], for an integral value of less than 16 digits. *)
Definition float_str (f : pyfloat) : string :=
  match f with
  | FNaN => "nan"
  | FInt n => pretty n ++ ".0"
  end.

(** ** The world outside the script *)

(** [datetime.now()] *)
Record datetime : Type := {
  year : Z; month : Z; day : Z;
  hour : Z; minute : Z; second : Z; microsecond : Z
}.

Definition digits (width : nat) (n : Z) : string := PyStr.zfill width (pretty n).

(** [t.strftime('%Y%m%d_%H%M%S')] *)
Definition strftime_Ymd_HMS (t : datetime) : string :=
  digits 4 (year t) ++ digits 2 (month t) ++ digits 2 (day t) ++ "_"
  ++ digits 2 (hour t) ++ digits 2 (minute t) ++ digits 2 (second t).

(** [t.isoformat()] *)
Definition isoformat (t : datetime) : string :=
  digits 4 (year t) ++ "-" ++ digits 2 (month t) ++ "-" ++ digits 2 (day t)
  ++ "T" ++ digits 2 (hour t) ++ ":" ++ digits 2 (minute t) ++ ":"
  ++ digits 2 (second t)
  ++ (if microsecond t =? 0 then "" else "." ++ digits 6 (microsecond t)).

Inductive Provider : Type := CrossRef | OpenAlex | Dimensions.

Inductive Level : Type := INFO | WARNING | ERROR.

(** The messages handed to [logger], with the values their f-strings
    interpolate. *)
Inductive LogMsg : Type :=
| LoadedDois (n : nat) (filepath : string)
| ErrorLoadingDois (filepath : string) (e : exn)
| ApiStatus (p : Provider) (doi : string) (status : Z)
| ApiError (p : Provider) (doi : string) (e : exn)
| CheckpointSaved (n : nat)
| ErrorSavingCheckpoint (e : exn)
| CheckpointLoaded (n : nat)
| ErrorLoadingCheckpoint (e : exn)
| Resuming (processed remaining : nat)
| Starting (remaining : nat)
| Processing (current_progress : Z) (total : nat) (doi : string).

(** The arguments of one [requests.get]. *)
Record Request : Type := {
  url : string;
  headers : list (string * string);
  timeout : Z
}.

(** What the script reads of a [requests.Response]: the status and the
    outcome of [response.json()]. *)
Record Response : Type := {
  status_code : Z;
  json : exn + pyval
}.

(** Everything the script does to its surroundings, in the order it
    happens. *)
Inductive Event : Type :=
| EGet (r : Request)
| ESleep (ms : Z)
| ELog (lvl : Level) (msg : LogMsg)
| EPrint (line : string)
| EInput (prompt : string).

(** A cell of a pandas frame read from a CSV file; [CNa] is a missing
    cell, which holds NaN; [CFloat n] is the float of integral value [n]
    in a column of floats. *)
Inductive cell : Type :=
| CNa
| CBool (b : bool)
| CInt (n : Z)
| CStr (s : string)
| CFloat (n : Z).

Record DataFrame : Type := {
  columns : list string;
  rows : list (list cell)
}.

(** The lengths, in milliseconds, that [time.sleep] takes on every
    platform: up to [2^32 - 1], the longest wait of the Windows API. *)
Definition sleep_safe : Z := 4294967295.

(** The parts of the surroundings that answer the script: the clock, the
    network, the system's sleep and the pandas CSV writer and reader.
    [requests_get] sees the events so far, so answers may change over
    time. [sleep_refused tr ms] is the exception [time.sleep] raises on a
    length above [sleep_safe] instead of sleeping ([OverflowError]
    beyond the C time range, [OSError] where the system call refuses the
    length), or [None] when it sleeps. [to_csv results] is the text
    [pd.DataFrame(results).to_csv(f, index=False)] writes, or the
    exception of a failed write together with what the failure leaves
    in the file: [None] when the file is not touched, the text left
    behind when the file was opened, which empties it, before the write
    failed. [read_csv] is [pd.read_csv] on the text of a file. *)
Record Env : Type := {
  datetime_now : nat -> datetime;
  requests_get : list Event -> Request -> exn + Response;
  sleep_refused : list Event -> Z -> option exn;
  to_csv : list record -> (exn * option string) + string;
  read_csv : string -> exn + DataFrame
}.

(** The state the script changes: files, pending console input, the
    number of clock readings taken, and the events so far. *)
Record World : Type := {
  files : gmap string string;
  stdin : list string;
  clock_reads : nat;
  trace : list Event
}.

(** ** State and exceptions *)

(** A computation changes the world and returns a value or raises; the
    changes made before a raise stay. *)
Definition M (A : Type) : Type := World -> (exn + A) * World.

Definition ret {A} (a : A) : M A := fun w => (inr a, w).

Definition raise {A} (e : exn) : M A := fun w => (inl e, w).

Definition bind {A B} (c : M A) (k : A -> M B) : M B :=
  fun w =>
    match c w with
    | (inr a, w') => k a w'
    | (inl e, w') => (inl e, w')
    end.

(** [try: body except Exception as e: handler e] *)
Definition try_except {A} (body : M A) (handler : exn -> M A) : M A :=
  fun w =>
    match body w with
    | (inr a, w') => (inr a, w')
    | (inl e, w') => handler e w'
    end.

(** A pure computation that may raise. *)
Definition lift {A} (r : exn + A) : M A := fun w => (r, w).

Declare Scope py_scope.
Delimit Scope py_scope with py.
Notation "x <- c ;; k" := (bind c (fun x => k))
  (at level 100, c at next level, right associativity) : py_scope.
Notation "c ;; k" := (bind c (fun _ => k))
  (at level 100, right associativity) : py_scope.
Local Open Scope py_scope.

Definition emit (e : Event) : M unit :=
  fun w => (inr tt, {| files := files w; stdin := stdin w;
                       clock_reads := clock_reads w;
                       trace := (trace w ++ [e])%list |}).

Definition log (lvl : Level) (msg : LogMsg) : M unit := emit (ELog lvl msg).

Definition print (line : string) : M unit := emit (EPrint line).


(** [input(prompt)] *)
Definition input (prompt : string) : M string :=
  fun w =>
    let tr := (trace w ++ [EInput prompt])%list in
    match stdin w with
    | [] => (inl EOFError, {| files := files w; stdin := [];
                              clock_reads := clock_reads w; trace := tr |})
    | line :: rest => (inr line, {| files := files w; stdin := rest;
                                    clock_reads := clock_reads w; trace := tr |})
    end.

(** [os.path.exists(path)] *)
Definition path_exists (path : string) : M bool :=
  fun w => (inr (match files w !! path with Some _ => true | None => false end),
            w).

(** The text of the file at [path]; a missing file raises. *)
Definition read_text (path : string) : M string :=
  fun w =>
    match files w !! path with
    | Some text => (inr text, w)
    | None => (inl FileNotFoundError, w)
    end.

Definition write_text (path text : string) : M unit :=
  fun w => (inr tt, {| files := <[path := text]> (files w); stdin := stdin w;
                       clock_reads := clock_reads w; trace := trace w |}).

Section Script.

Context (env : Env).

(** [datetime.now()] *)
Definition now : M datetime :=
  fun w => (inr (datetime_now env (clock_reads w)),
            {| files := files w; stdin := stdin w;
               clock_reads := S (clock_reads w); trace := trace w |}).

(** [requests.get(url, headers=..., timeout=...)] *)
Definition http_get (r : Request) : M Response :=
  fun w => (requests_get env (trace w) r,
            {| files := files w; stdin := stdin w;
               clock_reads := clock_reads w; trace := (trace w ++ [EGet r])%list |}).

(** [pd.read_csv(path)] *)
Definition pd_read_csv (path : string) : M DataFrame :=
  text <- read_text path ;; lift (read_csv env text).

(** [pd.DataFrame(results).to_csv(path, index=False)] *)
Definition pd_to_csv (results : list record) (path : string) : M unit :=
  match to_csv env results with
  | inr text => write_text path text
  | inl (e, Some remains) => write_text path remains ;; raise e
  | inl (e, None) => raise e
  end.

(** [time.sleep(ms / 1000)]: a negative length raises [ValueError]; a
    length too long for the platform raises what the platform says. *)
Definition sleep (ms : Z) : M unit :=
  fun w =>
    if ms <? 0 then raise ValueError w
    else if ms <=? sleep_safe then emit (ESleep ms) w
    else match sleep_refused env (trace w) ms with
         | Some e => raise e w
         | None => emit (ESleep ms) w
         end.

(** *** [load_dois_from_file] (lines 25-55) *)

(** [name in df.columns] *)
Definition has_column (df : DataFrame) (name : string) : bool :=
  existsb (String.eqb name) (columns df).

(** Position of the first column called [name]. *)
Fixpoint column_index (name : string) (cols : list string) : option nat :=
  match cols with
  | [] => None
  | c :: cols' =>
      if String.eqb name c then Some O
      else match column_index name cols' with
           | Some i => Some (S i)
           | None => None
           end
  end.

(** The cells of column [i], top to bottom. *)
Definition column_cells (df : DataFrame) (i : nat) : list cell :=
  map (fun row => nth i row CNa) (rows df).

(** [series.dropna()] *)
Definition dropna (cells : list cell) : list cell :=
  List.filter (fun c => match c with CNa => false | _ => true end) cells.

(** [str(c)] for a cell that is not missing *)
Definition cell_str (c : cell) : string :=
  match c with
  | CNa => "nan"
  | CBool b => if b then "True" else "False"
  | CInt n => pretty n
  | CStr s => s
  | CFloat n => float_str (FInt n)
  end.

(** [series.dropna().astype(str).tolist()] *)
Definition series_to_strs (cells : list cell) : list string :=
  map cell_str (dropna cells).

(** Lines 31-34: the identifier column of a table. *)
Definition doi_column (df : DataFrame) : exn + list string :=
  if has_column df "doi" then
    match column_index "doi" (columns df) with
    | Some i => inr (series_to_strs (column_cells df i))
    | None => inl KeyError
    end
  else
    match columns df with
    | [] => inl IndexError
    | _ :: _ => inr (series_to_strs (column_cells df 0))
    end.

(** Line 38: [[line.strip() for line in f if line.strip()]] *)
Definition stripped_lines (text : string) : list string :=
  map PyStr.strip
    (List.filter (fun line => PyStr.nonempty (PyStr.strip line))
       (PyStr.file_lines false text)).

Definition load_dois_from_file (filepath : string) : M (list string) :=
  try_except
    (dois <- (if PyStr.endswith filepath ".csv" then
                df <- pd_read_csv filepath ;;
                lift (doi_column df)
              else
                text <- read_text filepath ;;
                ret (stripped_lines text)) ;;
     let cleaned_dois := clean_dois dois in
     log INFO (LoadedDois (length cleaned_dois) filepath) ;;
     ret cleaned_dois)
    (fun e =>
       log ERROR (ErrorLoadingDois filepath e) ;;
       ret []).

(** *** Provider clients (lines 57-117) *)

Definition dimensions_url (doi : string) : string :=
  "http://metrics-api.dimensions.ai/doi/" ++ doi.

Definition crossref_url (doi : string) : string :=
  "https://api.crossref.org/works/" ++ doi.

Definition openalex_url (doi : string) : string :=
  "https://api.openalex.org/works/doi:" ++ doi.

Definition crossref_headers : list (string * string) :=
  [("User-Agent", "Citation Analysis Tool (mailto:your-email@domain.com)")].

Definition get_dimensions_citations (doi : string) (timeout : Z) : M pyval :=
  try_except
    (response <- http_get {| url := dimensions_url doi; headers := [];
                             timeout := timeout |} ;;
     if status_code response =? 200 then
       data <- lift (json response) ;;
       lift (Py.get data "times_cited" (PInt 0))
     else if status_code response =? 404 then
       ret (PInt 0)
     else
       log WARNING (ApiStatus Dimensions doi (status_code response)) ;;
       ret PNone)
    (fun e =>
       log ERROR (ApiError Dimensions doi e) ;;
       ret PNone).

Definition get_crossref_citations (doi : string) (timeout : Z) : M pyval :=
  try_except
    (response <- http_get {| url := crossref_url doi;
                             headers := crossref_headers;
                             timeout := timeout |} ;;
     if status_code response =? 200 then
       data <- lift (json response) ;;
       has_message <- lift (Py.contains data "message") ;;
       if (has_message : bool) then
         message <- lift (Py.getitem data "message") ;;
         lift (Py.get message "is-referenced-by-count" (PInt 0))
       else
         ret (PInt 0)
     else if status_code response =? 404 then
       ret (PInt 0)
     else
       log WARNING (ApiStatus CrossRef doi (status_code response)) ;;
       ret PNone)
    (fun e =>
       log ERROR (ApiError CrossRef doi e) ;;
       ret PNone).

Definition get_openalex_citations (doi : string) (timeout : Z) : M pyval :=
  try_except
    (response <- http_get {| url := openalex_url doi; headers := [];
                             timeout := timeout |} ;;
     if status_code response =? 200 then
       data <- lift (json response) ;;
       lift (Py.get data "cited_by_count" (PInt 0))
     else if status_code response =? 404 then
       ret (PInt 0)
     else
       log WARNING (ApiStatus OpenAlex doi (status_code response)) ;;
       ret PNone)
    (fun e =>
       log ERROR (ApiError OpenAlex doi e) ;;
       ret PNone).

(** *** Checkpoint store (lines 119-139) *)

Definition save_checkpoint (results : list record) (checkpoint_file : string)
  : M unit :=
  try_except
    (pd_to_csv results checkpoint_file ;;
     log INFO (CheckpointSaved (length results)))
    (fun e => log ERROR (ErrorSavingCheckpoint e)).

(** A missing cell comes back as NaN, a float. *)
Definition cell_value (c : cell) : pyval :=
  match c with
  | CNa => PFloat FNaN
  | CBool b => PBool b
  | CInt n => PInt n
  | CStr s => PStr s
  | CFloat n => PFloat (FInt n)
  end.

(** [df.to_dict('records')] *)
Definition to_dict_records (df : DataFrame) : list record :=
  map (fun row => combine (columns df) (map cell_value row)) (rows df).

Definition load_checkpoint (checkpoint_file : string) : M (list record) :=
  try_except
    (found <- path_exists checkpoint_file ;;
     if (found : bool) then
       df <- pd_read_csv checkpoint_file ;;
       let results := to_dict_records df in
       log INFO (CheckpointLoaded (length results)) ;;
       ret results
     else
       ret [])
    (fun e =>
       log ERROR (ErrorLoadingCheckpoint e) ;;
       ret []).

(** *** [analyze_citations] (lines 141-207) *)

(** Line 153 *)
Definition checkpoint_name (t : datetime) : string :=
  "citation_analysis_checkpoint_" ++ strftime_Ymd_HMS t ++ ".csv".

(** [[result['doi'] for result in results]]; a row without the key
    raises [KeyError]. *)
Fixpoint doi_values (results : list record) : exn + list pyval :=
  match results with
  | [] => inr []
  | result :: rest =>
      match Py.getitem (PDict result) "doi" with
      | inl e => inl e
      | inr v =>
          match doi_values rest with
          | inl e => inl e
          | inr vs => inr (v :: vs)
          end
      end
  end.

(** Line 159: [[doi for doi in doi_list if doi not in processed_dois]] *)
Definition not_processed (processed_dois : list pyval) (doi_list : list string)
  : list string :=
  List.filter (fun doi => negb (Py.mem (PStr doi) processed_dois)) doi_list.

(** Lines 155-163: the rows to start from and the identifiers left. *)
Definition resume_state (doi_list : list string) (checkpoint_file : string)
    (resume_from_checkpoint : bool) : M (list record * list string) :=
  if resume_from_checkpoint then
    results <- load_checkpoint checkpoint_file ;;
    values <- lift (doi_values results) ;;
    let processed_dois := Py.set_of values in
    let remaining_dois := not_processed processed_dois doi_list in
    log INFO (Resuming (length processed_dois) (length remaining_dois)) ;;
    ret (results, remaining_dois)
  else
    ret ([], doi_list).

(** Lines 174-193: the three provider calls and the new row. *)
Definition process_doi (doi : string) : M record :=
  crossref_count <- get_crossref_citations doi 10 ;;
  sleep 500 ;;
  openalex_count <- get_openalex_citations doi 10 ;;
  sleep 500 ;;
  dimensions_count <- get_dimensions_citations doi 10 ;;
  max_count <- lift (max_citations crossref_count openalex_count
                       dimensions_count) ;;
  processed_at <- now ;;
  ret [("doi", PStr doi);
       ("crossref_citations", crossref_count);
       ("openalex_citations", openalex_count);
       ("dimensions_citations", dimensions_count);
       ("max_citations", max_count);
       ("processed_at", PStr (isoformat processed_at))].

(** Lines 170-202: the loop over [enumerate(remaining_dois, 1)], entered
    at index [i] with [todo] still to go. [n_remaining] is
    [len(remaining_dois)]. *)
Fixpoint process_all (checkpoint_file : string) (delay checkpoint_interval : Z)
    (total_dois processed_count n_remaining : nat) (i : Z)
    (todo : list string) (results : list record) : M (list record) :=
  match todo with
  | [] => ret results
  | doi :: todo' =>
      let current_progress := Z.of_nat processed_count + i in
      log INFO (Processing current_progress total_dois doi) ;;
      result <- process_doi doi ;;
      let results := (results ++ [result])%list in
      (if checkpoint_interval =? 0 then raise ZeroDivisionError
       else if i mod checkpoint_interval =? 0
            then save_checkpoint results checkpoint_file
            else ret tt) ;;
      (if i <? Z.of_nat n_remaining then sleep delay else ret tt) ;;
      process_all checkpoint_file delay checkpoint_interval
        total_dois processed_count n_remaining (i + 1) todo' results
  end.

(** The value returned stands for [pd.DataFrame(results)]: the rows the
    frame is built from. *)
Definition analyze_citations (doi_list : list string) (delay : Z)
    (checkpoint_interval : Z) (resume_from_checkpoint : bool)
  : M (list record) :=
  timestamp <- now ;;
  let checkpoint_file := checkpoint_name timestamp in
  start <- resume_state doi_list checkpoint_file resume_from_checkpoint ;;
  let results := fst start in
  let remaining_dois := snd start in
  let total_dois := length doi_list in
  let processed_count := length results in
  log INFO (Starting (length remaining_dois)) ;;
  results <- process_all checkpoint_file delay checkpoint_interval
               total_dois processed_count (length remaining_dois) 1
               remaining_dois results ;;
  save_checkpoint results checkpoint_file ;;
  ret results.

(** *** The input stage of [main] (lines 212-248) *)

Definition banner : string := PyStr.repeat "="%char 60.

(** Line 235: [[doi.strip() for doi in doi_input.split(",") if doi.strip()]] *)
Definition manual_dois (doi_input : string) : list string :=
  map PyStr.strip
    (List.filter (fun doi => PyStr.nonempty (PyStr.strip doi))
       (PyStr.split ","%char doi_input)).

(** Lines 228-230 and 237-239 *)
Definition truncate (what : string) (dois : list string) : M (list string) :=
  if 6000 <? Z.of_nat (length dois) then
    print ("Warning: " ++ pretty (length dois) ++ " DOIs " ++ what
           ++ ". Truncating to first 6000.") ;;
    ret (firstn (Z.to_nat 6000) dois)
  else ret dois.

(** Lines 244-248 *)
Definition found_dois (dois : list string) : M (option (list string)) :=
  match dois with
  | [] => print "No valid DOIs provided. Exiting." ;; ret None
  | _ :: _ =>
      print (String "010"%char "" ++ "Found " ++ pretty (length dois)
             ++ " DOIs to process") ;;
      ret (Some dois)
  end.

(** [None] when [main] returns before the analysis, else the identifier
    list the rest of [main] hands to [analyze_citations]. *)
Definition main_input : M (option (list string)) :=
  print banner ;;
  print "CITATION ANALYSIS TOOL" ;;
  print banner ;;
  choice <- input ("Enter DOI input method:" ++ String "010"%char ""
                   ++ "1. File path (txt or csv)" ++ String "010"%char ""
                   ++ "2. Manual entry (comma-separated)"
                   ++ String "010"%char "" ++ "Choice (1 or 2): ") ;;
  let input_method := PyStr.strip choice in
  if String.eqb input_method "1" then
    line <- input "Enter file path: " ;;
    let filepath := PyStr.strip line in
    dois <- load_dois_from_file filepath ;;
    match dois with
    | [] => print "No DOIs loaded. Exiting." ;; ret None
    | _ :: _ =>
        dois <- truncate "found" dois ;;
        found_dois dois
    end
  else if String.eqb input_method "2" then
    line <- input "Enter DOIs (comma-separated): " ;;
    let doi_input := PyStr.strip line in
    let dois := manual_dois doi_input in
    dois <- truncate "entered" dois ;;
    found_dois dois
  else
    print "Invalid choice. Exiting." ;; ret None.

End Script.

(** * Vocabulary of the properties *)

(** A provider result of the data model: an integer or absent. *)
Definition count (c : option Z) : pyval :=
  match c with
  | Some n => PInt n
  | None => PNone
  end.

(** The client of a provider, and the request it sends. *)
Definition client (env : Env) (p : Provider) : string -> Z -> M pyval :=
  match p with
  | CrossRef => get_crossref_citations env
  | OpenAlex => get_openalex_citations env
  | Dimensions => get_dimensions_citations env
  end.

Definition request_for (p : Provider) (doi : string) (timeout : Z) : Request :=
  match p with
  | CrossRef => {| url := crossref_url doi; headers := crossref_headers;
                   timeout := timeout |}
  | OpenAlex => {| url := openalex_url doi; headers := []; timeout := timeout |}
  | Dimensions => {| url := dimensions_url doi; headers := [];
                     timeout := timeout |}
  end.

(** The HTTP requests among the events, oldest first. *)
Fixpoint requests_of (tr : list Event) : list Request :=
  match tr with
  | [] => []
  | EGet r :: tr' => r :: requests_of tr'
  | _ :: tr' => requests_of tr'
  end.

(** The URLs requested, oldest first. *)
Definition requested_urls (tr : list Event) : list string :=
  map url (requests_of tr).

(** The three URLs of one identifier in the order CrossRef, OpenAlex,
    Dimensions. *)
Definition provider_urls (doi : string) : list string :=
  [crossref_url doi; openalex_url doi; dimensions_url doi].

(** The requests of one identifier, in the order they are sent. *)
Definition provider_requests (doi : string) : list Request :=
  [request_for CrossRef doi 10; request_for OpenAlex doi 10;
   request_for Dimensions doi 10].

(** The rows a checkpoint file holds: those pandas reads from the file
    called [file]; none when the file is missing or does not parse. *)
Definition checkpoint_rows (env : Env) (fs : gmap string string)
    (file : string) : list record :=
  match fs !! file with
  | Some text =>
      match read_csv env text with
      | inr df => to_dict_records df
      | inl _ => []
      end
  | None => []
  end.

(** [doi] is the identifier of some row of [loaded]. *)
Definition in_checkpoint (loaded : list record) (doi : string) : bool :=
  existsb (fun row =>
             match Py.assoc "doi" row with
             | Some (PStr s) => String.eqb doi s
             | _ => false
             end) loaded.

(** The identifiers of [doi_list] that no row of [loaded] carries, in
    the order and number in which [doi_list] has them. *)
Definition remaining_after (loaded : list record) (doi_list : list string)
  : list string :=
  List.filter (fun doi => negb (in_checkpoint loaded doi)) doi_list.

(** The identifier column of a result set. *)
Definition identifiers (results : list record) : list (option pyval) :=
  map (Py.assoc "doi") results.

(** The identifier entries of freshly built rows. *)
Definition fresh_identifiers (dois : list string) : list (option pyval) :=
  map (fun doi => Some (PStr doi)) dois.

(** A value is the identifier [d]. *)
Definition is_doi (d : string) (x : option pyval) : bool :=
  match x with
  | Some (PStr s) => String.eqb d s
  | _ => false
  end.

(** The number of rows of a result set whose identifier is [d]. *)
Definition rows_with (d : string) (results : list record) : nat :=
  length (List.filter (is_doi d) (identifiers results)).

(** How often a list names the identifier [d]. *)
Definition occurrences (d : string) (dois : list string) : nat :=
  length (List.filter (String.eqb d) dois).

(** The identifiers [load_dois_from_file] returns for [filepath] with
    the files of [w]. *)
Definition file_dois (env : Env) (w : World) (filepath : string)
  : list string :=
  match fst (load_dois_from_file env filepath w) with
  | inr dois => dois
  | inl _ => []
  end.

(** The identifier list the operator enters at the console of [w],
    before the cap: from the file named on the second line after choice
    1, from the second line itself after choice 2. *)
Definition entered_dois (env : Env) (w : World) : option (list string) :=
  match stdin w with
  | choice :: line :: _ =>
      if String.eqb (PyStr.strip choice) "1"
      then Some (file_dois env w (PyStr.strip line))
      else if String.eqb (PyStr.strip choice) "2"
           then Some (manual_dois (PyStr.strip line))
           else None
  | _ => None
  end.

(** Line 229 and line 238: the warning printed when the list is cut. *)
Definition truncation_warning (what : string) (n : nat) : string :=
  "Warning: " ++ pretty n ++ " DOIs " ++ what ++ ". Truncating to first 6000.".

(** Provider answers that fit the data model: every client returns an
    integer or the absent sentinel. Failed calls are of this kind. *)
Definition answers_are_counts (env : Env) : Prop :=
  forall p doi w, exists c, fst (client env p doi 10 w) = inr (count c).

(** The files of [w'] are those of [w] except possibly the one called
    [file]. *)
Definition same_files_except (file : string) (w w' : World) : Prop :=
  forall path, path <> file -> files w' !! path = files w !! path.

(** ** An environment for examples

    Every request is answered with status 200 and the same body; the
    clock advances one minute per reading; the CSV writer and reader are
    a plain comma-separated dialect without quoting or type inference.
    The general theorems hold for every environment; this one serves the
    concrete runs below. *)
Module Example.

Definition clock (k : nat) : datetime :=
  {| year := 2024; month := 5; day := 17;
     hour := 9; minute := Z.of_nat k; second := 30; microsecond := 0 |}.

Definition body : pyval :=
  PDict [("message", PDict [("is-referenced-by-count", PInt 12)]);
         ("cited_by_count", PInt 15);
         ("times_cited", PInt 9)].

Definition ok : exn + Response :=
  inr {| status_code := 200; json := inr body |}.

Definition csv_cell (v : pyval) : string :=
  match v with
  | PStr s => s
  | PInt n => pretty n
  | PBool b => if b then "True" else "False"
  | PFloat (FInt n) => float_str (FInt n)
  | _ => ""
  end.

Definition newline : string := String "010"%char "".

Definition write_csv (results : list record)
  : (exn * option string) + string :=
  match results with
  | [] => inr newline
  | first :: _ =>
      inr (PyStr.join newline
             (PyStr.join "," (map fst first)
              :: map (fun row => PyStr.join "," (map (fun kv => csv_cell (snd kv)) row))
                   results)
           ++ newline)
  end.

Definition parse_cell (s : string) : cell :=
  if PyStr.nonempty s then CStr s else CNa.

Definition parse_csv (text : string) : exn + DataFrame :=
  match List.filter PyStr.nonempty (PyStr.file_lines false text) with
  | [] => inl EmptyDataError
  | header :: lines =>
      inr {| columns := PyStr.split ","%char header;
             rows := map (fun line => map parse_cell (PyStr.split ","%char line))
                       lines |}
  end.

(** A sleep of more than [2^63] nanoseconds does not fit the C time. *)
Definition too_long (tr : list Event) (ms : Z) : option exn :=
  if 9223372036854 <? ms then Some OverflowError else None.

(** The surroundings in which every request has the outcome [answer]. *)
Definition answering (answer : exn + Response) : Env :=
  {| datetime_now := clock; requests_get := fun _ _ => answer;
     sleep_refused := too_long; to_csv := write_csv; read_csv := parse_csv |}.

Definition env : Env := answering ok.

(** The same surroundings with a clock that stands still. *)
Definition env_same_second : Env :=
  {| datetime_now := fun _ => clock 0; requests_get := fun _ _ => ok;
     sleep_refused := too_long; to_csv := write_csv; read_csv := parse_csv |}.

Definition world0 : World :=
  {| files := ∅; stdin := []; clock_reads := 0; trace := [] |}.

End Example.

(** ** Vocabulary of the further properties *)

(** [w] after the events [evs] have happened. *)
Definition add_events (w : World) (evs : list Event) : World :=
  {| files := files w; stdin := stdin w; clock_reads := clock_reads w;
     trace := (trace w ++ evs)%list |}.

(** The present values of a list of counts that are not 0. *)
Definition nonzero_counts (counts : list (option Z)) : list Z :=
  flat_map (fun c => match c with
                     | Some n => if n =? 0 then [] else [n]
                     | None => []
                     end) counts.

(** The value of a field of a JSON object, 0 when the object has no such
    field. *)
Definition field_or_zero (k : string) (kv : list (string * pyval)) : pyval :=
  match Py.assoc k kv with
  | Some v => v
  | None => PInt 0
  end.

(** A line of text: a string without LF and CR. *)
Fixpoint no_newline (s : string) : bool :=
  match s with
  | EmptyString => true
  | String c s' =>
      negb (Ascii.eqb c "010"%char) && negb (Ascii.eqb c "013"%char)
      && no_newline s'
  end.

(** The rows pandas reads from the text of a checkpoint file; none when
    the text does not parse. *)
Definition rows_of_text (env : Env) (text : string) : list record :=
  match read_csv env text with
  | inr df => to_dict_records df
  | inl _ => []
  end.

(** The record a client logs about a failed call. *)
Definition is_api_log (e : Event) : bool :=
  match e with
  | ELog _ (ApiStatus _ _ _) | ELog _ (ApiError _ _ _) => true
  | _ => false
  end.

(** The requests and the sleeps among the events, oldest first: the pace
    of the script as the providers see it. *)
Fixpoint pace (tr : list Event) : list Event :=
  match tr with
  | [] => []
  | EGet r :: tr' => EGet r :: pace tr'
  | ESleep ms :: tr' => ESleep ms :: pace tr'
  | _ :: tr' => pace tr'
  end.

(** The pace of one identifier: three requests half a second apart. *)
Definition doi_pace (doi : string) : list Event :=
  [EGet (request_for CrossRef doi 10); ESleep 500;
   EGet (request_for OpenAlex doi 10); ESleep 500;
   EGet (request_for Dimensions doi 10)].

(** The groups in order, with [sep] between two neighbours. *)
Fixpoint between {A} (sep : list A) (groups : list (list A)) : list A :=
  match groups with
  | [] => []
  | [g] => g
  | g :: groups' => (g ++ sep ++ between sep groups')%list
  end.

(** The numbers of rows that the successful saves logged, oldest first. *)
Fixpoint saved_sizes (tr : list Event) : list nat :=
  match tr with
  | [] => []
  | ELog _ (CheckpointSaved n) :: tr' => n :: saved_sizes tr'
  | _ :: tr' => saved_sizes tr'
  end.

(** The keys of a fresh row, in the order of the dict literal. *)
Definition row_keys : list string :=
  ["doi"; "crossref_citations"; "openalex_citations"; "dimensions_citations";
   "max_citations"; "processed_at"].

(** [row] is a fresh row for [doi]: it has the six keys, its identifier
    is [doi], and its maximum is [max_citations] of its three counts. *)
Definition fresh_row (doi : string) (row : record) : Prop :=
  exists c o d m stamp,
    row = [("doi", PStr doi); ("crossref_citations", c);
           ("openalex_citations", o); ("dimensions_citations", d);
           ("max_citations", m); ("processed_at", PStr stamp)]
    /\ max_citations c o d = inr m.

(** The writer of the environment never fails. *)
Definition writer_reliable (env : Env) : Prop :=
  forall results, exists text, to_csv env results = inr text.

(** The sleeps and requests the loop plans from index [i] on:
    [n] is the number of identifiers of the run. *)
Fixpoint pace_plan (delay : Z) (n : nat) (i : Z) (todo : list string)
  : list Event :=
  match todo with
  | [] => []
  | doi :: todo' =>
      (doi_pace doi
       ++ (if i <? Z.of_nat n then [ESleep delay] else [])
       ++ pace_plan delay n (i + 1) todo')%list
  end.

(** The sizes the loop saves from index [i] on, with [rows] rows before
    and [todo] identifiers to go. *)
Fixpoint periodic_saves (checkpoint_interval i : Z) (rows todo : nat)
  : list nat :=
  match todo with
  | O => []
  | S todo' =>
      ((if i mod checkpoint_interval =? 0 then [S rows] else [])
       ++ periodic_saves checkpoint_interval (i + 1) (S rows) todo')%list
  end.

(** Worlds that hold a checkpoint file under the name the example clock
    gives at its first reading. *)
Module Checkpoints.

Definition name : string := "citation_analysis_checkpoint_20240517_090030.csv".

Definition holding (text : string) : World :=
  {| files := {[ name := text ]}; stdin := []; clock_reads := 0; trace := [] |}.

(** A table without an identifier column. *)
Definition without_identifiers : World :=
  holding ("title,year" ++ Example.newline ++ "A,1999" ++ Example.newline).

(** A checkpoint with the one identifier [10.1/a]. *)
Definition with_one_row : World :=
  holding ("doi" ++ Example.newline ++ "10.1/a" ++ Example.newline).

End Checkpoints.

(** The lines printed among the events, oldest first. *)
Fixpoint prints (tr : list Event) : list string :=
  match tr with
  | [] => []
  | EPrint line :: tr' => line :: prints tr'
  | _ :: tr' => prints tr'
  end.

(** Lines 212-214: what [main] prints before it asks anything. *)
Definition title_lines : list string :=
  [banner; "CITATION ANALYSIS TOOL"; banner].

(** Line 248: the line that announces the list. *)
Definition found_line (n : nat) : string :=
  String "010"%char "" ++ "Found " ++ pretty n ++ " DOIs to process".

(** * Properties *)

(** ** Maximum of the provider counts *)

Lemma max_citations_example_5_absent_3 :
  max_citations (PInt 5) PNone (PInt 3) = inr (PInt 5).
Proof. reflexivity. Qed.

Lemma max_citations_example_all_absent :
  max_citations PNone PNone PNone = inr (PInt 0).
Proof. reflexivity. Qed.

Lemma max_citations_example_all_zero :
  max_citations (PInt 0) (PInt 0) (PInt 0) = inr (PInt 0).
Proof. reflexivity. Qed.

Ltac split_counts :=
  repeat match goal with
    | |- context [?x =? 0] => destruct (Z.eqb_spec x 0); simpl
    | |- context [?x >? ?y] => destruct (Z.gtb_spec x y); simpl
    end.

(** C3. For provider results that are non-negative integers or absent,
    [max_citations] is an integer [m] that bounds every present value and
    is one of them, or is 0 when all three are absent; it is 0 when every
    present value is 0. The three examples of the specification hold. *)
Theorem max_citations_is_max_of_present :
  (forall c o d : option Z,
      (forall n, In (Some n) [c; o; d] -> 0 <= n) ->
      exists m,
        max_citations (count c) (count o) (count d) = inr (PInt m)
        /\ (forall n, In (Some n) [c; o; d] -> n <= m)
        /\ (In (Some m) [c; o; d]
            \/ (c = None /\ o = None /\ d = None /\ m = 0))
        /\ ((forall n, In (Some n) [c; o; d] -> n = 0) -> m = 0))
  /\ max_citations (PInt 5) PNone (PInt 3) = inr (PInt 5)
  /\ max_citations PNone PNone PNone = inr (PInt 0)
  /\ max_citations (PInt 0) (PInt 0) (PInt 0) = inr (PInt 0).
Proof.
  split; [| repeat split; reflexivity].
  intros c o d Hnn.
  destruct c as [c|], o as [o|], d as [d|];
    unfold max_citations, Py.any, Py.filter_truthy, Py.max; simpl;
    split_counts;
    eexists; (split; [reflexivity|]);
    simpl in *; naive_solver lia.
Qed.

Lemma max_citations_is_max_of_present_witness :
  exists m,
    max_citations (PInt 5) PNone (PInt 3) = inr (PInt m)
    /\ (forall n, In (Some n) [Some 5; None; Some 3] -> n <= m)
    /\ In (Some m) [Some 5; None; Some 3].
Proof.
  destruct (proj1 max_citations_is_max_of_present (Some 5) None (Some 3))
    as (m & Hm & Hle & [Hin | (Habs & _)] & _).
  - simpl. intros n [H | [H | [H | []]]]; inversion H; lia.
  - exists m. auto.
  - discriminate Habs.
Defined.

(** ** Provider clients *)

Lemma requests_of_app (tr1 tr2 : list Event) :
  requests_of (tr1 ++ tr2) = (requests_of tr1 ++ requests_of tr2)%list.
Proof.
  induction tr1 as [|e tr1 IH]; simpl; [reflexivity|].
  destruct e; simpl; rewrite ?IH; reflexivity.
Qed.

Lemma requests_of_get (tr : list Event) (r : Request) :
  requests_of (tr ++ [EGet r]) = (requests_of tr ++ [r])%list.
Proof. rewrite requests_of_app. reflexivity. Qed.

Lemma requests_of_log (tr : list Event) lvl msg :
  requests_of (tr ++ [ELog lvl msg]) = requests_of tr.
Proof. rewrite requests_of_app. simpl. apply app_nil_r. Qed.

Lemma requests_of_sleep (tr : list Event) ms :
  requests_of (tr ++ [ESleep ms]) = requests_of tr.
Proof. rewrite requests_of_app. simpl. apply app_nil_r. Qed.

Lemma requests_of_print (tr : list Event) line :
  requests_of (tr ++ [EPrint line]) = requests_of tr.
Proof. rewrite requests_of_app. simpl. apply app_nil_r. Qed.

Lemma requests_of_input (tr : list Event) prompt :
  requests_of (tr ++ [EInput prompt]) = requests_of tr.
Proof. rewrite requests_of_app. simpl. apply app_nil_r. Qed.

Create Rewrite HintDb trace_db.
#[local] Hint Rewrite requests_of_get requests_of_log requests_of_sleep
  requests_of_print requests_of_input : trace_db.

(** Unfolds the monad operations and the primitive effects. *)
Ltac run_m :=
  cbv beta iota zeta delta
    [bind try_except lift ret raise log print emit path_exists read_text
     write_text now http_get pd_read_csv pd_to_csv];
  simpl.

(** Unfolds a client down to the answer of the network. *)
Ltac run_client :=
  unfold client, request_for, get_crossref_citations, get_openalex_citations,
    get_dimensions_citations, try_except, bind, http_get, lift, ret, log, emit;
  simpl.

(** C4. Each of the three clients returns 0, not the absent sentinel,
    when the response to its request has status 404. *)
Theorem status_404_returns_zero (env : Env) (p : Provider) (doi : string)
    (timeout : Z) (w : World) (r : Response) :
  requests_get env (trace w) (request_for p doi timeout) = inr r ->
  status_code r = 404 ->
  fst (client env p doi timeout w) = inr (PInt 0).
Proof.
  intros Hget Hstatus.
  destruct p; run_client; simpl in Hget; rewrite Hget; simpl;
    rewrite Hstatus; reflexivity.
Qed.

Lemma status_404_returns_zero_witness :
  let answer := {| status_code := 404; json := inl JSONDecodeError |} in
  let env := Example.answering (inr answer) in
  requests_get env (trace Example.world0) (request_for OpenAlex "10.1/a" 10)
  = inr answer
  /\ status_code answer = 404
  /\ fst (client env OpenAlex "10.1/a" 10 Example.world0) = inr (PInt 0).
Proof.
  intros answer env. split; [reflexivity|]. split; [reflexivity|].
  apply (status_404_returns_zero env OpenAlex "10.1/a" 10 Example.world0 answer);
    reflexivity.
Defined.

(** What a client leaves behind: it returns a value, sends its one
    request and touches neither files, console input nor clock. *)
Lemma client_total (env : Env) (p : Provider) (doi : string) (timeout : Z)
    (w : World) :
  exists v w',
    client env p doi timeout w = (inr v, w')
    /\ requests_of (trace w')
       = (requests_of (trace w) ++ [request_for p doi timeout])%list
    /\ files w' = files w /\ stdin w' = stdin w
    /\ clock_reads w' = clock_reads w.
Proof.
  destruct p; run_client;
    (destruct (requests_get env (trace w) _) as [e|r]; simpl;
     [| destruct (status_code r =? 200); simpl;
        [ destruct (json r) as [e|data]; simpl;
          [| try (destruct (Py.contains data _) as [e|[]]; simpl;
                  [| destruct (Py.getitem data _) as [e|m]; simpl |]);
             match goal with
             | |- context [Py.get ?d ?k ?z] =>
                 destruct (Py.get d k z) as [e|v]; simpl
             | _ => idtac
             end ]
        | destruct (status_code r =? 404); simpl ] ]);
    do 2 eexists; (split; [reflexivity|]); simpl;
    autorewrite with trace_db; auto.
Qed.

(** C5. A client never raises. It returns the absent sentinel whenever
    the request raises (network error, timeout), the status is neither
    200 nor 404, or the status is 200 and parsing the body raises; the
    sentinel differs from 0; one call sends one request. *)
Theorem failed_call_returns_absent (env : Env) (p : Provider) (doi : string)
    (timeout : Z) (w : World) :
  let req := request_for p doi timeout in
  let out := client env p doi timeout w in
  (exists v, fst out = inr v)
  /\ requests_of (trace (snd out)) = (requests_of (trace w) ++ [req])%list
  /\ (forall e, requests_get env (trace w) req = inl e -> fst out = inr PNone)
  /\ (forall r, requests_get env (trace w) req = inr r ->
                status_code r <> 200 -> status_code r <> 404 ->
                fst out = inr PNone)
  /\ (forall r e, requests_get env (trace w) req = inr r ->
                  status_code r = 200 -> json r = inl e ->
                  fst out = inr PNone)
  /\ PNone <> PInt 0 /\ Py.eq PNone (PInt 0) = false.
Proof.
  intros req out. subst req out.
  split; [| split].
  { destruct (client_total env p doi timeout w) as (v & w' & -> & _). eauto. }
  { destruct (client_total env p doi timeout w) as (v & w' & -> & Hreq & _).
    exact Hreq. }
  repeat split; try discriminate.
  - intros e Hget. destruct p; revert Hget; run_client; intros ->; reflexivity.
  - intros r Hget H200 H404.
    apply Z.eqb_neq in H200. apply Z.eqb_neq in H404.
    destruct p; revert Hget; run_client; intros ->; simpl;
      rewrite H200, H404; reflexivity.
  - intros r e Hget H200 Hjson.
    destruct p; revert Hget; run_client; intros ->; simpl;
      rewrite H200, Hjson; reflexivity.
Qed.

Lemma failed_call_returns_absent_witness :
  fst (client (Example.answering (inl Timeout)) CrossRef "10.1/a" 10
         Example.world0) = inr PNone
  /\ fst (client (Example.answering
                    (inr {| status_code := 503; json := inr PNone |}))
            Dimensions "10.1/a" 10 Example.world0) = inr PNone
  /\ fst (client (Example.answering
                    (inr {| status_code := 200; json := inl JSONDecodeError |}))
            OpenAlex "10.1/a" 10 Example.world0) = inr PNone.
Proof.
  split; [| split].
  - apply (failed_call_returns_absent (Example.answering (inl Timeout))
             CrossRef "10.1/a" 10 Example.world0) with (e := Timeout).
    reflexivity.
  - apply (failed_call_returns_absent _ Dimensions "10.1/a" 10 Example.world0)
      with (r := {| status_code := 503; json := inr PNone |});
      [reflexivity | discriminate | discriminate].
  - apply (failed_call_returns_absent _ OpenAlex "10.1/a" 10 Example.world0)
      with (r := {| status_code := 200; json := inl JSONDecodeError |})
           (e := JSONDecodeError); reflexivity.
Defined.

(** ** Checkpoint store *)

Lemma save_checkpoint_effect (env : Env) (results : list record)
    (file : string) (w : World) :
  exists w',
    save_checkpoint env results file w = (inr tt, w')
    /\ requests_of (trace w') = requests_of (trace w)
    /\ same_files_except file w w'.
Proof.
  unfold save_checkpoint, same_files_except. run_m.
  destruct (to_csv env results) as [[e [remains|]]|text]; simpl;
    eexists; (split; [reflexivity|]); simpl;
    autorewrite with trace_db; (split; [reflexivity|]);
    intros path Hpath; try reflexivity;
    apply lookup_insert_ne; congruence.
Qed.

Lemma same_files_refl (file : string) (w : World) : same_files_except file w w.
Proof. intros path _. reflexivity. Qed.

Lemma same_files_eq (file : string) (w w' : World) :
  files w' = files w -> same_files_except file w w'.
Proof. intros H path _. rewrite H. reflexivity. Qed.

Lemma same_files_trans (file : string) (w1 w2 w3 : World) :
  same_files_except file w1 w2 -> same_files_except file w2 w3 ->
  same_files_except file w1 w3.
Proof. intros H12 H23 path Hpath. rewrite H23, H12; auto. Qed.

Lemma load_checkpoint_effect (env : Env) (file : string) (w : World) :
  exists w',
    load_checkpoint env file w = (inr (checkpoint_rows env (files w) file), w')
    /\ requests_of (trace w') = requests_of (trace w)
    /\ files w' = files w /\ stdin w' = stdin w
    /\ clock_reads w' = clock_reads w.
Proof.
  unfold load_checkpoint, checkpoint_rows. run_m.
  destruct (files w !! file) as [text|] eqn:Hfile; simpl.
  - rewrite ?Hfile. simpl.
    destruct (read_csv env text) as [e|df]; simpl;
      eexists; (split; [reflexivity|]); simpl;
      autorewrite with trace_db; auto.
  - eexists; split; [reflexivity|]; auto.
Qed.

(** ** Resume *)

Lemma eq_str (d : string) (v : pyval) :
  Py.eq (PStr d) v = match v with PStr s => String.eqb d s | _ => false end.
Proof. destruct v; reflexivity. Qed.

Lemma eq_str_true (d : string) (v : pyval) :
  Py.eq (PStr d) v = true -> v = PStr d.
Proof.
  rewrite eq_str. destruct v; try discriminate.
  intros H. apply String.eqb_eq in H. congruence.
Qed.

Lemma mem_str_set_of (d : string) (l : list pyval) :
  Py.mem (PStr d) (Py.set_of l) = Py.mem (PStr d) l.
Proof.
  induction l as [|x l IH]; [reflexivity|].
  cbn [Py.set_of]. destruct (Py.mem x (Py.set_of l)) eqn:Hx;
    unfold Py.mem in *; cbn [existsb]; rewrite IH.
  - destruct (Py.eq (PStr d) x) eqn:Hd; [|reflexivity].
    apply eq_str_true in Hd. subst x. rewrite <- IH. exact Hx.
  - reflexivity.
Qed.

Lemma mem_doi_values (results : list record) (vals : list pyval) (d : string) :
  doi_values results = inr vals ->
  Py.mem (PStr d) vals = in_checkpoint results d.
Proof.
  revert vals. induction results as [|row rest IH]; intros vals Hvals.
  - inversion Hvals. reflexivity.
  - simpl in Hvals.
    destruct (Py.assoc "doi" row) as [v|] eqn:Hrow; [|discriminate].
    destruct (doi_values rest) as [e|vs]; [discriminate|].
    inversion Hvals; subst vals.
    unfold Py.mem, in_checkpoint in *. cbn [existsb].
    rewrite Hrow, (IH vs eq_refl), eq_str. destruct v; reflexivity.
Qed.

Lemma not_processed_spec (results : list record) (vals : list pyval)
    (doi_list : list string) :
  doi_values results = inr vals ->
  not_processed (Py.set_of vals) doi_list = remaining_after results doi_list.
Proof.
  intros Hvals. unfold not_processed, remaining_after.
  induction doi_list as [|d l IH]; [reflexivity|].
  simpl. rewrite mem_str_set_of, (mem_doi_values _ _ d Hvals), IH.
  reflexivity.
Qed.

Lemma remaining_after_nil (doi_list : list string) :
  remaining_after [] doi_list = doi_list.
Proof.
  unfold remaining_after, in_checkpoint.
  induction doi_list as [|d l IH]; simpl; [reflexivity|].
  f_equal. exact IH.
Qed.

(** The start of a run: the rows found in the checkpoint file and the
    identifiers no such row carries; no request is sent. *)
Lemma resume_state_effect (env : Env) (doi_list : list string) (file : string)
    (resume : bool) (w : World) :
  let loaded := if resume then checkpoint_rows env (files w) file else [] in
  exists out w',
    resume_state env doi_list file resume w = (out, w')
    /\ requests_of (trace w') = requests_of (trace w)
    /\ files w' = files w
    /\ match out with
       | inr start =>
           fst start = loaded /\ snd start = remaining_after loaded doi_list
       | inl _ => resume = true
       end.
Proof.
  intros loaded. unfold resume_state. destruct resume; subst loaded.
  - unfold bind.
    destruct (load_checkpoint_effect env file w) as (w1 & -> & Hreq & Hf & _).
    unfold lift at 1.
    destruct (doi_values (checkpoint_rows env (files w) file)) as [e|vals]
      eqn:Hvals; simpl.
    + do 2 eexists. split; [reflexivity|]. auto.
    + unfold log, emit, ret. simpl.
      do 2 eexists. split; [reflexivity|]. simpl.
      autorewrite with trace_db. split; [exact Hreq|]. split; [exact Hf|].
      split; [reflexivity|]. apply not_processed_spec. exact Hvals.
  - unfold ret. do 2 eexists. split; [reflexivity|]. simpl.
    rewrite remaining_after_nil. auto.
Qed.

(** ** The run loop *)

(** One identifier: the three requests are sent in the order CrossRef,
    OpenAlex, Dimensions whether or not a row results, and a row carries
    the identifier it was built for. *)
Lemma process_doi_effect (env : Env) (doi : string) (w : World) :
  exists out w',
    process_doi env doi w = (out, w')
    /\ requests_of (trace w')
       = (requests_of (trace w) ++ provider_requests doi)%list
    /\ files w' = files w
    /\ match out with
       | inr row => Py.assoc "doi" row = Some (PStr doi)
       | inl _ => True
       end.
Proof.
  unfold process_doi, sleep, sleep_safe. run_m.
  destruct (client_total env CrossRef doi 10 w) as (c & w1 & H1 & R1 & F1 & _).
  cbn [client] in H1. rewrite H1.
  match goal with
  | |- context [get_openalex_citations env doi 10 ?w2] =>
      destruct (client_total env OpenAlex doi 10 w2)
        as (o & w3 & H2 & R2 & F2 & _)
  end.
  cbn [client] in H2. rewrite H2.
  match goal with
  | |- context [get_dimensions_citations env doi 10 ?w4] =>
      destruct (client_total env Dimensions doi 10 w4)
        as (d & w5 & H3 & R3 & F3 & _)
  end.
  cbn [client] in H3. rewrite H3.
  simpl in R2, R3, F2, F3. autorewrite with trace_db in R2, R3.
  assert (Hfiles : files w5 = files w) by congruence.
  assert (Hreq : requests_of (trace w5)
                 = (requests_of (trace w) ++ provider_requests doi)%list).
  { rewrite R3, R2, R1. unfold provider_requests.
    rewrite <- !app_assoc. reflexivity. }
  destruct (max_citations c o d) as [e|m]; simpl;
    do 2 eexists; (split; [reflexivity|]); simpl; auto.
Qed.

Lemma checkpoint_step_effect (env : Env) (checkpoint_interval i : Z)
    (results : list record) (file : string) (w : World) :
  exists out w',
    (if checkpoint_interval =? 0 then raise ZeroDivisionError
     else if i mod checkpoint_interval =? 0
          then save_checkpoint env results file
          else ret tt) w = (out, w')
    /\ requests_of (trace w') = requests_of (trace w)
    /\ same_files_except file w w'.
Proof.
  destruct (checkpoint_interval =? 0).
  - do 2 eexists. split; [reflexivity|]. split; [reflexivity|].
    apply same_files_refl.
  - destruct (i mod checkpoint_interval =? 0).
    + destruct (save_checkpoint_effect env results file w) as (w' & -> & R & F).
      eauto.
    + do 2 eexists. split; [reflexivity|]. split; [reflexivity|].
      apply same_files_refl.
Qed.

Lemma sleep_step_effect (env : Env) (delay i : Z) (n : nat) (w : World) :
  exists out w',
    (if i <? Z.of_nat n then sleep env delay else ret tt) w = (out, w')
    /\ requests_of (trace w') = requests_of (trace w)
    /\ files w' = files w.
Proof.
  destruct (i <? Z.of_nat n).
  - unfold sleep.
    destruct (delay <? 0);
      [|destruct (delay <=? sleep_safe);
        [|destruct (sleep_refused env (trace w) delay)]];
      run_m; do 2 eexists; (split; [reflexivity|]); simpl;
      autorewrite with trace_db; auto.
  - do 2 eexists. split; [reflexivity|]. auto.
Qed.

Lemma requests_of_first (doi : string) (todo : list string) :
  flat_map provider_requests (firstn 1 (doi :: todo)) = provider_requests doi.
Proof. reflexivity. Qed.

Lemma requests_of_next (doi : string) (todo : list string) (k : nat) :
  flat_map provider_requests (firstn (S k) (doi :: todo))
  = (provider_requests doi ++ flat_map provider_requests (firstn k todo))%list.
Proof. reflexivity. Qed.

(** The loop sends the requests of a prefix of [todo], identifier by
    identifier; when it returns it has gone through all of [todo] and
    appended one row per identifier, in order. *)
Lemma process_all_effect (env : Env) (file : string)
    (delay checkpoint_interval : Z) (total processed_count n : nat)
    (todo : list string) :
  forall (i : Z) (results : list record) (w : World),
  exists out w' k,
    process_all env file delay checkpoint_interval total processed_count n
      i todo results w = (out, w')
    /\ (k <= length todo)%nat
    /\ requests_of (trace w')
       = (requests_of (trace w)
          ++ flat_map provider_requests (firstn k todo))%list
    /\ same_files_except file w w'
    /\ match out with
       | inr rs =>
           k = length todo
           /\ exists new, rs = (results ++ new)%list
                          /\ identifiers new = fresh_identifiers todo
       | inl _ => True
       end.
Proof.
  induction todo as [|doi todo' IH]; intros i results w.
  - exists (inr results), w, O. simpl.
    repeat split; rewrite ?app_nil_r; auto using same_files_refl.
    exists []. rewrite app_nil_r. auto.
  - cbn [process_all]. unfold bind at 1, log, emit. cbn beta iota.
    unfold bind at 1.
    match goal with
    | |- context [process_doi env doi ?w1] =>
        destruct (process_doi_effect env doi w1)
          as (o1 & w2 & -> & R1 & F1 & Hrow)
    end.
    simpl in R1, F1. autorewrite with trace_db in R1.
    apply (same_files_eq file) in F1.
    destruct o1 as [e|row].
    { exists (inl e), w2, 1%nat. rewrite requests_of_first.
      repeat split; [simpl; lia | exact R1 | exact F1]. }
    unfold bind at 1.
    match goal with
    | |- context [save_checkpoint env ?rs file] =>
        destruct (checkpoint_step_effect env checkpoint_interval i rs file w2)
          as (o2 & w3 & -> & R2 & F2)
    end.
    pose proof (same_files_trans _ _ _ _ F1 F2) as F12.
    destruct o2 as [e|[]].
    { exists (inl e), w3, 1%nat. rewrite requests_of_first.
      repeat split; [simpl; lia | congruence | exact F12]. }
    unfold bind at 1.
    destruct (sleep_step_effect env delay i n w3) as (o3 & w4 & -> & R3 & F3).
    apply (same_files_eq file) in F3.
    pose proof (same_files_trans _ _ _ _ F12 F3) as F13.
    destruct o3 as [e|[]].
    { exists (inl e), w4, 1%nat. rewrite requests_of_first.
      repeat split; [simpl; lia | congruence | exact F13]. }
    destruct (IH (i + 1) (results ++ [row])%list w4)
      as (out & w5 & k & -> & Hk & R4 & F4 & Hout).
    exists out, w5, (S k). split; [reflexivity|].
    split; [simpl; lia|].
    split; [| split; [exact (same_files_trans _ _ _ _ F13 F4)|]].
    + rewrite requests_of_next, R4, R3, R2, R1, <- app_assoc. reflexivity.
    + destruct out as [e|rs]; [exact I|].
      destruct Hout as (-> & new & -> & Hnew).
      split; [reflexivity|].
      exists (row :: new). rewrite <- app_assoc. split; [reflexivity|].
      unfold identifiers, fresh_identifiers in *. simpl.
      rewrite Hrow, Hnew. reflexivity.
Qed.

(** A whole run: what [analyze_citations] starts from, which requests it
    sends, which file it may write and which rows it returns. *)
Lemma analyze_citations_effect (env : Env) (doi_list : list string)
    (delay checkpoint_interval : Z) (resume : bool) (w : World) :
  let file := checkpoint_name (datetime_now env (clock_reads w)) in
  let loaded := if resume then checkpoint_rows env (files w) file else [] in
  let remaining := remaining_after loaded doi_list in
  exists out w' k,
    analyze_citations env doi_list delay checkpoint_interval resume w
    = (out, w')
    /\ (k <= length remaining)%nat
    /\ requests_of (trace w')
       = (requests_of (trace w)
          ++ flat_map provider_requests (firstn k remaining))%list
    /\ same_files_except file w w'
    /\ match out with
       | inr rs =>
           k = length remaining
           /\ exists new, rs = (loaded ++ new)%list
                          /\ identifiers new = fresh_identifiers remaining
       | inl _ => True
       end.
Proof.
  intros file loaded remaining.
  unfold analyze_citations. unfold bind at 1, now. cbn beta iota.
  fold file. unfold bind at 1.
  match goal with
  | |- context [resume_state env doi_list file resume ?w0] =>
      destruct (resume_state_effect env doi_list file resume w0)
        as (o1 & w1 & -> & R1 & F1 & Hstart)
  end.
  simpl in R1, F1, Hstart. fold loaded in Hstart. fold remaining in Hstart.
  apply (same_files_eq file) in F1.
  destruct o1 as [e|[results remaining_dois]].
  { exists (inl e), w1, O. simpl. rewrite app_nil_r.
    repeat split; [lia | exact R1 | exact F1]. }
  simpl in Hstart. destruct Hstart as [-> ->].
  cbn [fst snd]. unfold bind at 1, log, emit. cbn beta iota.
  unfold bind at 1.
  match goal with
  | |- context [process_all env file delay checkpoint_interval ?t ?pc ?n 1
                  remaining loaded ?w2] =>
      destruct (process_all_effect env file delay checkpoint_interval t pc n
                  remaining 1 loaded w2)
        as (o2 & w3 & k & -> & Hk & R2 & F2 & Hout)
  end.
  simpl in R2, F2. autorewrite with trace_db in R2.
  assert (F02 : same_files_except file w w3).
  { eapply same_files_trans; [exact F1|]. intros path Hp. apply F2, Hp. }
  destruct o2 as [e|rs].
  { exists (inl e), w3, k. repeat split; [exact Hk | congruence | exact F02]. }
  unfold bind at 1.
  destruct (save_checkpoint_effect env rs file w3) as (w4 & -> & R3 & F3).
  exists (inr rs), w4, k. split; [reflexivity|].
  split; [exact Hk|]. split; [congruence|].
  split; [exact (same_files_trans _ _ _ _ F02 F3)|]. exact Hout.
Qed.

(** ** Order of processing *)

Lemma requested_urls_flat_map (dois : list string) :
  map url (flat_map provider_requests dois) = flat_map provider_urls dois.
Proof.
  induction dois as [|d l IH]; [reflexivity|].
  cbn [flat_map]. rewrite map_app, IH. reflexivity.
Qed.

Lemma in_checkpoint_spec (loaded : list record) (d : string) :
  in_checkpoint loaded d = true
  <-> exists row, In row loaded /\ Py.assoc "doi" row = Some (PStr d).
Proof.
  unfold in_checkpoint. rewrite existsb_exists. split.
  - intros (row & Hin & Hrow). exists row. split; [exact Hin|].
    destruct (Py.assoc "doi" row) as [[| | |s| | |]|]; try discriminate.
    apply String.eqb_eq in Hrow. congruence.
  - intros (row & Hin & Hrow). exists row. split; [exact Hin|].
    rewrite Hrow. apply String.eqb_refl.
Qed.

Lemma remaining_after_sublist (loaded : list record) (doi_list : list string) :
  sublist (remaining_after loaded doi_list) doi_list.
Proof.
  unfold remaining_after. induction doi_list as [|d l IH]; simpl.
  - constructor.
  - destruct (negb (in_checkpoint loaded d)); constructor; exact IH.
Qed.

Lemma remaining_after_In (loaded : list record) (doi_list : list string)
    (d : string) :
  In d (remaining_after loaded doi_list)
  <-> In d doi_list
      /\ ~ (exists row, In row loaded /\ Py.assoc "doi" row = Some (PStr d)).
Proof.
  unfold remaining_after. rewrite filter_In, <- in_checkpoint_spec.
  destruct (in_checkpoint loaded d); simpl; intuition congruence.
Qed.

(** C9. The identifiers a run processes are [remaining]: the input list
    without the identifiers carried by a row of the loaded checkpoint, in
    input order. The URLs requested during the run are, for a prefix of
    [remaining] and identifier by identifier, the CrossRef, the OpenAlex
    and the Dimensions URL in that order; the prefix is all of
    [remaining] when the run returns. *)
Theorem processing_order (env : Env) (doi_list : list string)
    (delay checkpoint_interval : Z) (resume : bool) (w : World) :
  let file := checkpoint_name (datetime_now env (clock_reads w)) in
  let loaded := if resume then checkpoint_rows env (files w) file else [] in
  let remaining := remaining_after loaded doi_list in
  let run := analyze_citations env doi_list delay checkpoint_interval resume w in
  sublist remaining doi_list
  /\ (forall d, In d remaining
                <-> In d doi_list
                    /\ ~ (exists row, In row loaded
                                      /\ Py.assoc "doi" row = Some (PStr d)))
  /\ exists k,
      (k <= length remaining)%nat
      /\ requested_urls (trace (snd run))
         = (requested_urls (trace w)
            ++ flat_map provider_urls (firstn k remaining))%list
      /\ (forall rs, fst run = inr rs -> k = length remaining).
Proof.
  intros file loaded remaining run.
  split; [apply remaining_after_sublist|].
  split; [apply remaining_after_In|].
  destruct (analyze_citations_effect env doi_list delay checkpoint_interval
              resume w) as (out & w' & k & Hrun & Hk & Hreq & _ & Hout).
  fold file loaded remaining in Hrun, Hk, Hreq, Hout.
  subst run. rewrite Hrun. cbn [fst snd].
  exists k. split; [exact Hk|]. split.
  - unfold requested_urls. rewrite Hreq, map_app, requested_urls_flat_map.
    reflexivity.
  - intros rs ->. apply Hout.
Qed.

(** A run on three identifiers, the second of which the checkpoint of
    the same second already holds. *)
Lemma processing_order_witness :
  let w := snd (analyze_citations Example.env_same_second ["10.1/b"] 2000 100
                  true Example.world0) in
  let run := analyze_citations Example.env_same_second
               ["10.1/a"; "10.1/b"; "10.1/c"] 2000 100 true w in
  requested_urls (trace (snd run))
  = (requested_urls (trace w)
     ++ flat_map provider_urls ["10.1/a"; "10.1/c"])%list.
Proof.
  intros w run.
  destruct (processing_order Example.env_same_second
              ["10.1/a"; "10.1/b"; "10.1/c"] 2000 100 true w)
    as (_ & _ & k & _ & Hurls & Hk).
  assert (Hret : exists rs, fst run = inr rs)
    by (eexists; vm_compute; reflexivity).
  destruct Hret as [rs Hret].
  specialize (Hk rs Hret).
  rewrite Hk, firstn_all in Hurls.
  match type of Hurls with
  | context [flat_map provider_urls ?r] =>
      assert (Hrem : r = ["10.1/a"; "10.1/c"]) by (vm_compute; reflexivity);
      rewrite Hrem in Hurls
  end.
  exact Hurls.
Defined.

(** ** Uniqueness of identifiers *)

Lemma identifiers_app (a b : list record) :
  identifiers (a ++ b) = (identifiers a ++ identifiers b)%list.
Proof. apply map_app. Qed.

Lemma fresh_identifiers_In (dois : list string) (d : string) :
  In (Some (PStr d)) (fresh_identifiers dois) <-> In d dois.
Proof.
  unfold fresh_identifiers. rewrite in_map_iff. split.
  - intros (d' & Heq & Hin). congruence.
  - intros Hin. exists d. auto.
Qed.

Lemma fresh_identifiers_NoDup (dois : list string) :
  NoDup dois -> NoDup (fresh_identifiers dois).
Proof.
  induction 1 as [|d l Hnin Hnd IH]; simpl; constructor; [|exact IH].
  rewrite list_elem_of_In, fresh_identifiers_In, <- list_elem_of_In.
  exact Hnin.
Qed.

Lemma remaining_after_NoDup (loaded : list record) (doi_list : list string) :
  NoDup doi_list -> NoDup (remaining_after loaded doi_list).
Proof.
  unfold remaining_after.
  induction 1 as [|d l Hnin Hnd IH]; simpl; [constructor|].
  destruct (negb (in_checkpoint loaded d)); [|exact IH].
  constructor; [|exact IH].
  intros Hin. apply Hnin. rewrite list_elem_of_In in *.
  apply filter_In in Hin. tauto.
Qed.

(** An identifier left to process is the identifier of no loaded row. *)
Lemma remaining_not_loaded (loaded : list record) (doi_list : list string)
    (x : option pyval) :
  In x (identifiers loaded) ->
  ~ In x (fresh_identifiers (remaining_after loaded doi_list)).
Proof.
  intros Hloaded Hfresh.
  unfold fresh_identifiers in Hfresh. apply in_map_iff in Hfresh.
  destruct Hfresh as (d & <- & Hd).
  apply remaining_after_In in Hd. destruct Hd as [_ Hnot]. apply Hnot.
  unfold identifiers in Hloaded. apply in_map_iff in Hloaded.
  destruct Hloaded as (row & Hrow & Hin). eauto.
Qed.

Lemma rows_with_app (d : string) (a b : list record) :
  rows_with d (a ++ b) = (rows_with d a + rows_with d b)%nat.
Proof.
  unfold rows_with. rewrite identifiers_app, List.filter_app, length_app.
  reflexivity.
Qed.

Lemma occurrences_fresh (d : string) (dois : list string) :
  length (List.filter (is_doi d) (fresh_identifiers dois)) = occurrences d dois.
Proof.
  unfold occurrences, fresh_identifiers.
  induction dois as [|x l IH]; [reflexivity|].
  cbn [map List.filter is_doi]. destruct (String.eqb d x); cbn [length];
    rewrite IH; reflexivity.
Qed.

(** Of an identifier the checkpoint has, nothing is left to process; of
    any other, as many copies as the list has. *)
Lemma occurrences_remaining (loaded : list record) (doi_list : list string)
    (d : string) :
  occurrences d (remaining_after loaded doi_list)
  = if in_checkpoint loaded d then 0%nat else occurrences d doi_list.
Proof.
  unfold occurrences, remaining_after.
  induction doi_list as [|x l IH].
  - destruct (in_checkpoint loaded d); reflexivity.
  - cbn [List.filter]. destruct (String.eqb d x) eqn:Hdx.
    + apply String.eqb_eq in Hdx. subst x.
      destruct (in_checkpoint loaded d) eqn:Hd; cbn [negb].
      * exact IH.
      * cbn [List.filter length]. rewrite String.eqb_refl. cbn [length].
        rewrite IH. reflexivity.
    + destruct (negb (in_checkpoint loaded x)); [|exact IH].
      cbn [List.filter]. rewrite Hdx. exact IH.
Qed.

(** C7, as the code has it. When a run returns, whatever its input, the
    result set is the loaded checkpoint followed by one fresh row per
    identifier left to process, in input order. Duplicates of the input
    are not removed: an identifier that no loaded row carries has as many
    rows more as the input list names it, and an identifier of the
    checkpoint has none more. So the identifiers of the result set are
    pairwise distinct when the input list has no duplicates and the rows
    of the loaded checkpoint have pairwise distinct identifiers, and they
    are not when the input list names twice an identifier that is not in
    the checkpoint. *)
Theorem identifiers_unique_for_distinct_input (env : Env)
    (doi_list : list string) (delay checkpoint_interval : Z) (resume : bool)
    (w w' : World) (rs : list record) :
  let file := checkpoint_name (datetime_now env (clock_reads w)) in
  let loaded := if resume then checkpoint_rows env (files w) file else [] in
  analyze_citations env doi_list delay checkpoint_interval resume w
  = (inr rs, w') ->
  identifiers rs
  = (identifiers loaded
     ++ fresh_identifiers (remaining_after loaded doi_list))%list
  /\ (forall d,
        rows_with d rs
        = (rows_with d loaded
           + if in_checkpoint loaded d then 0 else occurrences d doi_list)%nat)
  /\ (NoDup doi_list -> NoDup (identifiers loaded) -> NoDup (identifiers rs))
  /\ (forall d,
        in_checkpoint loaded d = false -> (2 <= occurrences d doi_list)%nat ->
        ~ NoDup (identifiers rs)).
Proof.
  intros file loaded Hrun.
  destruct (analyze_citations_effect env doi_list delay checkpoint_interval
              resume w) as (out & w'' & k & Hrun' & _ & _ & _ & Hout).
  fold file loaded in Hrun', Hout.
  rewrite Hrun in Hrun'. inversion Hrun'; subst out w''.
  destruct Hout as (_ & new & -> & Hnew).
  assert (Hrows : forall d,
             rows_with d (loaded ++ new)
             = (rows_with d loaded
                + if in_checkpoint loaded d then 0
                  else occurrences d doi_list)%nat).
  { intros d. rewrite rows_with_app. f_equal.
    unfold rows_with. rewrite Hnew, occurrences_fresh.
    apply occurrences_remaining. }
  rewrite identifiers_app, Hnew.
  split; [reflexivity|]. split; [exact Hrows|]. split.
  - intros Hinput Hloaded.
    apply NoDup_app. split; [exact Hloaded|]. split.
    + intros x Hx. rewrite list_elem_of_In in *.
      apply remaining_not_loaded. exact Hx.
    + apply fresh_identifiers_NoDup, remaining_after_NoDup. exact Hinput.
  - intros d Hd Htwice Hnd.
    specialize (Hrows d). rewrite Hd in Hrows.
    unfold rows_with in Hrows at 1. rewrite identifiers_app, Hnew in Hrows.
    assert (Hone : forall l : list (option pyval),
               NoDup l -> (length (List.filter (is_doi d) l) <= 1)%nat).
    { clear. induction 1 as [|x l Hnin Hnd IH]; [cbn; lia|].
      cbn [List.filter]. destruct (is_doi d x) eqn:Hx; [|exact IH].
      cbn [length].
      destruct (List.filter (is_doi d) l) as [|y l'] eqn:Hl; [cbn; lia|].
      exfalso. apply Hnin. rewrite list_elem_of_In.
      assert (Hy : In y (List.filter (is_doi d) l))
        by (rewrite Hl; left; reflexivity).
      apply filter_In in Hy. destruct Hy as [Hin Hy].
      destruct x as [[| | |s| | |]|]; try discriminate.
      destruct y as [[| | |t| | |]|]; try discriminate.
      cbn [is_doi] in Hx, Hy.
      apply String.eqb_eq in Hx. apply String.eqb_eq in Hy.
      subst s t. exact Hin. }
    specialize (Hone _ Hnd). lia.
Qed.

Lemma identifiers_unique_for_distinct_input_witness :
  let distinct := analyze_citations Example.env ["10.1/a"; "10.1/b"] 2000 100
                    true Checkpoints.with_one_row in
  let twice := analyze_citations Example.env ["10.1/a"; "10.1/b"; "10.1/b"]
                 2000 100 true Checkpoints.with_one_row in
  (exists rs, fst distinct = inr rs /\ NoDup (identifiers rs))
  /\ (exists rs, fst twice = inr rs
                 /\ rows_with "10.1/a" rs = 1%nat
                 /\ rows_with "10.1/b" rs = 2%nat).
Proof.
  intros distinct twice. split.
  - assert (Hret : exists rs, fst distinct = inr rs)
      by (eexists; vm_compute; reflexivity).
    destruct Hret as [rs Hret]. exists rs. split; [exact Hret|].
    destruct (identifiers_unique_for_distinct_input Example.env
                ["10.1/a"; "10.1/b"] 2000 100 true Checkpoints.with_one_row
                (snd distinct) rs) as (_ & _ & Hunique & _).
    + rewrite <- Hret. apply surjective_pairing.
    + apply Hunique.
      * repeat (constructor;
                [rewrite list_elem_of_In; simpl; intuition discriminate|]).
        constructor.
      * vm_compute. repeat constructor. rewrite list_elem_of_In. intros [].
  - assert (Hret : exists rs, fst twice = inr rs)
      by (eexists; vm_compute; reflexivity).
    destruct Hret as [rs Hret]. exists rs. split; [exact Hret|].
    destruct (identifiers_unique_for_distinct_input Example.env
                ["10.1/a"; "10.1/b"; "10.1/b"] 2000 100 true
                Checkpoints.with_one_row (snd twice) rs)
      as (_ & Hrows & _).
    + rewrite <- Hret. apply surjective_pairing.
    + rewrite (Hrows "10.1/a"), (Hrows "10.1/b").
      split; vm_compute; reflexivity.
Defined.

(** C7 as stated fails: a list that names an identifier twice yields two
    rows with that identifier. *)
Lemma duplicate_input_gives_duplicate_rows :
  let run := analyze_citations Example.env ["10.1/a"; "10.1/a"] 2000 100 true
               Example.world0 in
  exists rs,
    fst run = inr rs
    /\ identifiers rs = [Some (PStr "10.1/a"); Some (PStr "10.1/a")]
    /\ ~ NoDup (identifiers rs).
Proof.
  intros run. eexists.
  split; [vm_compute; reflexivity|].
  split; [vm_compute; reflexivity|].
  intros Hnd. vm_compute in Hnd.
  inversion Hnd as [|x l Hnin _]. apply Hnin. constructor.
Qed.

(** ** Resume after a restart *)

(** A run that finds no file of its checkpoint name processes its whole
    list. *)
Lemma run_without_checkpoint (env : Env) (doi_list : list string)
    (delay checkpoint_interval : Z) (resume : bool) (w w' : World)
    (rs : list record) :
  files w !! checkpoint_name (datetime_now env (clock_reads w)) = None ->
  analyze_citations env doi_list delay checkpoint_interval resume w
  = (inr rs, w') ->
  requested_urls (trace w')
  = (requested_urls (trace w) ++ flat_map provider_urls doi_list)%list
  /\ identifiers rs = fresh_identifiers doi_list.
Proof.
  intros Hnone Hrun.
  destruct (analyze_citations_effect env doi_list delay checkpoint_interval
              resume w) as (o & w1 & k & H & _ & Hreq & _ & Hout).
  rewrite Hrun in H. inversion H; subst o w1.
  unfold checkpoint_rows in Hreq, Hout. rewrite Hnone in Hreq, Hout.
  assert (Hloaded : (if resume then [] else []) = ([] : list record))
    by (destruct resume; reflexivity).
  rewrite Hloaded, remaining_after_nil in Hreq, Hout.
  destruct Hout as (-> & new & -> & Hnew).
  rewrite firstn_all in Hreq. split.
  - unfold requested_urls. rewrite Hreq, map_app, requested_urls_flat_map.
    reflexivity.
  - exact Hnew.
Qed.

(** C1 on the code. A run names its checkpoint file after the second it
    starts in, so a restart in another second looks for a file the
    earlier run never wrote: with resume enabled it loads nothing and
    processes the whole list again. *)
Theorem restart_processes_everything_again (env : Env)
    (doi_list : list string) (delay checkpoint_interval : Z) (resume1 : bool)
    (w0 w1 w2 w3 : World) (out1 : exn + list record) (rs : list record) :
  let name1 := checkpoint_name (datetime_now env (clock_reads w0)) in
  let name2 := checkpoint_name (datetime_now env (clock_reads w2)) in
  analyze_citations env doi_list delay checkpoint_interval resume1 w0
  = (out1, w1) ->
  files w2 = files w1 ->
  name2 <> name1 ->
  files w0 !! name2 = None ->
  analyze_citations env doi_list delay checkpoint_interval true w2
  = (inr rs, w3) ->
  requested_urls (trace w3)
  = (requested_urls (trace w2) ++ flat_map provider_urls doi_list)%list
  /\ identifiers rs = fresh_identifiers doi_list.
Proof.
  intros name1 name2 Hrun1 Hfiles Hname Hfresh Hrun2.
  destruct (analyze_citations_effect env doi_list delay checkpoint_interval
              resume1 w0) as (o & w & _ & H1 & _ & _ & Hsame & _).
  fold name1 in Hsame. rewrite Hrun1 in H1. inversion H1; subst o w.
  assert (Hnone : files w2 !! name2 = None).
  { rewrite Hfiles, (Hsame name2 Hname). exact Hfresh. }
  exact (run_without_checkpoint env doi_list delay checkpoint_interval true
           w2 w3 rs Hnone Hrun2).
Qed.

Lemma restart_processes_everything_again_witness :
  let run1 := analyze_citations Example.env ["10.1/a"] 2000 100 true
                Example.world0 in
  let run2 := analyze_citations Example.env ["10.1/a"] 2000 100 true
                (snd run1) in
  (exists text,
      files (snd run1) !! "citation_analysis_checkpoint_20240517_090030.csv"
      = Some text)
  /\ requested_urls (trace (snd run1)) = provider_urls "10.1/a"
  /\ requested_urls (trace (snd run2))
     = (requested_urls (trace (snd run1))
        ++ flat_map provider_urls ["10.1/a"])%list
  /\ exists rs, fst run2 = inr rs
                /\ identifiers rs = fresh_identifiers ["10.1/a"].
Proof.
  intros run1 run2.
  split; [eexists; vm_compute; reflexivity|].
  split; [vm_compute; reflexivity|].
  assert (Hret : exists rs, fst run2 = inr rs)
    by (eexists; vm_compute; reflexivity).
  destruct Hret as [rs Hret].
  destruct (restart_processes_everything_again Example.env ["10.1/a"] 2000 100
              true Example.world0 (snd run1) (snd run1) (snd run2)
              (fst run1) rs) as [Hurls Hids].
  - apply surjective_pairing.
  - reflexivity.
  - vm_compute. discriminate.
  - vm_compute. reflexivity.
  - rewrite <- Hret. apply surjective_pairing.
  - split; [exact Hurls|]. exists rs. split; [exact Hret | exact Hids].
Defined.

(** With a clock that stands still the second run finds the file of the
    first and processes nothing: the resume logic itself works. *)
Example resume_within_the_same_second :
  let run1 := analyze_citations Example.env_same_second ["10.1/a"] 2000 100
                true Example.world0 in
  let run2 := analyze_citations Example.env_same_second ["10.1/a"] 2000 100
                true (snd run1) in
  requested_urls (trace (snd run2)) = requested_urls (trace (snd run1)).
Proof. vm_compute. reflexivity. Qed.

(** ** Normalization in the loader *)

Lemma clean_dois_spec (dois : list string) :
  clean_dois dois = List.filter PyStr.nonempty (map clean_doi dois).
Proof.
  induction dois as [|d l IH]; [reflexivity|].
  simpl. rewrite IH. reflexivity.
Qed.

Lemma startswith_app (p s : string) : PyStr.startswith (p ++ s) p = true.
Proof.
  induction p as [|a p IH]; [reflexivity|].
  simpl. rewrite Ascii.eqb_refl. exact IH.
Qed.

Lemma delete_from_skip (old t s : string) :
  PyStr.delete_from old (String.length t) (t ++ s) = PyStr.delete_from old O s.
Proof.
  induction t as [|a t IH]; [reflexivity|]. simpl. exact IH.
Qed.

(** [replace] deletes a leading occurrence and goes on with the rest. *)
Lemma replace_leading (old s : string) :
  old <> "" ->
  PyStr.replace_with_empty (old ++ s) old = PyStr.replace_with_empty s old.
Proof.
  intros Hold. unfold PyStr.replace_with_empty.
  destruct old as [|a old']; [congruence|].
  change (String a old' ++ s) with (String a (old' ++ s)).
  cbn [PyStr.delete_from].
  change (String a (old' ++ s)) with (String a old' ++ s).
  rewrite startswith_app. simpl. apply delete_from_skip.
Qed.

(** [replace] changes nothing in a string without an occurrence. *)
Lemma replace_absent (old s : string) :
  Py.str_contains s old = false -> PyStr.replace_with_empty s old = s.
Proof.
  unfold PyStr.replace_with_empty.
  induction s as [|c s IH]; [reflexivity|].
  intros Habs. cbn [Py.str_contains] in Habs.
  apply orb_false_iff in Habs. destruct Habs as [Hhere Hlater].
  cbn [PyStr.delete_from]. rewrite Hhere, (IH Hlater). reflexivity.
Qed.

(** What the loader does get right: a leading prefix is removed, exactly,
    when the rest of the identifier does not contain the prefix again;
    an identifier without a leading prefix is only trimmed. *)
Lemma clean_doi_leading_prefix_only (doi rest : string) :
  (PyStr.strip doi = "https://doi.org/" ++ rest
   /\ Py.str_contains rest "https://doi.org/" = false)
  \/ (PyStr.strip doi = "doi:" ++ rest
      /\ Py.str_contains rest "doi:" = false) ->
  clean_doi doi = rest.
Proof.
  unfold clean_doi. intros [[-> Habs] | [-> Habs]].
  - rewrite startswith_app, replace_leading by discriminate.
    apply replace_absent, Habs.
  - change (PyStr.startswith ("doi:" ++ rest) "https://doi.org/") with false.
    cbn iota. rewrite startswith_app, replace_leading by discriminate.
    apply replace_absent, Habs.
Qed.

Lemma clean_doi_without_prefix (doi : string) :
  PyStr.startswith (PyStr.strip doi) "https://doi.org/" = false ->
  PyStr.startswith (PyStr.strip doi) "doi:" = false ->
  clean_doi doi = PyStr.strip doi.
Proof. unfold clean_doi. intros -> ->. reflexivity. Qed.

Example clean_doi_url : clean_doi "https://doi.org/10.1002/x" = "10.1002/x".
Proof. reflexivity. Qed.

Example clean_doi_scheme : clean_doi "doi:10.1/y" = "10.1/y".
Proof. reflexivity. Qed.

Example clean_dois_blank_line :
  clean_dois ["10.1/a"; "   "; "doi:"; " 10.1/z "] = ["10.1/a"; "10.1/z"].
Proof. reflexivity. Qed.

(** C2 on the code. After the [startswith] test the loader calls
    [replace], which deletes every occurrence of the prefix, not the
    leading one alone: an occurrence inside the identifier is lost. *)
Theorem clean_doi_deletes_inner_occurrences :
  clean_doi "doi:10.1/doi:y" = "10.1/y"
  /\ clean_doi "https://doi.org/10.1/https://doi.org/x" = "10.1/x"
  /\ clean_dois ["doi:10.1/doi:y"] = ["10.1/y"]
  /\ clean_dois ["doi:10.1/doi:y"] <> ["10.1/doi:y"].
Proof. repeat split; try reflexivity. discriminate. Qed.

(** ** The cap on the input *)

Lemma load_dois_from_file_effect (env : Env) (filepath : string) (w : World) :
  exists w',
    load_dois_from_file env filepath w = (inr (file_dois env w filepath), w')
    /\ files w' = files w /\ stdin w' = stdin w
    /\ exists logged, trace w' = (trace w ++ [ELog (fst logged) (snd logged)])%list.
Proof.
  unfold file_dois, load_dois_from_file. run_m.
  destruct (PyStr.endswith filepath ".csv");
    (destruct (files w !! filepath) as [text|]; simpl;
     [ try (destruct (read_csv env text) as [e|df]; simpl;
            [| destruct (doi_column df) as [e|dois]; simpl ]) |]);
    eexists; (split; [reflexivity|]); simpl;
    (split; [reflexivity|]); (split; [reflexivity|]);
    eexists (_, _); reflexivity.
Qed.

Lemma file_dois_files (env : Env) (w1 w2 : World) (filepath : string) :
  files w1 = files w2 -> file_dois env w1 filepath = file_dois env w2 filepath.
Proof.
  intros Hfiles. unfold file_dois, load_dois_from_file. run_m.
  destruct (PyStr.endswith filepath ".csv");
    (rewrite Hfiles; destruct (files w2 !! filepath) as [text|]; simpl;
     [ try (destruct (read_csv env text) as [e|df]; simpl;
            [| destruct (doi_column df) as [e|dois]; simpl ]) |]);
    reflexivity.
Qed.

Lemma truncate_long (what : string) (dois : list string) (w : World) :
  6000 < Z.of_nat (length dois) ->
  truncate what dois w
  = (inr (firstn (Z.to_nat 6000) dois),
     {| files := files w; stdin := stdin w; clock_reads := clock_reads w;
        trace := (trace w
                  ++ [EPrint (truncation_warning what (length dois))])%list |}).
Proof.
  intros Hlong. unfold truncate. apply Z.ltb_lt in Hlong. rewrite Hlong.
  reflexivity.
Qed.

Lemma truncate_short (what : string) (dois : list string) (w : World) :
  Z.of_nat (length dois) <= 6000 ->
  truncate what dois w = (inr dois, w).
Proof.
  intros Hshort. unfold truncate. apply Z.ltb_ge in Hshort. rewrite Hshort.
  reflexivity.
Qed.

Lemma truncate_value (what : string) (dois : list string) (w : World) :
  exists w',
    truncate what dois w = (inr (firstn (Z.to_nat 6000) dois), w')
    /\ requests_of (trace w') = requests_of (trace w).
Proof.
  destruct (Z.lt_ge_cases 6000 (Z.of_nat (length dois))) as [Hlong | Hshort].
  - rewrite truncate_long by exact Hlong. eexists. split; [reflexivity|].
    simpl. autorewrite with trace_db. reflexivity.
  - rewrite truncate_short by exact Hshort. exists w.
    rewrite firstn_all2 by lia. split; reflexivity.
Qed.

Lemma found_dois_some (dois : list string) (w : World) :
  dois <> [] ->
  exists w',
    found_dois dois w = (inr (Some dois), w')
    /\ exists line, trace w' = (trace w ++ [EPrint line])%list.
Proof.
  intros Hne. destruct dois as [|d l]; [congruence|].
  unfold found_dois. run_m. eexists. split; [reflexivity|].
  simpl. eexists. reflexivity.
Qed.

Lemma found_dois_inv (dois picked : list string) (w w' : World) :
  found_dois dois w = (inr (Some picked), w') -> picked = dois.
Proof.
  destruct dois as [|d l]; unfold found_dois; run_m; intros H;
    inversion H; reflexivity.
Qed.

Lemma firstn_6000_long (dois : list string) :
  6000 < Z.of_nat (length dois) -> firstn (Z.to_nat 6000) dois <> [].
Proof.
  intros Hlong Hnil. apply (f_equal (@length string)) in Hnil.
  rewrite length_firstn in Hnil. simpl length in Hnil. lia.
Qed.

(** C8. Whichever way the list is entered, from a file or by hand, a
    list of more than 6000 identifiers goes on to the analysis as its
    first 6000 identifiers, in order, and the warning is printed; a run
    on that list which finds no checkpoint and returns requests exactly
    the URLs of these 6000 identifiers, in order. *)
Theorem input_capped_at_6000 (env : Env) (w : World) (dois : list string) :
  entered_dois env w = Some dois ->
  6000 < Z.of_nat (length dois) ->
  let capped := firstn (Z.to_nat 6000) dois in
  exists w' what,
    main_input env w = (inr (Some capped), w')
    /\ In (EPrint (truncation_warning what (length dois))) (trace w')
    /\ length capped = Z.to_nat 6000
    /\ forall delay checkpoint_interval w1 w2 rs,
        files w1 !! checkpoint_name (datetime_now env (clock_reads w1)) = None ->
        analyze_citations env capped delay checkpoint_interval true w1
        = (inr rs, w2) ->
        requested_urls (trace w2)
        = (requested_urls (trace w1) ++ flat_map provider_urls capped)%list.
Proof.
  intros Hentered Hlong capped. subst capped.
  unfold entered_dois in Hentered.
  destruct (stdin w) as [|choice [|line rest]] eqn:Hstdin; try discriminate.
  assert (Hlen : length (firstn (Z.to_nat 6000) dois) = Z.to_nat 6000
                 /\ forall delay checkpoint_interval w1 w2 rs,
                     files w1 !! checkpoint_name
                                   (datetime_now env (clock_reads w1)) = None ->
                     analyze_citations env (firstn (Z.to_nat 6000) dois) delay
                       checkpoint_interval true w1 = (inr rs, w2) ->
                     requested_urls (trace w2)
                     = (requested_urls (trace w1)
                        ++ flat_map provider_urls
                             (firstn (Z.to_nat 6000) dois))%list).
  { split; [rewrite length_firstn; lia|].
    intros delay ci w1 w2 rs Hnone Hrun.
    apply (run_without_checkpoint env _ delay ci true w1 w2 rs Hnone Hrun). }
  unfold main_input, input, print. run_m. rewrite Hstdin. simpl.
  destruct (String.eqb (PyStr.strip choice) "1") eqn:Hone.
  - inversion Hentered; subst dois; clear Hentered. simpl.
    match goal with
    | |- context [load_dois_from_file env ?path ?w1] =>
        destruct (load_dois_from_file_effect env path w1)
          as (w2 & -> & Hfiles & _ & _);
        rewrite (file_dois_files env w1 w path eq_refl) in *
    end.
    destruct (file_dois env w (PyStr.strip line)) as [|d l] eqn:Hdois;
      [simpl in Hlong; lia|].
    rewrite truncate_long by exact Hlong.
    destruct (found_dois_some (firstn (Z.to_nat 6000) (d :: l))
                {| files := files w2; stdin := stdin w2;
                   clock_reads := clock_reads w2;
                   trace := (trace w2
                             ++ [EPrint (truncation_warning "found"
                                           (length (d :: l)))])%list |}
                (firstn_6000_long _ Hlong)) as (w3 & -> & line' & Htrace).
    exists w3, "found". split; [reflexivity|]. split; [|exact Hlen].
    rewrite Htrace. simpl. rewrite !in_app_iff. simpl. auto.
  - destruct (String.eqb (PyStr.strip choice) "2") eqn:Htwo; [|discriminate].
    inversion Hentered; subst dois; clear Hentered. simpl.
    rewrite truncate_long by exact Hlong.
    match goal with
    | |- context [found_dois ?l ?w2] =>
        destruct (found_dois_some l w2 (firstn_6000_long _ Hlong))
          as (w3 & -> & line' & Htrace)
    end.
    exists w3, "entered". split; [reflexivity|]. split; [|exact Hlen].
    rewrite Htrace. simpl. rewrite !in_app_iff. simpl. auto.
Qed.

Lemma input_capped_at_6000_witness :
  let dois := List.repeat "10.1/a" (Z.to_nat 6001) in
  let by_hand :=
    {| files := ∅; stdin := ["2"; PyStr.join "," dois];
       clock_reads := 0; trace := [] |} in
  let from_file :=
    {| files := {[ "dois.txt" := PyStr.join Example.newline dois ]};
       stdin := ["1"; "dois.txt"]; clock_reads := 0; trace := [] |} in
  fst (main_input Example.env by_hand)
  = inr (Some (List.repeat "10.1/a" (Z.to_nat 6000)))
  /\ fst (main_input Example.env from_file)
     = inr (Some (List.repeat "10.1/a" (Z.to_nat 6000))).
Proof.
  intros dois by_hand from_file.
  assert (Hlong : 6000 < Z.of_nat (length dois)) by (vm_compute; reflexivity).
  assert (Hcut : firstn (Z.to_nat 6000) dois
                 = List.repeat "10.1/a" (Z.to_nat 6000))
    by (vm_compute; reflexivity).
  assert (Hhand : entered_dois Example.env by_hand = Some dois)
    by (vm_compute; reflexivity).
  assert (Hfile : entered_dois Example.env from_file = Some dois)
    by (vm_compute; reflexivity).
  destruct (input_capped_at_6000 Example.env by_hand dois Hhand Hlong)
    as (w1 & what1 & Hrun1 & _).
  destruct (input_capped_at_6000 Example.env from_file dois Hfile Hlong)
    as (w2 & what2 & Hrun2 & _).
  rewrite Hrun1, Hrun2, Hcut. split; reflexivity.
Defined.

(** ** Manual entry *)

Lemma split_nonempty (sep : ascii) (s : string) : PyStr.split sep s <> [].
Proof.
  destruct s as [|c s]; [discriminate|].
  cbn [PyStr.split]. destruct (Ascii.eqb c sep); [discriminate|].
  destruct (PyStr.split sep s); discriminate.
Qed.

Lemma join_cons (sep x y : string) (l : list string) :
  PyStr.join sep (x :: y :: l) = x ++ sep ++ PyStr.join sep (y :: l).
Proof. reflexivity. Qed.

Lemma join_split (sep : ascii) (s : string) :
  PyStr.join (String sep "") (PyStr.split sep s) = s.
Proof.
  induction s as [|c s IH]; [reflexivity|].
  pose proof (split_nonempty sep s) as Hne.
  cbn [PyStr.split]. destruct (Ascii.eqb c sep) eqn:Hc.
  - apply Ascii.eqb_eq in Hc. subst c.
    destruct (PyStr.split sep s) as [|h t]; [congruence|].
    rewrite join_cons, IH. reflexivity.
  - destruct (PyStr.split sep s) as [|h t]; [congruence|].
    destruct t as [|h' t'].
    + simpl in IH. subst s. reflexivity.
    + rewrite join_cons in *. rewrite <- IH. reflexivity.
Qed.

Lemma manual_dois_In (doi_input d : string) :
  In d (manual_dois doi_input) ->
  d <> ""
  /\ exists piece, In piece (PyStr.split ","%char doi_input)
                   /\ d = PyStr.strip piece.
Proof.
  unfold manual_dois. rewrite in_map_iff.
  intros (piece & <- & Hin). apply filter_In in Hin.
  destruct Hin as [Hin Hne]. split.
  - intros Hempty. rewrite Hempty in Hne. discriminate.
  - exists piece. auto.
Qed.

Lemma In_firstn (n : nat) (l : list string) (d : string) :
  In d (firstn n l) -> In d l.
Proof.
  intros Hin. rewrite <- (firstn_skipn n l). apply in_or_app. auto.
Qed.

(** C10. On the manual path the line is split at its commas only
    (joining the pieces with commas gives the line back), every piece is
    trimmed and the empty ones are dropped; nothing else is done, so an
    identifier that carries [https://doi.org/] or [doi:] is requested
    from the three providers with that prefix in the URL. *)
Theorem manual_entry_keeps_prefixes (env : Env) (w w' : World)
    (choice line : string) (rest dois : list string) :
  let doi_input := PyStr.strip line in
  stdin w = choice :: line :: rest ->
  PyStr.strip choice = "2" ->
  main_input env w = (inr (Some dois), w') ->
  PyStr.join "," (PyStr.split ","%char doi_input) = doi_input
  /\ dois = firstn (Z.to_nat 6000) (manual_dois doi_input)
  /\ (forall d, In d dois ->
                d <> ""
                /\ exists piece, In piece (PyStr.split ","%char doi_input)
                                 /\ d = PyStr.strip piece)
  /\ (forall d w0, In d dois ->
                   requested_urls (trace (snd (process_doi env d w0)))
                   = (requested_urls (trace w0) ++ provider_urls d)%list)
  /\ (forall prefix identifier, In (prefix ++ identifier) dois ->
        provider_urls (prefix ++ identifier)
        = ["https://api.crossref.org/works/" ++ prefix ++ identifier;
           "https://api.openalex.org/works/doi:" ++ prefix ++ identifier;
           "http://metrics-api.dimensions.ai/doi/" ++ prefix ++ identifier]).
Proof.
  intros doi_input Hstdin Hchoice Hrun.
  split; [apply join_split|].
  assert (Hdois : dois = firstn (Z.to_nat 6000) (manual_dois doi_input)).
  { revert Hrun. unfold main_input, input, print. run_m.
    rewrite Hstdin. simpl. rewrite Hchoice. simpl. fold doi_input.
    match goal with
    | |- context [truncate "entered" ?l ?w1] =>
        destruct (truncate_value "entered" l w1) as (w2 & -> & _)
    end.
    intros Hfound. apply found_dois_inv in Hfound. exact Hfound. }
  split; [exact Hdois|]. split; [| split].
  - intros d Hd. rewrite Hdois in Hd. apply In_firstn in Hd.
    apply manual_dois_In. exact Hd.
  - intros d w0 _.
    destruct (process_doi_effect env d w0) as (out & w1 & -> & Hreq & _).
    unfold requested_urls. cbn [snd]. rewrite Hreq, map_app. reflexivity.
  - intros prefix identifier _. reflexivity.
Qed.

Lemma manual_entry_keeps_prefixes_witness :
  let w := {| files := ∅;
              stdin := ["2"; "doi:10.1/y, https://doi.org/10.1002/x ,, "];
              clock_reads := 0; trace := [] |} in
  fst (main_input Example.env w)
  = inr (Some ["doi:10.1/y"; "https://doi.org/10.1002/x"])
  /\ clean_dois ["doi:10.1/y"; "https://doi.org/10.1002/x"]
     = ["10.1/y"; "10.1002/x"]
  /\ requested_urls
       (trace (snd (process_doi Example.env "doi:10.1/y" Example.world0)))
     = ["https://api.crossref.org/works/doi:10.1/y";
        "https://api.openalex.org/works/doi:doi:10.1/y";
        "http://metrics-api.dimensions.ai/doi/doi:10.1/y"].
Proof.
  intros w.
  assert (Hrun : main_input Example.env w
                 = (inr (Some ["doi:10.1/y"; "https://doi.org/10.1002/x"]),
                    snd (main_input Example.env w)))
    by (vm_compute; reflexivity).
  split; [rewrite Hrun; reflexivity|]. split; [reflexivity|].
  destruct (manual_entry_keeps_prefixes Example.env w _ "2"
              "doi:10.1/y, https://doi.org/10.1002/x ,, " []
              ["doi:10.1/y"; "https://doi.org/10.1002/x"]
              eq_refl eq_refl Hrun) as (_ & _ & _ & Hurls & _).
  apply (Hurls "doi:10.1/y" Example.world0). left. reflexivity.
Defined.

(** ** Runs that return *)

Lemma max_citations_of_counts (c o d : option Z) :
  exists m, max_citations (count c) (count o) (count d) = inr (PInt m).
Proof.
  destruct c as [c|], o as [o|], d as [d|];
    unfold max_citations, Py.any, Py.filter_truthy, Py.max; simpl;
    split_counts; eexists; reflexivity.
Qed.

Lemma process_doi_returns (env : Env) (doi : string) (w : World) :
  answers_are_counts env ->
  exists row w', process_doi env doi w = (inr row, w').
Proof.
  intros Hcounts. unfold process_doi, sleep, sleep_safe. run_m.
  destruct (Hcounts CrossRef doi w) as [c Hc]. cbn [client] in Hc.
  destruct (get_crossref_citations env doi 10 w) as [r1 w1].
  cbn [fst] in Hc. subst r1.
  match goal with
  | |- context [get_openalex_citations env doi 10 ?w2] =>
      destruct (Hcounts OpenAlex doi w2) as [o Ho]; cbn [client] in Ho;
      destruct (get_openalex_citations env doi 10 w2) as [r2 w3]
  end.
  cbn [fst] in Ho. subst r2.
  match goal with
  | |- context [get_dimensions_citations env doi 10 ?w4] =>
      destruct (Hcounts Dimensions doi w4) as [d Hd]; cbn [client] in Hd;
      destruct (get_dimensions_citations env doi 10 w4) as [r3 w5]
  end.
  cbn [fst] in Hd. subst r3.
  destruct (max_citations_of_counts c o d) as [m ->].
  do 2 eexists. reflexivity.
Qed.

Lemma process_all_returns (env : Env) (file : string)
    (delay checkpoint_interval : Z) (total processed_count n : nat)
    (todo : list string) :
  answers_are_counts env -> checkpoint_interval <> 0 ->
  0 <= delay <= sleep_safe ->
  forall (i : Z) (results : list record) (w : World),
  exists rs w',
    process_all env file delay checkpoint_interval total processed_count n
      i todo results w = (inr rs, w').
Proof.
  intros Hcounts Hinterval [Hdelay Hmax].
  apply Z.eqb_neq in Hinterval. apply Z.ltb_ge in Hdelay.
  apply Z.leb_le in Hmax.
  induction todo as [|doi todo' IH]; intros i results w.
  - do 2 eexists. reflexivity.
  - cbn [process_all]. unfold bind at 1, log, emit. cbn beta iota.
    unfold bind at 1.
    match goal with
    | |- context [process_doi env doi ?w1] =>
        destruct (process_doi_returns env doi w1 Hcounts) as (row & w2 & ->)
    end.
    unfold bind at 1. rewrite Hinterval.
    match goal with
    | |- context [save_checkpoint env ?rs file] =>
        destruct (save_checkpoint_effect env rs file w2) as (w3 & Hsave & _)
    end.
    assert (Hstep : exists w4,
               (if i mod checkpoint_interval =? 0
                then save_checkpoint env (results ++ [row]) file
                else ret tt) w2 = (inr tt, w4)).
    { destruct (i mod checkpoint_interval =? 0);
        [eauto | eexists; reflexivity]. }
    destruct Hstep as (w4 & ->).
    unfold bind at 1, sleep.
    destruct (i <? Z.of_nat n); rewrite ?Hdelay, ?Hmax; run_m; apply IH.
Qed.

(** A run returns its rows when the checkpoint interval is not 0, the
    delay is not negative and not beyond what every platform sleeps, the
    rows of the loaded checkpoint have an identifier column and the
    provider answers are integers or absent; however many of the calls
    fail. *)
Theorem analyze_citations_returns (env : Env) (doi_list : list string)
    (delay checkpoint_interval : Z) (resume : bool) (w : World) :
  let file := checkpoint_name (datetime_now env (clock_reads w)) in
  let loaded := if resume then checkpoint_rows env (files w) file else [] in
  answers_are_counts env -> checkpoint_interval <> 0 ->
  0 <= delay <= sleep_safe ->
  (exists values, doi_values loaded = inr values) ->
  exists rs w',
    analyze_citations env doi_list delay checkpoint_interval resume w
    = (inr rs, w').
Proof.
  intros file loaded Hcounts Hinterval Hdelay [values Hvalues].
  unfold analyze_citations. unfold bind at 1, now. cbn beta iota.
  fold file. unfold bind at 1.
  assert (Hstart : exists start w1,
             resume_state env doi_list file resume
               {| files := files w; stdin := stdin w;
                  clock_reads := S (clock_reads w); trace := trace w |}
             = (inr start, w1)).
  { unfold resume_state. destruct resume.
    - unfold bind at 1.
      match goal with
      | |- context [load_checkpoint env file ?w0] =>
          destruct (load_checkpoint_effect env file w0) as (w1 & -> & _)
      end.
      cbn [files]. fold loaded. rewrite Hvalues. run_m. eauto.
    - do 2 eexists. reflexivity. }
  destruct Hstart as (start & w1 & ->).
  unfold bind at 1, log, emit. cbn beta iota. unfold bind at 1.
  match goal with
  | |- context [process_all env file delay checkpoint_interval ?t ?pc ?n 1
                  ?todo ?rs0 ?w2] =>
      destruct (process_all_returns env file delay checkpoint_interval t pc n
                  todo Hcounts Hinterval Hdelay 1 rs0 w2) as (rs & w3 & ->)
  end.
  unfold bind at 1.
  destruct (save_checkpoint_effect env rs file w3) as (w4 & -> & _).
  do 2 eexists. reflexivity.
Qed.

(** Failed calls are answers of the data model: with the network down
    every client returns the absent sentinel. *)
Lemma network_down_answers_are_counts (e : exn) :
  answers_are_counts (Example.answering (inl e)).
Proof. intros p doi w. exists None. destruct p; reflexivity. Qed.

Example run_with_network_down :
  fst (analyze_citations (Example.answering (inl ConnectionError))
         ["10.1/a"] 2000 100 true Example.world0)
  = inr [[("doi", PStr "10.1/a");
          ("crossref_citations", PNone);
          ("openalex_citations", PNone);
          ("dimensions_citations", PNone);
          ("max_citations", PInt 0);
          ("processed_at", PStr "2024-05-17T09:01:30")]].
Proof. vm_compute. reflexivity. Qed.

(** * Further properties *)

(** ** [max_citations] beyond the data model *)

(** X1. For integer or absent provider results of any sign,
    [max_citations] is the largest present value that is not 0, and 0
    when there is none: a present 0 is left out like an absent value. *)
Theorem max_citations_ignores_zeros (c o d : option Z) :
  exists m,
    max_citations (count c) (count o) (count d) = inr (PInt m)
    /\ match nonzero_counts [c; o; d] with
       | [] => m = 0
       | nz => In m nz /\ forall n, In n nz -> n <= m
       end.
Proof.
  destruct c as [c|], o as [o|], d as [d|];
    unfold max_citations, Py.any, Py.filter_truthy, Py.max, nonzero_counts;
    simpl; split_counts; eexists; (split; [reflexivity|]);
    simpl; try reflexivity; (split; [tauto | intros k Hk; intuition lia]).
Qed.

Lemma gt_raises_type_error :
  forall (a b : pyval) (e : exn), Py.gt a b = inl e -> e = TypeError.
Proof.
  fix self 1. intros a b e.
  destruct a as [|x|n|s|l|kv|f], b as [|y|m|t|l'|kw|g]; cbn [Py.gt];
    try (intros H; inversion H; reflexivity).
  revert l'. induction l as [|v l IH]; intros [|v' l']; try discriminate.
  destruct (Py.eq v v'); [apply IH | apply self].
Qed.

Lemma max_from_raises_type_error (rest : list pyval) :
  forall (cur : pyval) (e : exn), Py.max_from cur rest = inl e -> e = TypeError.
Proof.
  induction rest as [|x rest IH]; intros cur e; cbn [Py.max_from];
    [discriminate|].
  destruct (Py.gt x cur) as [e'|[]] eqn:Hgt; eauto.
  intros H. inversion H; subst e'. eapply gt_raises_type_error; eassumption.
Qed.

Lemma max_citations_raises_type_error (c o d : pyval) (e : exn) :
  max_citations c o d = inl e -> e = TypeError.
Proof.
  unfold max_citations, Py.any, Py.filter_truthy, Py.max.
  cbn [existsb List.filter].
  destruct (Py.truthy c), (Py.truthy o), (Py.truthy d); cbn [orb];
    try discriminate; apply max_from_raises_type_error.
Qed.

(** Values that [>] orders are of one kind. *)
Lemma gt_same_kind (x y : pyval) (b : bool) :
  Py.gt x y = inr b ->
  (exists s t, x = PStr s /\ y = PStr t)
  \/ (exists f g, Py.as_float x = Some f /\ Py.as_float y = Some g)
  \/ (exists l m, x = PList l /\ y = PList m).
Proof.
  destruct x, y; cbn [Py.gt Py.as_float]; try discriminate; intros _;
    eauto 8.
Qed.

(** [max] over values among which are a string and an integer. *)
Lemma max_from_mixed (rest : list pyval) :
  forall cur,
  (exists s, In (PStr s) (cur :: rest)) ->
  (exists v f, In v (cur :: rest) /\ Py.as_float v = Some f) ->
  exists e, Py.max_from cur rest = inl e.
Proof.
  induction rest as [|x rest IH]; intros cur [s Hs] (v & n & Hv & Hn).
  - destruct Hs as [Hs | []]. destruct Hv as [Hv | []]. subst. discriminate.
  - cbn [Py.max_from].
    destruct (Py.gt x cur) as [e|b] eqn:Hgt; [eauto|].
    apply gt_same_kind in Hgt.
    assert (Hnext : forall next, next = x \/ next = cur ->
                                 exists e, Py.max_from next rest = inl e).
    { intros next Hnext. apply IH.
      - destruct Hs as [Hs | [Hs | Hs]]; [| |exists s; right; exact Hs];
          subst;
          destruct Hgt as [(s1 & t1 & H1 & H2) | [(n1 & m1 & H1 & H2)
                                                 | (l1 & m1 & H1 & H2)]];
          try discriminate; subst;
          destruct Hnext as [-> | ->]; eexists; left; reflexivity.
      - destruct Hv as [Hv | [Hv | Hv]];
          [| |exists v, n; split; [right; exact Hv | exact Hn]];
          subst;
          destruct Hgt as [(s1 & t1 & H1 & H2) | [(n1 & m1 & H1 & H2)
                                                 | (l1 & m1 & H1 & H2)]];
          subst; try discriminate;
          destruct Hnext as [-> | ->]; eexists _, _;
          (split; [left; reflexivity | eassumption]). }
    destruct b; apply Hnext; auto.
Qed.

(** X2. When one of the three provider results is a non-empty string and
    another a non-zero integer, in whatever positions and whatever the
    remaining result is, the two cannot be ordered and [max_citations]
    raises [TypeError]. *)
Theorem max_citations_mixed_types (s : string) (n : Z) (c o d : pyval) :
  s <> "" -> n <> 0 ->
  In (PStr s) [c; o; d] -> In (PInt n) [c; o; d] ->
  max_citations c o d = inl TypeError.
Proof.
  intros Hs Hn Hstr Hint.
  assert (Hts : Py.truthy (PStr s) = true)
    by (destruct s; [congruence | reflexivity]).
  assert (Hti : Py.truthy (PInt n) = true)
    by (apply Z.eqb_neq in Hn; cbn; rewrite Hn; reflexivity).
  assert (Hraised : exists e, max_citations c o d = inl e).
  { unfold max_citations, Py.any, Py.filter_truthy.
    assert (Hany : existsb Py.truthy [c; o; d] = true)
      by (apply existsb_exists; eauto).
    rewrite Hany.
    assert (Hs' : In (PStr s) (List.filter Py.truthy [c; o; d]))
      by (apply filter_In; auto).
    assert (Hn' : In (PInt n) (List.filter Py.truthy [c; o; d]))
      by (apply filter_In; auto).
    destruct (List.filter Py.truthy [c; o; d]) as [|cur rest]; [destruct Hs'|].
    cbn [Py.max]. apply max_from_mixed; [eauto|].
    exists (PInt n), (FInt n). auto. }
  destruct Hraised as [e He]. rewrite He. f_equal.
  eapply max_citations_raises_type_error. exact He.
Qed.

Lemma max_citations_mixed_types_witness :
  max_citations (PStr "5") (PInt 3) PNone = inl TypeError
  /\ max_citations (PInt 3) PNone (PStr "5") = inl TypeError
  /\ max_citations (PInt 7) (PInt 3) (PStr "5") = inl TypeError.
Proof.
  split; [| split].
  - apply (max_citations_mixed_types "5" 3 (PStr "5") (PInt 3) PNone);
      [discriminate | lia | left; reflexivity | right; left; reflexivity].
  - apply (max_citations_mixed_types "5" 3 (PInt 3) PNone (PStr "5"));
      [discriminate | lia | right; right; left; reflexivity
      | left; reflexivity].
  - apply (max_citations_mixed_types "5" 3 (PInt 7) (PInt 3) (PStr "5"));
      [discriminate | lia | right; right; left; reflexivity
      | right; left; reflexivity].
Defined.

(** ** Provider clients: the answers with status 200 *)

(** X3. With status 200 and a JSON object as body, Dimensions returns
    the value of [times_cited] and OpenAlex that of [cited_by_count], 0
    when the field is missing; CrossRef returns 0 when the object has no
    [message], the value of [is-referenced-by-count] (0 when missing)
    when [message] is an object, and the absent sentinel when [message]
    is anything else. *)
Theorem client_reads_count_field (env : Env) (p : Provider) (doi : string)
    (timeout : Z) (w : World) (r : Response) (kv : list (string * pyval)) :
  requests_get env (trace w) (request_for p doi timeout) = inr r ->
  status_code r = 200 ->
  json r = inr (PDict kv) ->
  fst (client env p doi timeout w)
  = inr match p with
        | Dimensions => field_or_zero "times_cited" kv
        | OpenAlex => field_or_zero "cited_by_count" kv
        | CrossRef =>
            match Py.assoc "message" kv with
            | None => PInt 0
            | Some (PDict message) =>
                field_or_zero "is-referenced-by-count" message
            | Some _ => PNone
            end
        end.
Proof.
  intros Hget Hstatus Hjson. unfold field_or_zero.
  destruct p; run_client; simpl in Hget; rewrite Hget; simpl;
    rewrite Hstatus, Hjson; simpl; try reflexivity.
  destruct (Py.assoc "message" kv) as [[| | | | |message|]|]; reflexivity.
Qed.

Lemma client_reads_count_field_witness :
  fst (client Example.env CrossRef "10.1/a" 10 Example.world0) = inr (PInt 12)
  /\ fst (client Example.env OpenAlex "10.1/a" 10 Example.world0)
     = inr (PInt 15)
  /\ fst (client Example.env Dimensions "10.1/a" 10 Example.world0)
     = inr (PInt 9).
Proof.
  pose (fields := [("message", PDict [("is-referenced-by-count", PInt 12)]);
                   ("cited_by_count", PInt 15);
                   ("times_cited", PInt 9)]).
  split; [| split].
  - apply (client_reads_count_field Example.env CrossRef "10.1/a" 10
             Example.world0 {| status_code := 200; json := inr Example.body |}
             fields); reflexivity.
  - apply (client_reads_count_field Example.env OpenAlex "10.1/a" 10
             Example.world0 {| status_code := 200; json := inr Example.body |}
             fields); reflexivity.
  - apply (client_reads_count_field Example.env Dimensions "10.1/a" 10
             Example.world0 {| status_code := 200; json := inr Example.body |}
             fields); reflexivity.
Defined.

(** X4. With status 200 and a body that parses to something else than
    an object, OpenAlex and Dimensions return the absent sentinel.
    CrossRef does so for null, booleans and numbers, and for a list or
    string that contains ["message"]; for a list or string without it,
    CrossRef returns 0. *)
Theorem client_body_not_an_object (env : Env) (p : Provider) (doi : string)
    (timeout : Z) (w : World) (r : Response) (data : pyval) :
  requests_get env (trace w) (request_for p doi timeout) = inr r ->
  status_code r = 200 ->
  json r = inr data ->
  (forall kv, data <> PDict kv) ->
  fst (client env p doi timeout w)
  = inr match p, data with
        | CrossRef, PList l =>
            if Py.mem (PStr "message") l then PNone else PInt 0
        | CrossRef, PStr s =>
            if Py.str_contains s "message" then PNone else PInt 0
        | _, _ => PNone
        end.
Proof.
  intros Hget Hstatus Hjson Hnot.
  destruct p; run_client; simpl in Hget; rewrite Hget; simpl;
    rewrite Hstatus, Hjson; simpl;
    destruct data as [| | |s|l|kv|f]; simpl; try reflexivity;
    try (exfalso; apply (Hnot kv); reflexivity).
  - destruct (Py.str_contains s "message"); reflexivity.
  - destruct (Py.mem (PStr "message") l); reflexivity.
Qed.

Lemma client_body_not_an_object_witness :
  let empty_list := {| status_code := 200; json := inr (PList []) |} in
  fst (client (Example.answering (inr empty_list)) CrossRef "10.1/a" 10
         Example.world0) = inr (PInt 0)
  /\ fst (client (Example.answering (inr empty_list)) OpenAlex "10.1/a" 10
            Example.world0) = inr PNone.
Proof.
  intros empty_list. split.
  - apply (client_body_not_an_object (Example.answering (inr empty_list))
             CrossRef "10.1/a" 10 Example.world0 empty_list (PList []));
      try reflexivity. discriminate.
  - apply (client_body_not_an_object (Example.answering (inr empty_list))
             OpenAlex "10.1/a" 10 Example.world0 empty_list (PList []));
      try reflexivity. discriminate.
Defined.

(** ** Provider clients: what a call leaves behind *)

(** The world after a call, answer by answer. *)
Lemma client_outcome (env : Env) (p : Provider) (doi : string) (timeout : Z)
    (w : World) :
  let req := request_for p doi timeout in
  exists v logs,
    client env p doi timeout w = (inr v, add_events w (EGet req :: logs))
    /\ match requests_get env (trace w) req with
       | inl e => logs = [ELog ERROR (ApiError p doi e)]
       | inr r =>
           if status_code r =? 200
           then logs = [] \/ exists e, logs = [ELog ERROR (ApiError p doi e)]
           else if status_code r =? 404 then logs = []
           else logs = [ELog WARNING (ApiStatus p doi (status_code r))]
       end.
Proof.
  intros req. subst req. unfold add_events.
  destruct p; run_client;
    (destruct (requests_get env (trace w) _) as [e|r]; simpl;
     [| destruct (status_code r =? 200); simpl;
        [ destruct (json r) as [e|data]; simpl;
          [| try (destruct (Py.contains data _) as [e|[]]; simpl;
                  [| destruct (Py.getitem data _) as [e|m]; simpl |]);
             match goal with
             | |- context [Py.get ?d ?k ?z] =>
                 destruct (Py.get d k z) as [e|v]; simpl
             | _ => idtac
             end ]
        | destruct (status_code r =? 404); simpl ] ]);
    do 2 eexists; rewrite <- ?app_assoc; simpl;
    (split; [reflexivity|]); eauto.
Qed.

Lemma add_events_nil (w : World) : add_events w [] = w.
Proof. destruct w. unfold add_events. simpl. rewrite app_nil_r. reflexivity. Qed.

Lemma add_events_app (w : World) (a b : list Event) :
  add_events (add_events w a) b = add_events w (a ++ b).
Proof. unfold add_events. simpl. rewrite <- app_assoc. reflexivity. Qed.

(** X5. A call changes nothing but the trace, to which it adds its
    request and at most one log record: an ERROR with the exception when
    the request raises, a WARNING with the status when the status is
    neither 200 nor 404, nothing when the status is 404, and nothing or
    an ERROR when the status is 200. *)
Theorem client_logging (env : Env) (p : Provider) (doi : string) (timeout : Z)
    (w : World) :
  let req := request_for p doi timeout in
  let w' := snd (client env p doi timeout w) in
  files w' = files w /\ stdin w' = stdin w /\ clock_reads w' = clock_reads w
  /\ exists logs,
      trace w' = (trace w ++ EGet req :: logs)%list
      /\ match requests_get env (trace w) req with
         | inl e => logs = [ELog ERROR (ApiError p doi e)]
         | inr r =>
             if status_code r =? 200
             then logs = [] \/ exists e, logs = [ELog ERROR (ApiError p doi e)]
             else if status_code r =? 404 then logs = []
             else logs = [ELog WARNING (ApiStatus p doi (status_code r))]
         end.
Proof.
  intros req w'. subst w'.
  destruct (client_outcome env p doi timeout w) as (v & logs & -> & Hlogs).
  simpl. repeat split. exists logs. split; [reflexivity | exact Hlogs].
Qed.

(** ** Identifier loader *)

Lemma clean_dois_In (dois : list string) (d : string) :
  In d (clean_dois dois) -> d <> "".
Proof.
  rewrite clean_dois_spec. intros Hin. apply filter_In in Hin.
  destruct Hin as [_ Hne]. intros ->. discriminate.
Qed.

(** X6. [load_dois_from_file] never raises and changes nothing but the
    trace, to which it adds one log record: the number of identifiers
    loaded, or the error, in which case the list returned is empty. No
    identifier it returns is the empty string. *)
Theorem load_dois_from_file_never_raises (env : Env) (filepath : string)
    (w : World) :
  exists dois logged,
    load_dois_from_file env filepath w = (inr dois, add_events w [logged])
    /\ (logged = ELog INFO (LoadedDois (length dois) filepath)
        \/ exists e, logged = ELog ERROR (ErrorLoadingDois filepath e)
                     /\ dois = [])
    /\ forall d, In d dois -> d <> "".
Proof.
  unfold load_dois_from_file, add_events. run_m.
  destruct (PyStr.endswith filepath ".csv");
    (destruct (files w !! filepath) as [text|]; simpl;
     [ try (destruct (read_csv env text) as [e|df]; simpl;
            [| destruct (doi_column df) as [e|dois]; simpl ]) |]);
    do 2 eexists; (split; [reflexivity|]);
    (split; [eauto | first [apply clean_dois_In | intros d []]]).
Qed.

(** X7. A path that names no file gives the empty list and an error
    record with [FileNotFoundError], for a table as for a text file. *)
Theorem load_dois_from_missing_file (env : Env) (filepath : string) (w : World) :
  files w !! filepath = None ->
  load_dois_from_file env filepath w
  = (inr [],
     add_events w [ELog ERROR (ErrorLoadingDois filepath FileNotFoundError)]).
Proof.
  intros Hnone. unfold load_dois_from_file, add_events. run_m.
  destruct (PyStr.endswith filepath ".csv"); rewrite Hnone; reflexivity.
Qed.

Lemma load_dois_from_missing_file_witness :
  files Example.world0 !! "dois.txt" = None
  /\ fst (load_dois_from_file Example.env "dois.txt" Example.world0) = inr [].
Proof.
  split; [reflexivity|].
  rewrite (load_dois_from_missing_file Example.env "dois.txt" Example.world0);
    reflexivity.
Defined.

Lemma has_column_index (df : DataFrame) (name : string) :
  has_column df name
  = match column_index name (columns df) with Some _ => true | None => false end.
Proof.
  unfold has_column. induction (columns df) as [|c cols IH]; [reflexivity|].
  simpl. destruct (String.eqb name c); [reflexivity|].
  rewrite IH. destruct (column_index name cols); reflexivity.
Qed.

(** X8. A table that does not parse gives the empty list. From a table
    with distinct column names, as pandas reads them, the loader takes
    the column called [doi], wherever it stands; without such a column
    it takes the first column; a table without columns gives the empty
    list. Missing cells are left out. *)
Theorem load_dois_from_table (env : Env) (filepath text : string) (w : World) :
  PyStr.endswith filepath ".csv" = true ->
  files w !! filepath = Some text ->
  (forall e, read_csv env text = inl e ->
             fst (load_dois_from_file env filepath w) = inr [])
  /\ (forall df, read_csv env text = inr df -> List.NoDup (columns df) ->
       fst (load_dois_from_file env filepath w)
       = inr match column_index "doi" (columns df), columns df with
             | Some i, _ => clean_dois (series_to_strs (column_cells df i))
             | None, _ :: _ => clean_dois (series_to_strs (column_cells df 0))
             | None, [] => []
             end).
Proof.
  intros Hcsv Hfile. unfold load_dois_from_file. run_m.
  rewrite Hcsv, Hfile. simpl. split.
  - intros e ->. reflexivity.
  - intros df -> _. simpl.
    unfold doi_column. rewrite has_column_index.
    destruct (column_index "doi" (columns df)); simpl; [reflexivity|].
    destruct (columns df); reflexivity.
Qed.

Lemma load_dois_from_table_witness :
  let table := "title,doi" ++ Example.newline
               ++ "A,doi:10.1/a" ++ Example.newline
               ++ "B," ++ Example.newline
               ++ "C,10.1/c" ++ Example.newline in
  let w := {| files := {[ "in.csv" := table ]}; stdin := [];
              clock_reads := 0; trace := [] |} in
  fst (load_dois_from_file Example.env "in.csv" w) = inr ["10.1/a"; "10.1/c"].
Proof.
  intros table w.
  pose (df := {| columns := ["title"; "doi"];
                 rows := [[CStr "A"; CStr "doi:10.1/a"]; [CStr "B"; CNa];
                          [CStr "C"; CStr "10.1/c"]] |}).
  destruct (load_dois_from_table Example.env "in.csv" table w) as [_ Hdf];
    [vm_compute; reflexivity | vm_compute; reflexivity |].
  rewrite (Hdf df).
  - vm_compute. reflexivity.
  - vm_compute. reflexivity.
  - cbn [columns df]. repeat constructor; simpl; intuition discriminate.
Defined.

(** *** Text files *)

Lemma rstrip_idempotent (s : string) : PyStr.rstrip (PyStr.rstrip s) = PyStr.rstrip s.
Proof.
  induction s as [|c s IH]; [reflexivity|].
  cbn [PyStr.rstrip]. destruct (PyStr.rstrip s) as [|d r] eqn:Hr.
  - destruct (PyStr.is_space c) eqn:Hc; [reflexivity|].
    cbn [PyStr.rstrip]. rewrite Hc. reflexivity.
  - cbn [PyStr.rstrip] in *. rewrite IH. reflexivity.
Qed.

Lemma lstrip_head (s : string) :
  PyStr.lstrip s = ""
  \/ exists c r, PyStr.lstrip s = String c r /\ PyStr.is_space c = false.
Proof.
  induction s as [|c s IH]; [left; reflexivity|].
  cbn [PyStr.lstrip]. destruct (PyStr.is_space c) eqn:Hc; [exact IH|].
  right. eauto.
Qed.

Lemma rstrip_head (c : ascii) (r : string) :
  PyStr.is_space c = false -> exists r', PyStr.rstrip (String c r) = String c r'.
Proof.
  intros Hc. cbn [PyStr.rstrip]. rewrite Hc.
  destruct (PyStr.rstrip r); eauto.
Qed.

(** The result of [strip] has nothing left to strip. *)
Lemma strip_idempotent (s : string) : PyStr.strip (PyStr.strip s) = PyStr.strip s.
Proof.
  unfold PyStr.strip.
  destruct (lstrip_head s) as [H | (c & r & H & Hc)]; rewrite H;
    [reflexivity|].
  destruct (rstrip_head c r Hc) as [r' Hr]. rewrite Hr.
  cbn [PyStr.lstrip]. rewrite Hc, <- Hr. apply rstrip_idempotent.
Qed.

Lemma clean_doi_strip (s : string) : clean_doi (PyStr.strip s) = clean_doi s.
Proof. unfold clean_doi. rewrite strip_idempotent. reflexivity. Qed.

Lemma clean_doi_blank (s : string) : PyStr.strip s = "" -> clean_doi s = "".
Proof. unfold clean_doi. intros ->. reflexivity. Qed.

(** Stripping the lines and dropping the blank ones before the cleaning
    loop does not change what the loop returns. *)
Lemma clean_dois_prepared (lines : list string) :
  clean_dois
    (map PyStr.strip
       (List.filter (fun line => PyStr.nonempty (PyStr.strip line)) lines))
  = clean_dois lines.
Proof.
  induction lines as [|l ls IH]; [reflexivity|].
  cbn [List.filter]. destruct (PyStr.nonempty (PyStr.strip l)) eqn:Hne.
  - cbn [map clean_dois]. rewrite clean_doi_strip, IH. reflexivity.
  - cbn [clean_dois]. rewrite clean_doi_blank; [exact IH|].
    destruct (PyStr.strip l); [reflexivity | discriminate].
Qed.

Lemma file_lines_line (s rest : string) (after_cr : bool) :
  no_newline s = true -> s <> "" ->
  PyStr.file_lines after_cr (s ++ rest)
  = match PyStr.file_lines false rest with
    | h :: t => (s ++ h) :: t
    | [] => [s]
    end.
Proof.
  revert after_cr. induction s as [|c s IH]; intros after_cr Hs Hne; [congruence|].
  cbn [no_newline] in Hs. apply andb_prop in Hs. destruct Hs as [Hc Hs].
  apply andb_prop in Hc. destruct Hc as [Hlf Hcr].
  apply negb_true_iff in Hlf, Hcr.
  change (String c s ++ rest) with (String c (s ++ rest)).
  cbn [PyStr.file_lines]. rewrite Hlf, Hcr.
  destruct s as [|c' s'].
  - change ("" ++ rest) with rest.
    destruct (PyStr.file_lines false rest); reflexivity.
  - rewrite (IH false Hs) by discriminate.
    destruct (PyStr.file_lines false rest); reflexivity.
Qed.

Lemma file_lines_cons (rest : string) :
  exists h t, PyStr.file_lines false rest = h :: t.
Proof.
  destruct rest as [|c r]; [simpl; eauto|].
  cbn [PyStr.file_lines].
  destruct (Ascii.eqb c "010"%char); [eauto|].
  destruct (Ascii.eqb c "013"%char); [eauto|].
  destruct (PyStr.file_lines false r); eauto.
Qed.

Lemma append_empty (s : string) : s ++ "" = s.
Proof.
  induction s as [|c s IH]; [reflexivity|].
  change (String c s ++ "") with (String c (s ++ "")). rewrite IH. reflexivity.
Qed.

(** Reading back lines joined by LF, or by CR LF. *)
Lemma file_lines_join (crlf : bool) (lines : list string) :
  Forall (fun l => no_newline l = true) lines -> lines <> [] ->
  PyStr.file_lines false
    (PyStr.join (if crlf then String "013"%char (String "010"%char "")
                 else String "010"%char "") lines)
  = lines.
Proof.
  intros Hlines Hne. induction Hlines as [|l ls Hl Hls IH]; [congruence|].
  destruct ls as [|l' ls'].
  - cbn [PyStr.join]. destruct l as [|c s]; [reflexivity|].
    rewrite <- (append_empty (String c s)) at 1.
    rewrite file_lines_line by (auto; discriminate).
    cbn [PyStr.file_lines]. rewrite append_empty. reflexivity.
  - rewrite join_cons. specialize (IH ltac:(discriminate)).
    assert (Hterm : forall after_cr rest,
               PyStr.file_lines after_cr
                 ((if crlf then String "013"%char (String "010"%char "")
                   else String "010"%char "") ++ rest)
               = if (after_cr && negb crlf)%bool
                 then PyStr.file_lines false rest
                 else "" :: PyStr.file_lines false rest).
    { intros after_cr rest. destruct crlf, after_cr; reflexivity. }
    destruct l as [|c s].
    + change ("" ++ ?x) with x. rewrite Hterm. cbn [andb]. rewrite IH.
      reflexivity.
    + rewrite file_lines_line by (auto; discriminate).
      rewrite Hterm. cbn [andb]. rewrite append_empty, IH. reflexivity.
Qed.

(** X9. A text file that holds the lines [lines], separated by LF or by
    CR LF, loads as the cleaning loop applied to these lines: blank
    lines and the whitespace around a line do not matter, and the order
    of the lines is kept. *)
Theorem load_dois_from_text (env : Env) (filepath : string) (w : World)
    (crlf : bool) (lines : list string) :
  PyStr.endswith filepath ".csv" = false ->
  Forall (fun l => no_newline l = true) lines ->
  files w !! filepath
  = Some (PyStr.join (if crlf then String "013"%char (String "010"%char "")
                      else String "010"%char "") lines) ->
  fst (load_dois_from_file env filepath w) = inr (clean_dois lines).
Proof.
  intros Htxt Hlines Hfile. unfold load_dois_from_file. run_m.
  rewrite Htxt, Hfile. simpl. f_equal. unfold stripped_lines.
  destruct lines as [|l ls]; [reflexivity|].
  rewrite file_lines_join by (auto; discriminate).
  apply clean_dois_prepared.
Qed.

Lemma load_dois_from_text_witness :
  let lines := ["10.1/a"; ""; "  doi:10.1/b  "; "https://doi.org/10.1/c"; ""] in
  let w := {| files := {[ "dois.txt" := PyStr.join Example.newline lines ]};
              stdin := []; clock_reads := 0; trace := [] |} in
  fst (load_dois_from_file Example.env "dois.txt" w)
  = inr ["10.1/a"; "10.1/b"; "10.1/c"].
Proof.
  intros lines w.
  rewrite (load_dois_from_text Example.env "dois.txt" w false lines);
    [reflexivity | reflexivity | | vm_compute; reflexivity].
  repeat constructor.
Defined.

(** ** Checkpoint store *)

(** The world after a save. *)
Lemma save_checkpoint_outcome (env : Env) (results : list record)
    (file : string) (w : World) :
  save_checkpoint env results file w
  = (inr tt,
     match to_csv env results with
     | inr text =>
         {| files := <[file := text]> (files w); stdin := stdin w;
            clock_reads := clock_reads w;
            trace := (trace w
                      ++ [ELog INFO (CheckpointSaved (length results))])%list |}
     | inl (e, Some remains) =>
         {| files := <[file := remains]> (files w); stdin := stdin w;
            clock_reads := clock_reads w;
            trace := (trace w
                      ++ [ELog ERROR (ErrorSavingCheckpoint e)])%list |}
     | inl (e, None) => add_events w [ELog ERROR (ErrorSavingCheckpoint e)]
     end).
Proof.
  unfold save_checkpoint, add_events. run_m.
  destruct (to_csv env results) as [[e [remains|]]|text]; reflexivity.
Qed.

(** The world after a load. *)
Lemma load_checkpoint_outcome (env : Env) (file : string) (w : World) :
  load_checkpoint env file w
  = match files w !! file with
    | None => (inr [], w)
    | Some text =>
        match read_csv env text with
        | inr df =>
            (inr (to_dict_records df),
             add_events w [ELog INFO (CheckpointLoaded
                                        (length (to_dict_records df)))])
        | inl e => (inr [], add_events w [ELog ERROR (ErrorLoadingCheckpoint e)])
        end
    end.
Proof.
  unfold load_checkpoint, add_events. run_m.
  destruct (files w !! file) as [text|] eqn:Hfile; simpl; [|reflexivity].
  rewrite ?Hfile. simpl. destruct (read_csv env text); reflexivity.
Qed.

(** X11. A checkpoint file that is missing loads as the empty list
    without any trace; one that pandas cannot parse loads as the empty
    list with an error record. In no case does the load raise or change
    a file. *)
Theorem load_checkpoint_without_rows (env : Env) (file : string) (w : World) :
  (files w !! file = None -> load_checkpoint env file w = (inr [], w))
  /\ (forall text e,
        files w !! file = Some text -> read_csv env text = inl e ->
        load_checkpoint env file w
        = (inr [], add_events w [ELog ERROR (ErrorLoadingCheckpoint e)]))
  /\ (exists rows, fst (load_checkpoint env file w) = inr rows)
  /\ files (snd (load_checkpoint env file w)) = files w.
Proof.
  rewrite load_checkpoint_outcome. repeat split.
  - intros ->. reflexivity.
  - intros text e -> ->. reflexivity.
  - destruct (files w !! file) as [text|]; [|eauto].
    destruct (read_csv env text); eauto.
  - destruct (files w !! file) as [text|]; [|reflexivity].
    destruct (read_csv env text); reflexivity.
Qed.

Lemma load_checkpoint_without_rows_witness :
  load_checkpoint Example.env "none.csv" Example.world0
  = (inr [], Example.world0)
  /\ fst (load_checkpoint Example.env "empty.csv"
            {| files := {[ "empty.csv" := "" ]}; stdin := [];
               clock_reads := 0; trace := [] |}) = inr [].
Proof.
  split.
  - apply (load_checkpoint_without_rows Example.env "none.csv" Example.world0).
    reflexivity.
  - pose (w := {| files := {[ "empty.csv" := "" ]}; stdin := [];
                  clock_reads := 0; trace := [] |}).
    destruct (load_checkpoint_without_rows Example.env "empty.csv" w)
      as (_ & Hbad & _).
    fold w. rewrite (Hbad "" EmptyDataError); reflexivity.
Defined.

(** *** Rows as dicts *)

Lemma assoc_combine (name : string) (cols : list string) (vals : list pyval) :
  Py.assoc name (combine cols vals)
  = match column_index name cols with
    | Some i => nth_error vals i
    | None => None
    end.
Proof.
  revert vals. induction cols as [|c cols IH]; intros vals; [reflexivity|].
  destruct vals as [|v vals].
  - simpl. destruct (String.eqb name c); [reflexivity|].
    destruct (column_index name cols); reflexivity.
  - simpl. destruct (String.eqb name c); [reflexivity|].
    rewrite IH. destruct (column_index name cols); reflexivity.
Qed.

(** X12. For a frame with distinct column names, as pandas reads them:
    in the dict of a loaded row a key is bound to the cell the row has
    under the column of that name, and a name that is no column is no
    key. So the identifiers of a loaded checkpoint are the cells of its
    [doi] column, and a checkpoint without such a column has rows
    without identifier. *)
Theorem loaded_rows_follow_columns (df : DataFrame) (name : string) :
  List.NoDup (columns df) ->
  map (Py.assoc name) (to_dict_records df)
  = map (fun row =>
           match column_index name (columns df) with
           | Some i => nth_error (map cell_value row) i
           | None => None
           end) (rows df).
Proof.
  intros _. unfold to_dict_records. rewrite map_map.
  apply map_ext. intros row. apply assoc_combine.
Qed.

Lemma loaded_rows_follow_columns_witness :
  let df := {| columns := ["title"; "doi"];
               rows := [[CStr "A"; CStr "10.1/a"]; [CStr "B"; CNa]] |} in
  map (Py.assoc "doi") (to_dict_records df)
  = [Some (PStr "10.1/a"); Some (PFloat FNaN)]
  /\ map (Py.assoc "year") (to_dict_records df) = [None; None].
Proof.
  intros df.
  assert (Hcols : List.NoDup (columns df))
    by (cbn [columns df]; repeat constructor; simpl; intuition discriminate).
  split.
  - rewrite (loaded_rows_follow_columns df "doi" Hcols). reflexivity.
  - rewrite (loaded_rows_follow_columns df "year" Hcols). reflexivity.
Defined.

(** ** The events of a run *)

Lemma pace_app (a b : list Event) : pace (a ++ b) = (pace a ++ pace b)%list.
Proof.
  induction a as [|e a IH]; [reflexivity|].
  destruct e; simpl; rewrite IH; reflexivity.
Qed.

Lemma saved_sizes_app (a b : list Event) :
  saved_sizes (a ++ b) = (saved_sizes a ++ saved_sizes b)%list.
Proof.
  induction a as [|e a IH]; [reflexivity|].
  destruct e as [| |lvl []| |]; simpl; rewrite IH; reflexivity.
Qed.

Lemma pace_api_logs (logs : list Event) :
  forallb is_api_log logs = true -> pace logs = [].
Proof.
  induction logs as [|e logs IH]; [reflexivity|].
  simpl. intros H. apply andb_prop in H. destruct H as [He Hlogs].
  destruct e; try discriminate. simpl. auto.
Qed.

Lemma saved_sizes_api_logs (logs : list Event) :
  forallb is_api_log logs = true -> saved_sizes logs = [].
Proof.
  induction logs as [|e logs IH]; [reflexivity|].
  simpl. intros H. apply andb_prop in H. destruct H as [He Hlogs].
  destruct e as [| |lvl []| |]; try discriminate; simpl; auto.
Qed.

Lemma client_run (env : Env) (p : Provider) (doi : string) (timeout : Z)
    (w : World) :
  exists v logs,
    client env p doi timeout w
    = (inr v, add_events w (EGet (request_for p doi timeout) :: logs))
    /\ forallb is_api_log logs = true.
Proof.
  destruct (client_outcome env p doi timeout w) as (v & logs & Hrun & Hlogs).
  exists v, logs. split; [exact Hrun|].
  destruct (requests_get env (trace w) (request_for p doi timeout)) as [e|r].
  - subst logs. reflexivity.
  - destruct (status_code r =? 200).
    + destruct Hlogs as [-> | [e ->]]; reflexivity.
    + destruct (status_code r =? 404); subst logs; reflexivity.
Qed.

(** One identifier: the events, and the row when there is one. *)
Lemma process_doi_outcome (env : Env) (doi : string) (w : World) :
  exists c o d l1 l2 l3,
    forallb is_api_log l1 = true /\ forallb is_api_log l2 = true
    /\ forallb is_api_log l3 = true
    /\ let evs := (EGet (request_for CrossRef doi 10) :: l1
                   ++ ESleep 500 :: EGet (request_for OpenAlex doi 10) :: l2
                   ++ ESleep 500 :: EGet (request_for Dimensions doi 10) :: l3)%list in
       process_doi env doi w
       = match max_citations c o d with
         | inl e => (inl e, add_events w evs)
         | inr m =>
             (inr [("doi", PStr doi); ("crossref_citations", c);
                   ("openalex_citations", o); ("dimensions_citations", d);
                   ("max_citations", m);
                   ("processed_at",
                    PStr (isoformat (datetime_now env (clock_reads w))))],
              {| files := files w; stdin := stdin w;
                 clock_reads := S (clock_reads w);
                 trace := (trace w ++ evs)%list |})
         end.
Proof.
  unfold process_doi, sleep, sleep_safe. run_m.
  destruct (client_run env CrossRef doi 10 w) as (c & l1 & H1 & A1).
  cbn [client] in H1. rewrite H1.
  match goal with
  | |- context [get_openalex_citations env doi 10 ?w2] =>
      destruct (client_run env OpenAlex doi 10 w2) as (o & l2 & H2 & A2)
  end.
  cbn [client] in H2. rewrite H2.
  match goal with
  | |- context [get_dimensions_citations env doi 10 ?w4] =>
      destruct (client_run env Dimensions doi 10 w4) as (d & l3 & H3 & A3)
  end.
  cbn [client] in H3. rewrite H3.
  exists c, o, d, l1, l2, l3. repeat (split; [assumption|]).
  unfold add_events. simpl.
  destruct (max_citations c o d) as [e|m]; simpl;
    repeat (rewrite <- ?app_assoc; simpl); reflexivity.
Qed.

(** One turn of the loop of a run that returns. *)
Lemma process_all_cons_inv (env : Env) (file : string)
    (delay checkpoint_interval : Z) (total processed_count n : nat) (i : Z)
    (doi : string) (todo : list string) (results rs : list record)
    (w w' : World) :
  process_all env file delay checkpoint_interval total processed_count n i
    (doi :: todo) results w = (inr rs, w') ->
  exists row w1,
    process_doi env doi
      (add_events w [ELog INFO (Processing (Z.of_nat processed_count + i)
                                  total doi)])
    = (inr row, w1)
    /\ checkpoint_interval <> 0
    /\ ((i <? Z.of_nat n) = true -> 0 <= delay)
    /\ let w2 := if i mod checkpoint_interval =? 0
                 then snd (save_checkpoint env (results ++ [row]) file w1)
                 else w1 in
       let w3 := if i <? Z.of_nat n then add_events w2 [ESleep delay] else w2 in
       process_all env file delay checkpoint_interval total processed_count n
         (i + 1) todo (results ++ [row]) w3 = (inr rs, w').
Proof.
  cbn [process_all]. unfold bind at 1, log, emit. cbn beta iota.
  fold (add_events w [ELog INFO (Processing (Z.of_nat processed_count + i)
                                   total doi)]).
  unfold bind at 1.
  destruct (process_doi env doi _) as [[e|row] w1]; [discriminate|].
  unfold bind at 1.
  destruct (checkpoint_interval =? 0) eqn:Hci; [discriminate|].
  apply Z.eqb_neq in Hci.
  assert (Hstep : (if i mod checkpoint_interval =? 0
                   then save_checkpoint env (results ++ [row]) file
                   else ret tt) w1
                  = (inr tt,
                     if i mod checkpoint_interval =? 0
                     then snd (save_checkpoint env (results ++ [row]) file w1)
                     else w1)).
  { destruct (i mod checkpoint_interval =? 0); [|reflexivity].
    rewrite save_checkpoint_outcome. reflexivity. }
  rewrite Hstep. unfold bind at 1, sleep.
  destruct (i <? Z.of_nat n) eqn:Hlast.
  - destruct (delay <? 0) eqn:Hdelay; [discriminate|].
    apply Z.ltb_ge in Hdelay.
    destruct (delay <=? sleep_safe);
      [|destruct (sleep_refused env _ delay); [discriminate|]];
      unfold emit; cbn beta iota;
      intros Hrest; exists row, w1; auto.
  - unfold ret. intros Hrest. exists row, w1.
    split; [reflexivity|]. split; [exact Hci|].
    split; [discriminate | exact Hrest].
Qed.

Lemma process_doi_returned (env : Env) (doi : string) (w w1 : World)
    (row : record) :
  process_doi env doi w = (inr row, w1) ->
  fresh_row doi row
  /\ files w1 = files w /\ stdin w1 = stdin w
  /\ clock_reads w1 = S (clock_reads w)
  /\ exists evs, trace w1 = (trace w ++ evs)%list
                 /\ pace evs = doi_pace doi /\ saved_sizes evs = [].
Proof.
  destruct (process_doi_outcome env doi w)
    as (c & o & d & l1 & l2 & l3 & A1 & A2 & A3 & Hrun).
  cbv zeta in Hrun. rewrite Hrun.
  destruct (max_citations c o d) as [e|m] eqn:Hmax; [discriminate|].
  intros H. inversion H; subst row w1; clear H. cbn [files stdin clock_reads trace].
  split; [repeat eexists; exact Hmax|].
  repeat (split; [reflexivity|]).
  eexists. split; [reflexivity|]. split.
  - change (?x :: l1 ++ ?y)%list with ([x] ++ l1 ++ y)%list.
    rewrite !pace_app.
    change (ESleep 500 :: ?x :: l2 ++ ?y)%list
      with ([ESleep 500; x] ++ l2 ++ y)%list.
    rewrite !pace_app.
    change (ESleep 500 :: ?x :: l3)%list with ([ESleep 500; x] ++ l3)%list.
    rewrite !pace_app, (pace_api_logs l1 A1), (pace_api_logs l2 A2),
      (pace_api_logs l3 A3). reflexivity.
  - change (?x :: l1 ++ ?y)%list with ([x] ++ l1 ++ y)%list.
    rewrite !saved_sizes_app.
    change (ESleep 500 :: ?x :: l2 ++ ?y)%list
      with ([ESleep 500; x] ++ l2 ++ y)%list.
    rewrite !saved_sizes_app.
    change (ESleep 500 :: ?x :: l3)%list with ([ESleep 500; x] ++ l3)%list.
    rewrite !saved_sizes_app, (saved_sizes_api_logs l1 A1),
      (saved_sizes_api_logs l2 A2), (saved_sizes_api_logs l3 A3). reflexivity.
Qed.

Lemma save_step_world (env : Env) (rows : list record) (file : string)
    (cond : bool) (w1 : World) :
  let w2 := if cond then snd (save_checkpoint env rows file w1) else w1 in
  stdin w2 = stdin w1 /\ clock_reads w2 = clock_reads w1
  /\ same_files_except file w1 w2
  /\ exists evs, trace w2 = (trace w1 ++ evs)%list /\ pace evs = []
                 /\ (writer_reliable env ->
                     saved_sizes evs = if cond then [length rows] else []).
Proof.
  destruct cond; cbv zeta.
  - rewrite save_checkpoint_outcome. cbn [snd].
    destruct (to_csv env rows) as [[e [remains|]]|text] eqn:Hcsv; cbn.
    + repeat (split; [reflexivity|]). split.
      * intros path Hpath. cbn. apply lookup_insert_ne. congruence.
      * eexists. split; [reflexivity|]. split; [reflexivity|].
        intros Hrel. destruct (Hrel rows) as [text Htext]. congruence.
    + repeat (split; [reflexivity|]).
      split; [apply same_files_eq; reflexivity|].
      eexists. split; [reflexivity|]. split; [reflexivity|].
      intros Hrel. destruct (Hrel rows) as [text Htext]. congruence.
    + repeat (split; [reflexivity|]). split.
      * intros path Hpath. cbn. apply lookup_insert_ne. congruence.
      * eexists. split; [reflexivity|]. split; reflexivity.
  - repeat (split; [reflexivity|]). split; [apply same_files_refl|].
    exists []. rewrite app_nil_r. auto.
Qed.

(** The loop of a run that returns: rows, events, clock and files. *)
Lemma process_all_returned (env : Env) (file : string)
    (delay checkpoint_interval : Z) (total processed_count n : nat)
    (todo : list string) :
  forall (i : Z) (results rs : list record) (w w' : World),
  process_all env file delay checkpoint_interval total processed_count n i
    todo results w = (inr rs, w') ->
  exists rows evs,
    rs = (results ++ rows)%list
    /\ Forall2 fresh_row todo rows
    /\ trace w' = (trace w ++ evs)%list
    /\ pace evs = pace_plan delay n i todo
    /\ (writer_reliable env ->
        saved_sizes evs
        = periodic_saves checkpoint_interval i (length results) (length todo))
    /\ stdin w' = stdin w
    /\ clock_reads w' = (clock_reads w + length todo)%nat
    /\ same_files_except file w w'.
Proof.
  induction todo as [|doi todo IH]; intros i results rs w w' Hrun.
  - inversion Hrun; subst rs w'. exists [], [].
    rewrite !app_nil_r. repeat split; auto using same_files_refl.
  - apply process_all_cons_inv in Hrun.
    destruct Hrun as (row & w1 & Hdoi & Hci & Hdelay & Hrest).
    cbv zeta in Hrest.
    apply process_doi_returned in Hdoi.
    destruct Hdoi as (Hrow & F1 & S1 & C1 & evs1 & T1 & P1 & V1).
    cbn [add_events files stdin clock_reads trace] in F1, S1, C1, T1.
    destruct (save_step_world env (results ++ [row]) file
                (i mod checkpoint_interval =? 0) w1)
      as (S2 & C2 & F2 & evs2 & T2 & P2 & V2).
    cbv zeta in S2, C2, F2, T2.
    set (w2 := if i mod checkpoint_interval =? 0
               then snd (save_checkpoint env (results ++ [row]) file w1)
               else w1) in *.
    set (w3 := if i <? Z.of_nat n then add_events w2 [ESleep delay] else w2)
      in *.
    apply IH in Hrest.
    destruct Hrest as (rows & evs & -> & Hrows & T3 & P3 & V3 & S3 & C3 & F3).
    assert (Hw3 : stdin w3 = stdin w2 /\ clock_reads w3 = clock_reads w2
                  /\ files w3 = files w2
                  /\ trace w3 = (trace w2
                                 ++ (if i <? Z.of_nat n then [ESleep delay]
                                     else []))%list).
    { subst w3. destruct (i <? Z.of_nat n); cbn; rewrite ?app_nil_r; auto. }
    destruct Hw3 as (S3' & C3' & F3' & T3').
    exists (row :: rows),
      ([ELog INFO (Processing (Z.of_nat processed_count + i) total doi)]
       ++ evs1 ++ evs2
       ++ (if i <? Z.of_nat n then [ESleep delay] else []) ++ evs)%list.
    split; [rewrite <- app_assoc; reflexivity|].
    split; [constructor; assumption|].
    split; [rewrite T3, T3', T2, T1, <- !app_assoc; reflexivity|].
    split.
    { rewrite !pace_app, P1, P2, P3. cbn [pace_plan].
      destruct (i <? Z.of_nat n); reflexivity. }
    split.
    { intros Hrel. rewrite !saved_sizes_app, V1, (V2 Hrel), (V3 Hrel).
      cbn [periodic_saves length]. rewrite length_app. cbn [length].
      replace (length results + 1)%nat with (S (length results)) by lia.
      destruct (i <? Z.of_nat n); destruct (i mod checkpoint_interval =? 0);
        reflexivity. }
    split; [congruence|].
    split; [cbn [length]; lia|].
    intros path Hpath. rewrite (F3 path Hpath), F3', (F2 path Hpath), F1.
    reflexivity.
Qed.

Lemma load_checkpoint_rows (env : Env) (file : string) (w : World) :
  exists logs,
    load_checkpoint env file w
    = (inr (checkpoint_rows env (files w) file), add_events w logs)
    /\ pace logs = [] /\ saved_sizes logs = [].
Proof.
  rewrite load_checkpoint_outcome. unfold checkpoint_rows.
  destruct (files w !! file) as [text|].
  - destruct (read_csv env text) as [e|df]; eexists; repeat split.
  - exists []. rewrite add_events_nil. repeat split.
Qed.

Lemma resume_state_returned (env : Env) (doi_list : list string) (file : string)
    (resume : bool) (w w1 : World) (start : list record * list string) :
  let loaded := if resume then checkpoint_rows env (files w) file else [] in
  resume_state env doi_list file resume w = (inr start, w1) ->
  start = (loaded, remaining_after loaded doi_list)
  /\ (exists values, doi_values loaded = inr values)
  /\ files w1 = files w /\ stdin w1 = stdin w
  /\ clock_reads w1 = clock_reads w
  /\ exists evs, trace w1 = (trace w ++ evs)%list
                 /\ pace evs = [] /\ saved_sizes evs = [].
Proof.
  intros loaded. subst loaded. unfold resume_state. destruct resume.
  - unfold bind at 1.
    destruct (load_checkpoint_rows env file w) as (logs & -> & Hp & Hs).
    unfold lift at 1.
    destruct (doi_values (checkpoint_rows env (files w) file)) as [e|vals]
      eqn:Hvals; [discriminate|].
    unfold log, emit, ret. cbn beta iota.
    intros H. inversion H; subst start w1; clear H.
    rewrite (not_processed_spec _ vals doi_list Hvals).
    split; [reflexivity|]. split; [eauto|].
    cbn. repeat (split; [reflexivity|]).
    eexists. rewrite <- app_assoc. split; [reflexivity|].
    rewrite pace_app, saved_sizes_app, Hp, Hs. split; reflexivity.
  - unfold ret. intros H. inversion H; subst start w1; clear H.
    rewrite remaining_after_nil. split; [reflexivity|].
    split; [exists []; reflexivity|].
    repeat (split; [reflexivity|]). exists []. rewrite app_nil_r. auto.
Qed.

(** A run that returns: its rows, its events, the clock and the files. *)
Lemma analyze_citations_returned (env : Env) (doi_list : list string)
    (delay checkpoint_interval : Z) (resume : bool) (w w' : World)
    (rs : list record) :
  let file := checkpoint_name (datetime_now env (clock_reads w)) in
  let loaded := if resume then checkpoint_rows env (files w) file else [] in
  let remaining := remaining_after loaded doi_list in
  analyze_citations env doi_list delay checkpoint_interval resume w
  = (inr rs, w') ->
  exists rows evs,
    rs = (loaded ++ rows)%list
    /\ Forall2 fresh_row remaining rows
    /\ trace w' = (trace w ++ evs)%list
    /\ pace evs = pace_plan delay (length remaining) 1 remaining
    /\ (writer_reliable env ->
        saved_sizes evs
        = (periodic_saves checkpoint_interval 1 (length loaded)
             (length remaining) ++ [length rs])%list)
    /\ stdin w' = stdin w
    /\ clock_reads w' = (clock_reads w + 1 + length remaining)%nat
    /\ same_files_except file w w'
    /\ (forall text, to_csv env rs = inr text -> files w' !! file = Some text).
Proof.
  intros file loaded remaining.
  unfold analyze_citations. unfold bind at 1, now. cbn beta iota.
  fold file. unfold bind at 1.
  destruct (resume_state env doi_list file resume _) as [[e|start] w1] eqn:Hstart;
    [discriminate|].
  apply resume_state_returned in Hstart.
  cbn [files stdin clock_reads trace] in Hstart.
  fold loaded in Hstart. fold remaining in Hstart.
  destruct Hstart as (-> & _ & F1 & S1 & C1 & evs1 & T1 & P1 & V1).
  cbn [fst snd]. unfold bind at 1, log, emit. cbn beta iota.
  unfold bind at 1.
  destruct (process_all env file delay checkpoint_interval _ _ _ 1 remaining
              loaded _) as [[e|rs'] w3] eqn:Hloop; [discriminate|].
  apply process_all_returned in Hloop.
  cbn [files stdin clock_reads trace] in Hloop.
  destruct Hloop as (rows & evs2 & -> & Hrows & T2 & P2 & V2 & S2 & C2 & F2).
  unfold bind at 1. rewrite save_checkpoint_outcome. unfold ret.
  intros H. inversion H; subst rs; clear H.
  destruct (save_step_world env (loaded ++ rows) file true w3)
    as (S3 & C3 & F3 & evs3 & T3 & P3 & V3).
  cbv zeta iota in S3, C3, F3, T3. rewrite save_checkpoint_outcome in *.
  cbn [snd] in *.
  exists rows, (evs1 ++ [ELog INFO (Starting (length remaining))]
                ++ evs2 ++ evs3)%list.
  split; [reflexivity|]. split; [exact Hrows|].
  split; [rewrite T3, T2, T1, <- !app_assoc; reflexivity|].
  split; [rewrite !pace_app, P1, P2, P3, app_nil_r; reflexivity|].
  split.
  { intros Hrel. rewrite !saved_sizes_app, V1, (V2 Hrel), (V3 Hrel).
    reflexivity. }
  split; [congruence|].
  split; [rewrite C3, C2, C1; lia|].
  split.
  { intros path Hpath. rewrite (F3 path Hpath), (F2 path Hpath), F1.
    reflexivity. }
  intros text Htext. rewrite Htext. cbn. apply lookup_insert_eq.
Qed.

(** ** Pace, saves and rows of a run that returns *)

Lemma pace_plan_between (delay : Z) (todo : list string) :
  forall (i : Z) (n : nat),
  Z.of_nat n = i - 1 + Z.of_nat (length todo) ->
  pace_plan delay n i todo = between [ESleep delay] (map doi_pace todo).
Proof.
  induction todo as [|doi todo IH]; intros i n Hn; [reflexivity|].
  cbn [pace_plan map]. destruct todo as [|doi' todo'].
  - cbn [length] in Hn.
    assert (Hlast : (i <? Z.of_nat n) = false) by (apply Z.ltb_ge; lia).
    rewrite Hlast. cbn [pace_plan between]. rewrite !app_nil_r. reflexivity.
  - assert (Hmore : (i <? Z.of_nat n) = true)
      by (apply Z.ltb_lt; cbn [length] in Hn; lia).
    rewrite Hmore, (IH (i + 1) n) by (cbn [length] in *; lia).
    reflexivity.
Qed.

(** X13. In a run that returns, the requests and sleeps are these and no
    others: for each identifier left to process, in order, the CrossRef
    request, half a second, the OpenAlex request, half a second, the
    Dimensions request; and [delay] between two identifiers, none after
    the last. *)
Theorem run_pace (env : Env) (doi_list : list string)
    (delay checkpoint_interval : Z) (resume : bool) (w w' : World)
    (rs : list record) :
  let file := checkpoint_name (datetime_now env (clock_reads w)) in
  let loaded := if resume then checkpoint_rows env (files w) file else [] in
  let remaining := remaining_after loaded doi_list in
  analyze_citations env doi_list delay checkpoint_interval resume w
  = (inr rs, w') ->
  pace (trace w')
  = (pace (trace w) ++ between [ESleep delay] (map doi_pace remaining))%list.
Proof.
  intros file loaded remaining Hrun.
  apply analyze_citations_returned in Hrun.
  fold file loaded remaining in Hrun.
  destruct Hrun as (rows & evs & _ & _ & -> & Hpace & _).
  rewrite pace_app, Hpace. f_equal. apply pace_plan_between. lia.
Qed.

Lemma run_pace_witness :
  let run := analyze_citations Example.env ["10.1/a"; "10.1/b"] 2000 100 true
               Example.world0 in
  pace (trace (snd run))
  = (doi_pace "10.1/a" ++ [ESleep 2000] ++ doi_pace "10.1/b")%list.
Proof.
  intros run.
  assert (Hret : exists rs, fst run = inr rs)
    by (eexists; vm_compute; reflexivity).
  destruct Hret as [rs Hret].
  rewrite (run_pace Example.env ["10.1/a"; "10.1/b"] 2000 100 true
             Example.world0 (snd run) rs).
  - vm_compute. reflexivity.
  - rewrite <- Hret. apply surjective_pairing.
Defined.

Lemma periodic_saves_seq (checkpoint_interval : Z) (rows : nat) (m : nat) :
  forall k : nat,
  periodic_saves checkpoint_interval (Z.of_nat (S k)) (rows + k) m
  = map (fun j => (rows + j)%nat)
      (List.filter (fun j => Z.of_nat j mod checkpoint_interval =? 0)
         (seq (S k) m)).
Proof.
  induction m as [|m IH]; intros k; [reflexivity|].
  cbn [periodic_saves seq List.filter].
  replace (Z.of_nat (S k) + 1) with (Z.of_nat (S (S k))) by lia.
  replace (S (rows + k)) with (rows + S k)%nat by lia.
  rewrite (IH (S k)).
  destruct (Z.of_nat (S k) mod checkpoint_interval =? 0); reflexivity.
Qed.

(** X14. With a writer that does not fail, the saves of a run that
    returns are logged with these sizes, in this order: after every
    identifier whose position among the identifiers left to process is a
    multiple of the checkpoint interval, the rows so far (loaded rows
    included); and at the end, all rows. *)
Theorem run_saves (env : Env) (doi_list : list string)
    (delay checkpoint_interval : Z) (resume : bool) (w w' : World)
    (rs : list record) :
  let file := checkpoint_name (datetime_now env (clock_reads w)) in
  let loaded := if resume then checkpoint_rows env (files w) file else [] in
  let remaining := remaining_after loaded doi_list in
  writer_reliable env ->
  analyze_citations env doi_list delay checkpoint_interval resume w
  = (inr rs, w') ->
  saved_sizes (trace w')
  = (saved_sizes (trace w)
     ++ map (fun j => (length loaded + j)%nat)
          (List.filter (fun j => Z.of_nat j mod checkpoint_interval =? 0)
             (seq 1 (length remaining)))
     ++ [(length loaded + length remaining)%nat])%list.
Proof.
  intros file loaded remaining Hrel Hrun.
  apply analyze_citations_returned in Hrun.
  fold file loaded remaining in Hrun.
  destruct Hrun as (rows & evs & -> & Hrows & -> & _ & Hsaves & _).
  rewrite saved_sizes_app, (Hsaves Hrel). f_equal.
  pose proof (periodic_saves_seq checkpoint_interval (length loaded)
                (length remaining) 0) as Hseq.
  rewrite Nat.add_0_r in Hseq. change (Z.of_nat 1) with 1 in Hseq.
  rewrite Hseq, length_app. f_equal. f_equal. f_equal.
  symmetry. eapply Forall2_length. exact Hrows.
Qed.

Lemma example_writer_reliable : writer_reliable Example.env.
Proof. intros [|first rest]; eexists; reflexivity. Qed.

Lemma run_saves_witness :
  let run := analyze_citations Example.env
               ["10.1/a"; "10.1/b"; "10.1/c"; "10.1/d"; "10.1/e"] 0 2 true
               Example.world0 in
  saved_sizes (trace (snd run)) = [2; 4; 5]%nat.
Proof.
  intros run.
  assert (Hret : exists rs, fst run = inr rs)
    by (eexists; vm_compute; reflexivity).
  destruct Hret as [rs Hret].
  rewrite (run_saves Example.env
             ["10.1/a"; "10.1/b"; "10.1/c"; "10.1/d"; "10.1/e"] 0 2 true
             Example.world0 (snd run) rs example_writer_reliable).
  - vm_compute. reflexivity.
  - rewrite <- Hret. apply surjective_pairing.
Defined.

(** X15. The result set of a run that returns is the loaded checkpoint,
    row for row, followed by one fresh row per identifier left to
    process, in order: a row of the six keys whose identifier is that
    identifier and whose [max_citations] entry is the maximum computed
    from its own three counts. *)
Theorem run_rows (env : Env) (doi_list : list string)
    (delay checkpoint_interval : Z) (resume : bool) (w w' : World)
    (rs : list record) :
  let file := checkpoint_name (datetime_now env (clock_reads w)) in
  let loaded := if resume then checkpoint_rows env (files w) file else [] in
  let remaining := remaining_after loaded doi_list in
  analyze_citations env doi_list delay checkpoint_interval resume w
  = (inr rs, w') ->
  exists rows,
    rs = (loaded ++ rows)%list
    /\ Forall2 fresh_row remaining rows
    /\ Forall (fun row => map fst row = row_keys) rows.
Proof.
  intros file loaded remaining Hrun.
  apply analyze_citations_returned in Hrun.
  fold file loaded remaining in Hrun.
  destruct Hrun as (rows & evs & -> & Hrows & _).
  exists rows. split; [reflexivity|]. split; [exact Hrows|].
  clear -Hrows. induction Hrows as [|d row ds rows' Hrow _ IH]; constructor.
  - destruct Hrow as (c & o & dd & m & stamp & -> & _). reflexivity.
  - exact IH.
Qed.

Lemma run_rows_witness :
  let run := analyze_citations Example.env ["10.1/a"] 2000 100 true
               Example.world0 in
  exists rows, fst run = inr rows /\ Forall2 fresh_row ["10.1/a"] rows.
Proof.
  intros run.
  assert (Hret : exists rs, fst run = inr rs)
    by (eexists; vm_compute; reflexivity).
  destruct Hret as [rs Hret].
  destruct (run_rows Example.env ["10.1/a"] 2000 100 true Example.world0
              (snd run) rs) as (rows & Hrs & Hrows & _).
  - rewrite <- Hret. apply surjective_pairing.
  - exists rows. split; [|exact Hrows].
    rewrite Hret, Hrs. reflexivity.
Defined.

(** X16. A run that returns leaves every file but its own checkpoint as
    it was, reads no console input, has read the clock once at the start
    and once per fresh row, and, when the last write succeeds, leaves in
    its checkpoint file the text of the whole result set. *)
Theorem run_leaves_final_checkpoint (env : Env) (doi_list : list string)
    (delay checkpoint_interval : Z) (resume : bool) (w w' : World)
    (rs : list record) :
  let file := checkpoint_name (datetime_now env (clock_reads w)) in
  let loaded := if resume then checkpoint_rows env (files w) file else [] in
  analyze_citations env doi_list delay checkpoint_interval resume w
  = (inr rs, w') ->
  same_files_except file w w'
  /\ stdin w' = stdin w
  /\ clock_reads w' = (clock_reads w + 1 + (length rs - length loaded))%nat
  /\ forall text, to_csv env rs = inr text -> files w' !! file = Some text.
Proof.
  intros file loaded Hrun.
  apply analyze_citations_returned in Hrun.
  fold file loaded in Hrun.
  destruct Hrun as (rows & evs & -> & Hrows & _ & _ & _ & Hin & Hclock & Hfiles
                    & Hsaved).
  split; [exact Hfiles|]. split; [exact Hin|]. split; [|exact Hsaved].
  rewrite Hclock, length_app.
  apply Forall2_length in Hrows. lia.
Qed.

Lemma run_leaves_final_checkpoint_witness :
  let run := analyze_citations Example.env ["10.1/a"] 2000 100 true
               Example.world0 in
  exists rs text,
    fst run = inr rs /\ to_csv Example.env rs = inr text
    /\ files (snd run) !! "citation_analysis_checkpoint_20240517_090030.csv"
       = Some text.
Proof.
  intros run.
  assert (Hret : exists rs, fst run = inr rs)
    by (eexists; vm_compute; reflexivity).
  destruct Hret as [rs Hret].
  destruct (example_writer_reliable rs) as [text Htext].
  exists rs, text. split; [exact Hret|]. split; [exact Htext|].
  destruct (run_leaves_final_checkpoint Example.env ["10.1/a"] 2000 100 true
              Example.world0 (snd run) rs) as (_ & _ & _ & Hsaved).
  - rewrite <- Hret. apply surjective_pairing.
  - exact (Hsaved text Htext).
Defined.

(** ** Runs that do not return *)


(** One turn of the loop, once the row of the identifier is there. *)
Lemma process_all_turn (env : Env) (file : string)
    (delay checkpoint_interval : Z) (total processed_count n : nat) (i : Z)
    (doi : string) (todo : list string) (results : list record)
    (w w1 : World) (row : record) :
  process_doi env doi
    (add_events w [ELog INFO (Processing (Z.of_nat processed_count + i)
                                total doi)])
  = (inr row, w1) ->
  process_all env file delay checkpoint_interval total processed_count n i
    (doi :: todo) results w
  = if checkpoint_interval =? 0 then (inl ZeroDivisionError, w1)
    else
      let w2 := if i mod checkpoint_interval =? 0
                then snd (save_checkpoint env (results ++ [row]) file w1)
                else w1 in
      if i <? Z.of_nat n
      then if delay <? 0 then (inl ValueError, w2)
           else match (if delay <=? sleep_safe then None
                       else sleep_refused env (trace w2) delay) with
                | Some e => (inl e, w2)
                | None =>
                    process_all env file delay checkpoint_interval total
                      processed_count n (i + 1) todo (results ++ [row])
                      (add_events w2 [ESleep delay])
                end
      else process_all env file delay checkpoint_interval total
             processed_count n (i + 1) todo (results ++ [row]) w2.
Proof.
  intros Hdoi. cbn [process_all]. unfold bind at 1, log, emit. cbn beta iota.
  fold (add_events w [ELog INFO (Processing (Z.of_nat processed_count + i)
                                   total doi)]).
  unfold bind at 1. rewrite Hdoi. unfold bind at 1.
  destruct (checkpoint_interval =? 0); [reflexivity|].
  assert (Hstep : (if i mod checkpoint_interval =? 0
                   then save_checkpoint env (results ++ [row]) file
                   else ret tt) w1
                  = (inr tt,
                     if i mod checkpoint_interval =? 0
                     then snd (save_checkpoint env (results ++ [row]) file w1)
                     else w1)).
  { destruct (i mod checkpoint_interval =? 0); [|reflexivity].
    rewrite save_checkpoint_outcome. reflexivity. }
  rewrite Hstep. cbv zeta. unfold bind at 1, sleep.
  destruct (i <? Z.of_nat n); [|reflexivity].
  destruct (delay <? 0); [reflexivity|].
  destruct (delay <=? sleep_safe); [reflexivity|].
  destruct (sleep_refused env _ delay); reflexivity.
Qed.

Lemma resume_state_ok (env : Env) (doi_list : list string) (file : string)
    (resume : bool) (w : World) (values : list pyval) :
  let loaded := if resume then checkpoint_rows env (files w) file else [] in
  doi_values loaded = inr values ->
  exists logs,
    resume_state env doi_list file resume w
    = (inr (loaded, remaining_after loaded doi_list), add_events w logs)
    /\ pace logs = [] /\ saved_sizes logs = [].
Proof.
  intros loaded Hvalues. subst loaded. unfold resume_state. destruct resume.
  - unfold bind at 1.
    destruct (load_checkpoint_rows env file w) as (logs & -> & Hp & Hs).
    unfold lift at 1. rewrite Hvalues. unfold bind at 1, log, emit, ret.
    cbn beta iota.
    rewrite (not_processed_spec _ values doi_list Hvalues).
    eexists (logs ++ [_])%list. split.
    + unfold add_events, bind. cbn [files stdin clock_reads trace].
      rewrite <- app_assoc. reflexivity.
    + rewrite pace_app, saved_sizes_app, Hp, Hs. split; reflexivity.
  - exists []. rewrite add_events_nil, remaining_after_nil.
    repeat split.
Qed.

(** A run up to its loop, when the loaded rows have identifiers. *)
Lemma analyze_citations_start (env : Env) (doi_list : list string)
    (delay checkpoint_interval : Z) (resume : bool) (w : World)
    (values : list pyval) :
  let file := checkpoint_name (datetime_now env (clock_reads w)) in
  let loaded := if resume then checkpoint_rows env (files w) file else [] in
  let remaining := remaining_after loaded doi_list in
  doi_values loaded = inr values ->
  exists w0,
    analyze_citations env doi_list delay checkpoint_interval resume w
    = bind (process_all env file delay checkpoint_interval (length doi_list)
              (length loaded) (length remaining) 1 remaining loaded)
        (fun results =>
           bind (save_checkpoint env results file) (fun _ => ret results)) w0
    /\ files w0 = files w /\ stdin w0 = stdin w
    /\ clock_reads w0 = S (clock_reads w)
    /\ exists evs, trace w0 = (trace w ++ evs)%list
                   /\ pace evs = [] /\ saved_sizes evs = [].
Proof.
  intros file loaded remaining Hvalues.
  unfold analyze_citations. unfold bind at 1, now. cbn beta iota.
  fold file. unfold bind at 1.
  match goal with
  | |- context [resume_state env doi_list file resume ?w1] =>
      destruct (resume_state_ok env doi_list file resume w1 values)
        as (logs & -> & Hp & Hs); [exact Hvalues|]
  end.
  cbn [fst snd files]. fold loaded. fold remaining.
  unfold bind at 1, log, emit. cbn beta iota.
  eexists. split; [reflexivity|].
  cbn [files stdin clock_reads trace add_events].
  repeat (split; [reflexivity|]).
  eexists. rewrite <- app_assoc. split; [reflexivity|].
  rewrite pace_app, saved_sizes_app, Hp, Hs. split; reflexivity.
Qed.

(** The first turn of a run with something to process. *)
Lemma first_turn (env : Env) (doi_list : list string) (resume : bool)
    (w w0 : World) (doi : string) :
  answers_are_counts env ->
  files w0 = files w ->
  (exists evs, trace w0 = (trace w ++ evs)%list
               /\ pace evs = [] /\ saved_sizes evs = []) ->
  forall (total processed_count : nat),
  exists row w1,
    process_doi env doi
      (add_events w0 [ELog INFO (Processing (Z.of_nat processed_count + 1)
                                   total doi)])
    = (inr row, w1)
    /\ files w1 = files w
    /\ pace (trace w1) = (pace (trace w) ++ doi_pace doi)%list
    /\ saved_sizes (trace w1) = saved_sizes (trace w).
Proof.
  intros Hcounts Hfiles (evs & Htrace & Hp & Hs) total processed_count.
  destruct (process_doi_returns env doi
              (add_events w0 [ELog INFO (Processing
                                           (Z.of_nat processed_count + 1)
                                           total doi)]) Hcounts)
    as (row & w1 & Hdoi).
  exists row, w1. split; [exact Hdoi|].
  apply process_doi_returned in Hdoi.
  destruct Hdoi as (_ & F1 & _ & _ & evs1 & T1 & P1 & V1).
  cbn [add_events files trace] in F1, T1.
  split; [congruence|].
  rewrite T1, Htrace, !pace_app, !saved_sizes_app, Hp, Hs, P1, V1.
  cbn [pace saved_sizes]. rewrite !app_nil_r. split; reflexivity.
Qed.

(** X17. With a checkpoint interval of 0 a run that has something to
    process raises [ZeroDivisionError] right after the three requests of
    the first identifier: the row is not saved, no file is changed, and
    nothing is requested for the other identifiers. *)
Theorem zero_interval_aborts_after_first (env : Env) (doi_list : list string)
    (delay : Z) (resume : bool) (w : World) (doi : string)
    (rest : list string) :
  let file := checkpoint_name (datetime_now env (clock_reads w)) in
  let loaded := if resume then checkpoint_rows env (files w) file else [] in
  answers_are_counts env ->
  (exists values, doi_values loaded = inr values) ->
  remaining_after loaded doi_list = doi :: rest ->
  exists w',
    analyze_citations env doi_list delay 0 resume w
    = (inl ZeroDivisionError, w')
    /\ pace (trace w') = (pace (trace w) ++ doi_pace doi)%list
    /\ saved_sizes (trace w') = saved_sizes (trace w)
    /\ files w' = files w.
Proof.
  intros file loaded Hcounts [values Hvalues] Hremaining.
  destruct (analyze_citations_start env doi_list delay 0 resume w values
              Hvalues) as (w0 & -> & F0 & _ & _ & Hevs).
  fold file loaded. rewrite Hremaining.
  destruct (first_turn env doi_list resume w w0 doi Hcounts F0 Hevs
              (length doi_list) (length loaded))
    as (row & w1 & Hdoi & F1 & P1 & V1).
  unfold bind at 1.
  rewrite (process_all_turn env file delay 0 _ _ _ 1 doi rest loaded w0 w1 row
             Hdoi).
  cbn [Z.eqb]. exists w1. auto.
Qed.

Lemma example_answers_are_counts : answers_are_counts Example.env.
Proof.
  intros p doi w. destruct p;
    [exists (Some 12) | exists (Some 15) | exists (Some 9)]; reflexivity.
Qed.

Lemma zero_interval_aborts_after_first_witness :
  exists w',
    analyze_citations Example.env ["10.1/a"; "10.1/b"] 2000 0 true
      Example.world0
    = (inl ZeroDivisionError, w')
    /\ pace (trace w') = doi_pace "10.1/a"
    /\ files w' = ∅.
Proof.
  destruct (zero_interval_aborts_after_first Example.env ["10.1/a"; "10.1/b"]
              2000 true Example.world0 "10.1/a" ["10.1/b"]
              example_answers_are_counts)
    as (w' & Hrun & Hpace & _ & Hfiles).
  - exists []. vm_compute. reflexivity.
  - vm_compute. reflexivity.
  - exists w'. split; [exact Hrun|]. split; [exact Hpace | exact Hfiles].
Defined.



Lemma doi_values_missing (rows : list record) (row : record) :
  In row rows -> Py.assoc "doi" row = None -> doi_values rows = inl KeyError.
Proof.
  intros Hin Hrow. induction rows as [|r rows IH]; [destruct Hin|].
  cbn [doi_values Py.getitem].
  destruct (Py.assoc "doi" r) as [v|] eqn:Hr; [|reflexivity].
  destruct Hin as [-> | Hin]; [congruence|].
  rewrite (IH Hin). reflexivity.
Qed.


Lemma resume_state_raised (env : Env) (doi_list : list string) (file : string)
    (resume : bool) (w w' : World) (e : exn) :
  resume_state env doi_list file resume w = (inl e, w') ->
  resume = true
  /\ doi_values (checkpoint_rows env (files w) file) = inl e
  /\ files w' = files w
  /\ exists logs, trace w' = (trace w ++ logs)%list
                  /\ pace logs = [] /\ saved_sizes logs = [].
Proof.
  unfold resume_state. destruct resume; [|discriminate].
  unfold bind at 1.
  destruct (load_checkpoint_rows env file w) as (logs & -> & Hp & Hs).
  unfold lift at 1.
  destruct (doi_values (checkpoint_rows env (files w) file)) as [e'|values];
    [|discriminate].
  intros H. inversion H; subst e' w'.
  split; [reflexivity|]. split; [reflexivity|]. split; [reflexivity|].
  exists logs. auto.
Qed.

(** X19. A checkpoint with a row that has no [doi] entry stops a resumed
    run with [KeyError] before anything is requested, slept or
    written. *)
Theorem checkpoint_without_identifier_aborts (env : Env)
    (doi_list : list string) (delay checkpoint_interval : Z) (w : World)
    (row : record) :
  let file := checkpoint_name (datetime_now env (clock_reads w)) in
  let run := analyze_citations env doi_list delay checkpoint_interval true w in
  In row (checkpoint_rows env (files w) file) ->
  Py.assoc "doi" row = None ->
  fst run = inl KeyError
  /\ pace (trace (snd run)) = pace (trace w)
  /\ files (snd run) = files w.
Proof.
  intros file run Hin Hrow.
  assert (Hout : exists w', run = (inl KeyError, w')
                            /\ pace (trace w') = pace (trace w)
                            /\ files w' = files w).
  { subst run. unfold analyze_citations. unfold bind at 1, now.
    cbn beta iota. fold file. unfold bind at 1.
    destruct (resume_state env doi_list file true _) as [[e|start] w1]
      eqn:Hstart.
    - apply resume_state_raised in Hstart.
      cbn [files trace] in Hstart.
      destruct Hstart as (_ & Hvalues & F1 & logs & T1 & P1 & _).
      rewrite (doi_values_missing _ row Hin Hrow) in Hvalues.
      inversion Hvalues; subst e.
      exists w1. split; [reflexivity|]. split; [|exact F1].
      rewrite T1, pace_app, P1, app_nil_r. reflexivity.
    - apply resume_state_returned in Hstart.
      cbn [files] in Hstart. destruct Hstart as (_ & [values Hvalues] & _).
      rewrite (doi_values_missing _ row Hin Hrow) in Hvalues. discriminate. }
  destruct Hout as (w' & -> & Hpace & Hfiles). auto.
Qed.

Lemma checkpoint_without_identifier_aborts_witness :
  fst (analyze_citations Example.env ["10.1/a"] 2000 100 true
         Checkpoints.without_identifiers) = inl KeyError.
Proof.
  destruct (checkpoint_without_identifier_aborts Example.env ["10.1/a"] 2000
              100 Checkpoints.without_identifiers
              [("title", PStr "A"); ("year", PStr "1999")])
    as [Hout _].
  - vm_compute. left. reflexivity.
  - reflexivity.
  - exact Hout.
Defined.








(** ** The input stage *)

Lemma prints_app (a b : list Event) :
  prints (a ++ b) = (prints a ++ prints b)%list.
Proof.
  induction a as [|e a IH]; [reflexivity|].
  destruct e; simpl; rewrite IH; reflexivity.
Qed.

Lemma load_dois_from_file_outcome (env : Env) (filepath : string) (w : World) :
  exists lvl msg,
    load_dois_from_file env filepath w
    = (inr (file_dois env w filepath), add_events w [ELog lvl msg])
    /\ forall d, In d (file_dois env w filepath) -> d <> "".
Proof.
  unfold file_dois, load_dois_from_file, add_events. run_m.
  destruct (PyStr.endswith filepath ".csv");
    (destruct (files w !! filepath) as [text|]; simpl;
     [ try (destruct (read_csv env text) as [e|df]; simpl;
            [| destruct (doi_column df) as [e|dois]; simpl ]) |]);
    do 2 eexists; (split; [reflexivity|]);
    first [apply clean_dois_In | intros d []].
Qed.

Lemma truncate_outcome (what : string) (dois : list string) (w : World) :
  truncate what dois w
  = (inr (firstn (Z.to_nat 6000) dois),
     add_events w (if 6000 <? Z.of_nat (length dois)
                   then [EPrint (truncation_warning what (length dois))]
                   else [])).
Proof.
  unfold truncate. destruct (6000 <? Z.of_nat (length dois)) eqn:Hlong.
  - reflexivity.
  - apply Z.ltb_ge in Hlong. rewrite firstn_all2 by lia.
    rewrite add_events_nil. reflexivity.
Qed.

Lemma found_dois_outcome (dois : list string) (w : World) :
  found_dois dois w
  = match dois with
    | [] => (inr None, add_events w [EPrint "No valid DOIs provided. Exiting."])
    | _ :: _ => (inr (Some dois), add_events w [EPrint (found_line (length dois))])
    end.
Proof. destruct dois; reflexivity. Qed.

Lemma firstn_cap_cons (d : string) (l : list string) :
  exists l', firstn (Z.to_nat 6000) (d :: l) = d :: l'.
Proof.
  replace (Z.to_nat 6000) with (S (Z.to_nat 5999)) by lia.
  cbn [firstn]. eexists. reflexivity.
Qed.

(** Closes the goals about a world that differs from [w] by console
    events only. *)
Ltac console_only :=
  cbn [add_events files stdin clock_reads trace fst snd];
  rewrite ?pace_app;
  repeat match goal with
    | |- context [if ?c then _ else _] => destruct c
    end;
  cbn [pace]; rewrite ?app_nil_r; reflexivity.

(** X23. The input stage only talks to the console: whatever is typed
    and however it ends, no file is changed, the clock is not read,
    nothing is requested and nothing slept; at most two lines of input
    are consumed; and the only exception that escapes is [EOFError],
    when the console has fewer than two lines to give. *)
Theorem main_input_leaves_world (env : Env) (w w' : World)
    (out : exn + option (list string)) :
  main_input env w = (out, w') ->
  files w' = files w /\ clock_reads w' = clock_reads w
  /\ pace (trace w') = pace (trace w)
  /\ (exists k, (k <= 2)%nat /\ stdin w' = skipn k (stdin w))
  /\ forall e, out = inl e -> e = EOFError /\ (length (stdin w) < 2)%nat.
Proof.
  unfold main_input, input, print. run_m.
  destruct (stdin w) as [|choice rest] eqn:Hstdin; simpl.
  { intros H; inversion H; subst out w'; clear H.
    split; [reflexivity|]. split; [reflexivity|]. split; [console_only|].
    split; [exists 0%nat; split; [lia | reflexivity]|].
    intros e He. inversion He. split; [reflexivity | lia]. }
  destruct (String.eqb (PyStr.strip choice) "1").
  - destruct rest as [|line rest']; simpl.
    { intros H; inversion H; subst out w'; clear H.
      split; [reflexivity|]. split; [reflexivity|]. split; [console_only|].
      split; [exists 1%nat; split; [lia | reflexivity]|].
      intros e He. inversion He. split; [reflexivity | simpl; lia]. }
    match goal with
    | |- context [load_dois_from_file env ?path ?w1] =>
        destruct (load_dois_from_file_outcome env path w1)
          as (lvl & msg & -> & _);
        destruct (file_dois env w1 path) as [|d l]
    end; simpl.
    + intros H; inversion H; subst out w'; clear H.
      split; [reflexivity|]. split; [reflexivity|]. split; [console_only|].
      split; [exists 2%nat; split; [lia | reflexivity]|].
      intros e He. discriminate.
    + rewrite truncate_outcome.
      destruct (firstn_cap_cons d l) as [l' ->].
      rewrite found_dois_outcome.
      intros H; inversion H; subst out w'; clear H.
      split; [reflexivity|]. split; [reflexivity|]. split; [console_only|].
      split; [exists 2%nat; split; [lia | reflexivity]|].
      intros e He. discriminate.
  - destruct (String.eqb (PyStr.strip choice) "2").
    + destruct rest as [|line rest']; simpl.
      { intros H; inversion H; subst out w'; clear H.
        split; [reflexivity|]. split; [reflexivity|]. split; [console_only|].
        split; [exists 1%nat; split; [lia | reflexivity]|].
        intros e He. inversion He. split; [reflexivity | simpl; lia]. }
      rewrite truncate_outcome, found_dois_outcome.
      destruct (firstn (Z.to_nat 6000) (manual_dois (PyStr.strip line)));
        intros H; inversion H; subst out w'; clear H;
        (split; [reflexivity|]); (split; [reflexivity|]);
        (split; [console_only|]);
        (split; [exists 2%nat; split; [lia | reflexivity]|]);
        intros e He; discriminate.
    + simpl. intros H; inversion H; subst out w'; clear H.
      split; [reflexivity|]. split; [reflexivity|]. split; [console_only|].
      split; [exists 1%nat; split; [lia | reflexivity]|].
      intros e He. discriminate.
Qed.

Lemma main_input_leaves_world_witness :
  let w := {| files := {[ "dois.txt" := "10.1/a" ]};
              stdin := ["1"; "dois.txt"; "y"];
              clock_reads := 0; trace := [] |} in
  let run := main_input Example.env w in
  files (snd run) = files w /\ stdin (snd run) = ["y"].
Proof.
  intros w run.
  destruct (main_input_leaves_world Example.env w (snd run) (fst run))
    as (Hfiles & _ & _ & _ & _).
  - apply surjective_pairing.
  - split; [exact Hfiles | vm_compute; reflexivity].
Defined.

(** X24. A list that the input stage hands on is the list entered, cut
    to its first 6000 identifiers; it is not empty and holds no empty
    identifier, whether it comes from a file or from the console. *)
Theorem main_input_result (env : Env) (w w' : World) (dois : list string) :
  main_input env w = (inr (Some dois), w') ->
  exists all,
    entered_dois env w = Some all
    /\ dois = firstn (Z.to_nat 6000) all
    /\ dois <> []
    /\ (length dois <= Z.to_nat 6000)%nat
    /\ forall d, In d dois -> d <> "".
Proof.
  unfold entered_dois, main_input, input, print. run_m.
  destruct (stdin w) as [|choice rest] eqn:Hstdin; simpl; [discriminate|].
  destruct (String.eqb (PyStr.strip choice) "1").
  - destruct rest as [|line rest']; simpl; [discriminate|].
    match goal with
    | |- context [load_dois_from_file env ?path ?w1] =>
        destruct (load_dois_from_file_outcome env path w1)
          as (lvl & msg & -> & Hne);
        rewrite (file_dois_files env w1 w path eq_refl) in *
    end.
    destruct (file_dois env w (PyStr.strip line)) as [|d l] eqn:Hall; simpl;
      [discriminate|].
    rewrite truncate_outcome.
    destruct (firstn_cap_cons d l) as [l' Hcut]. rewrite Hcut.
    rewrite found_dois_outcome.
    intros H; inversion H; subst dois w'; clear H.
    exists (d :: l). split; [reflexivity|]. split; [auto|].
    split; [discriminate|]. rewrite <- Hcut.
    split; [apply firstn_le_length|].
    intros d' Hd'. apply In_firstn in Hd'. auto.
  - destruct (String.eqb (PyStr.strip choice) "2"); [|discriminate].
    destruct rest as [|line rest']; simpl; [discriminate|].
    rewrite truncate_outcome, found_dois_outcome.
    destruct (firstn (Z.to_nat 6000) (manual_dois (PyStr.strip line)))
      as [|d l] eqn:Hcut; [discriminate|].
    intros H; inversion H; subst dois w'; clear H.
    exists (manual_dois (PyStr.strip line)).
    split; [reflexivity|]. split; [auto|]. split; [discriminate|].
    rewrite <- Hcut. split; [apply firstn_le_length|].
    intros d' Hd'. apply In_firstn in Hd'. apply manual_dois_In in Hd'.
    tauto.
Qed.

Lemma main_input_result_witness :
  let w := {| files := ∅; stdin := ["2"; " 10.1/a, ,doi:10.1/b "];
              clock_reads := 0; trace := [] |} in
  exists dois, fst (main_input Example.env w) = inr (Some dois) /\ dois <> [].
Proof.
  intros w.
  assert (Hrun : exists dois, fst (main_input Example.env w) = inr (Some dois))
    by (eexists; vm_compute; reflexivity).
  destruct Hrun as [dois Hrun]. exists dois. split; [exact Hrun|].
  destruct (main_input_result Example.env w (snd (main_input Example.env w))
              dois) as (all & _ & _ & Hne & _).
  - rewrite <- Hrun. apply surjective_pairing.
  - exact Hne.
Defined.

(** Closes the goals about the lines printed on a path of the input
    stage. *)
Ltac printed :=
  cbn [add_events files stdin clock_reads trace fst snd];
  rewrite ?prints_app; cbn [prints]; rewrite ?app_nil_r, <- ?app_assoc;
  reflexivity.

(** X25. The three ways the input stage ends without a list, each after
    the title and with its own last line: a choice that is neither 1 nor
    2; a file that yields no identifier (missing, unreadable or empty);
    an entry without an identifier. *)
Theorem main_input_exits (env : Env) (w : World) (choice : string)
    (rest : list string) :
  let method := PyStr.strip choice in
  let run := main_input env w in
  stdin w = choice :: rest ->
  (method <> "1" -> method <> "2" ->
   fst run = inr None /\ stdin (snd run) = rest
   /\ prints (trace (snd run))
      = (prints (trace w) ++ title_lines ++ ["Invalid choice. Exiting."])%list)
  /\ (forall line rest', rest = line :: rest' -> method = "1" ->
      file_dois env w (PyStr.strip line) = [] ->
      fst run = inr None /\ stdin (snd run) = rest'
      /\ prints (trace (snd run))
         = (prints (trace w) ++ title_lines ++ ["No DOIs loaded. Exiting."])%list)
  /\ (forall line rest', rest = line :: rest' -> method = "2" ->
      manual_dois (PyStr.strip line) = [] ->
      fst run = inr None /\ stdin (snd run) = rest'
      /\ prints (trace (snd run))
         = (prints (trace w) ++ title_lines
            ++ ["No valid DOIs provided. Exiting."])%list).
Proof.
  intros method run Hstdin. subst method run.
  split; [| split].
  - intros Hone Htwo.
    apply String.eqb_neq in Hone. apply String.eqb_neq in Htwo.
    destruct (main_input env w) as [out w'] eqn:Hrun. cbn [fst snd].
    revert Hrun. unfold main_input, input, print. run_m.
    rewrite Hstdin. simpl. rewrite Hone, Htwo. simpl.
    intros H; inversion H; subst out w'; clear H.
    split; [reflexivity|]. split; [reflexivity|]. printed.
  - intros line rest' -> Hone Hnone.
    destruct (main_input env w) as [out w'] eqn:Hrun. cbn [fst snd].
    revert Hrun. unfold main_input, input, print. run_m.
    rewrite Hstdin. simpl. rewrite Hone. simpl.
    match goal with
    | |- context [load_dois_from_file env ?path ?w1] =>
        destruct (load_dois_from_file_outcome env path w1)
          as (lvl & msg & -> & _);
        rewrite (file_dois_files env w1 w path eq_refl) in *
    end.
    rewrite Hnone. simpl.
    intros H; inversion H; subst out w'; clear H.
    split; [reflexivity|]. split; [reflexivity|]. printed.
  - intros line rest' -> Htwo Hnone.
    destruct (main_input env w) as [out w'] eqn:Hrun. cbn [fst snd].
    revert Hrun. unfold main_input, input, print. run_m.
    rewrite Hstdin. simpl. rewrite Htwo. simpl.
    rewrite truncate_outcome, Hnone, found_dois_outcome. cbn [length].
    change (6000 <? Z.of_nat 0) with false. cbv iota.
    replace (firstn (Z.to_nat 6000) []) with (@nil string)
      by (symmetry; apply firstn_nil).
    intros H; inversion H; subst out w'; clear H.
    split; [reflexivity|]. split; [reflexivity|]. printed.
Qed.

Lemma main_input_exits_witness :
  let missing := {| files := ∅; stdin := ["1"; "dois.txt"];
                    clock_reads := 0; trace := [] |} in
  let blank := {| files := ∅; stdin := ["2"; " , ,"];
                  clock_reads := 0; trace := [] |} in
  let other := {| files := ∅; stdin := ["3"];
                  clock_reads := 0; trace := [] |} in
  fst (main_input Example.env missing) = inr None
  /\ fst (main_input Example.env blank) = inr None
  /\ fst (main_input Example.env other) = inr None.
Proof.
  intros missing blank other.
  split; [| split].
  - destruct (main_input_exits Example.env missing "1" ["dois.txt"] eq_refl)
      as (_ & Hfile & _).
    destruct (Hfile "dois.txt" [] eq_refl) as [Hout _];
      [reflexivity | vm_compute; reflexivity | exact Hout].
  - destruct (main_input_exits Example.env blank "2" [" , ,"] eq_refl)
      as (_ & _ & Hhand).
    destruct (Hhand " , ," [] eq_refl) as [Hout _];
      [reflexivity | vm_compute; reflexivity | exact Hout].
  - destruct (main_input_exits Example.env other "3" [] eq_refl)
      as (Hother & _ & _).
    destruct Hother as [Hout _]; [discriminate | discriminate | exact Hout].
Defined.

(** X26. A list of at most 6000 identifiers, not empty, goes on to the
    analysis as it was entered, and nothing is printed but the title and
    the line that announces its length: no warning. *)
Theorem short_list_is_accepted (env : Env) (w : World) (all : list string) :
  entered_dois env w = Some all ->
  all <> [] ->
  Z.of_nat (length all) <= 6000 ->
  exists w',
    main_input env w = (inr (Some all), w')
    /\ prints (trace w')
       = (prints (trace w) ++ title_lines ++ [found_line (length all)])%list.
Proof.
  intros Hentered Hne Hshort. unfold entered_dois in Hentered.
  destruct (stdin w) as [|choice [|line rest']] eqn:Hstdin; try discriminate.
  apply Z.ltb_ge in Hshort.
  unfold main_input, input, print. run_m. rewrite Hstdin. simpl.
  destruct (String.eqb (PyStr.strip choice) "1").
  - inversion Hentered; subst all; clear Hentered. simpl.
    match goal with
    | |- context [load_dois_from_file env ?path ?w1] =>
        destruct (load_dois_from_file_outcome env path w1)
          as (lvl & msg & -> & _);
        rewrite (file_dois_files env w1 w path eq_refl) in *
    end.
    destruct (file_dois env w (PyStr.strip line)) as [|d l] eqn:Hall;
      [congruence|]. simpl.
    rewrite truncate_outcome, Hshort, add_events_nil.
    rewrite firstn_all2 by (apply Z.ltb_ge in Hshort; lia).
    rewrite found_dois_outcome.
    eexists. split; [reflexivity|]. printed.
  - destruct (String.eqb (PyStr.strip choice) "2"); [|discriminate].
    inversion Hentered; subst all; clear Hentered. simpl.
    rewrite truncate_outcome, Hshort, add_events_nil.
    rewrite firstn_all2 by (apply Z.ltb_ge in Hshort; lia).
    rewrite found_dois_outcome.
    destruct (manual_dois (PyStr.strip line)) as [|d l]; [congruence|].
    eexists. split; [reflexivity|]. printed.
Qed.

Lemma short_list_is_accepted_witness :
  let w := {| files := {[ "dois.txt" := "doi:10.1/a" ++ Example.newline
                                        ++ "10.1/b" ++ Example.newline ]};
              stdin := ["1"; "dois.txt"]; clock_reads := 0; trace := [] |} in
  exists w',
    main_input Example.env w = (inr (Some ["10.1/a"; "10.1/b"]), w')
    /\ prints (trace w') = (title_lines ++ [found_line 2])%list.
Proof.
  intros w.
  assert (Hentered : entered_dois Example.env w = Some ["10.1/a"; "10.1/b"])
    by (vm_compute; reflexivity).
  destruct (short_list_is_accepted Example.env w ["10.1/a"; "10.1/b"] Hentered)
    as (w' & Hrun & Hprints); [discriminate | simpl; lia |].
  exists w'. split; [exact Hrun | exact Hprints].
Defined.
